(** * EthosLens governance pipeline: violation detection, status resolution,
      backend orchestration, availability probe and feedback.

    Shallow embedding of
      - server.js                               (module [Server])
      - src/services/governanceService.ts       (module [GovTS])
      - src/services/governanceService.js       (module [GovJS])
      - src/services/governanceServiceSupabase.ts (module [GovSupabase])
      - src/services/inkeepAgentsService.{ts,js} (module [Inkeep])
      - the Live Monitor page                   (module [LiveMonitor])
      - the HTTP endpoints of server.js         (module [Api])

    Conventions of the embedding.
      - A JavaScript string is a [string]: a sequence of code units below
        256 (the Latin-1 range).  [toLowerCase] is exact on that range.
      - A JavaScript number used as a severity is a rational [Q]; the
        finite doubles embed in [Q] with the same order, so [>=] is
        [Qle_bool].  [Math.max()] of no argument is -Infinity, written
        [None].
      - [Date.now()], [new Date()] and [Math.random()] are read from the
        environment: the clock value [now] and the random suffix [rnd].
      - A function that may throw returns a [Result]; an [async]
        function is run to completion at each [await], except the
        callbacks of [agents.map] in governanceServiceSupabase.ts, which
        are all started before any of them goes on. *)

From Stdlib Require Import QArith Lqa Ascii String.
From stdpp Require Import base list strings pretty gmap.

Local Open Scope string_scope.

(* ===================================================================== *)
(** ** Errors *)

Inductive Result (A : Type) : Type :=
| Ok (a : A)
| Throw (msg : string).
Arguments Ok {A} a.
Arguments Throw {A} msg.

(* ===================================================================== *)
(** ** Data model *)

(** The string literals assigned to [interaction.status] by the services. *)
Inductive Status : Type :=
| approved | pending | blocked      (* governanceService.{ts,js}, server.js *)
| flagged | compliant | error.      (* governanceServiceSupabase.ts *)

(** The string literals assigned to [interaction.severity]. *)
Inductive Severity : Type := low | medium | high | critical.

Definition Status_str (s : Status) : string :=
  match s with
  | approved => "approved" | pending => "pending" | blocked => "blocked"
  | flagged => "flagged" | compliant => "compliant" | error => "error"
  end.

#[global] Instance Status_eq_dec : EqDecision Status.
Proof. solve_decision. Defined.
#[global] Instance Severity_eq_dec : EqDecision Severity.
Proof. solve_decision. Defined.

(** Order low < medium < high < critical. *)
Definition Severity_rank (s : Severity) : nat :=
  match s with low => 0 | medium => 1 | high => 2 | critical => 3 end.

Definition Severity_le (a b : Severity) : Prop :=
  Severity_rank a <= Severity_rank b.

Record Violation : Type := mkViolation {
  v_type : string;
  v_description : string;
  v_reason : string;
  v_severity : Q;
  v_confidence : Q;
  v_regulatoryFramework : string
}.

(** [agentName]/[details] are called [agent]/[result] in server.js. *)
Record AgentAction : Type := mkAgentAction {
  a_agentName : string;
  a_action : string;
  a_details : string;
  a_timestamp : Z
}.

(** [userFeedback] of an interaction: the rating and when it was given. *)
Inductive Rating : Type := positive | negative | report.

Record UserFeedback : Type := mkUserFeedback {
  f_rating : Rating;
  f_timestamp : Z
}.

Record Interaction : Type := mkInteraction {
  i_id : string;
  i_input : string;
  i_output : string;
  i_timestamp : Z;
  i_status : Status;
  i_severity : Severity;
  i_violations : list Violation;
  i_agentActions : list AgentAction;
  i_userFeedback : option UserFeedback
}.

Definition set_status (s : Status) (i : Interaction) : Interaction :=
  mkInteraction (i_id i) (i_input i) (i_output i) (i_timestamp i)
                s (i_severity i) (i_violations i) (i_agentActions i)
                (i_userFeedback i).

Definition set_severity (s : Severity) (i : Interaction) : Interaction :=
  mkInteraction (i_id i) (i_input i) (i_output i) (i_timestamp i)
                (i_status i) s (i_violations i) (i_agentActions i)
                (i_userFeedback i).

Definition set_violations (vs : list Violation) (i : Interaction) : Interaction :=
  mkInteraction (i_id i) (i_input i) (i_output i) (i_timestamp i)
                (i_status i) (i_severity i) vs (i_agentActions i)
                (i_userFeedback i).

Definition set_agentActions (acts : list AgentAction) (i : Interaction) : Interaction :=
  mkInteraction (i_id i) (i_input i) (i_output i) (i_timestamp i)
                (i_status i) (i_severity i) (i_violations i) acts
                (i_userFeedback i).

Definition set_userFeedback (f : option UserFeedback) (i : Interaction) : Interaction :=
  mkInteraction (i_id i) (i_input i) (i_output i) (i_timestamp i)
                (i_status i) (i_severity i) (i_violations i) (i_agentActions i)
                f.

(** [interaction.violations.push(...vs)] *)
Definition push_violations (vs : list Violation) (i : Interaction) : Interaction :=
  set_violations (i_violations i ++ vs) i.

(** [interaction.agentActions.push(...acts)] *)
Definition push_actions (acts : list AgentAction) (i : Interaction) : Interaction :=
  set_agentActions (i_agentActions i ++ acts) i.

(** The resolved pair the Status Resolver leaves on the interaction. *)
Definition resolved (i : Interaction) : Status * Severity :=
  (i_status i, i_severity i).

(** An interaction that holds the given decision and violations and
    nothing else; the resolvers read only these fields. *)
Definition blank (st : Status) (sv : Severity) (vs : list Violation) : Interaction :=
  mkInteraction "" "" "" 0 st sv vs [] None.

(** Environment reads: clock and random suffix. *)
Record Env : Type := mkEnv { now : Z; rnd : string }.

(* ===================================================================== *)
(** ** Numbers *)

(** [a >= b] on severities. *)
Definition ge (a b : Q) : bool := Qle_bool b a.

(** One argument of [Math.max] taken into the running maximum;
    [None] is -Infinity. *)
Definition max_step (acc : option Q) (x : Q) : option Q :=
  match acc with
  | None => Some x
  | Some m => if Qle_bool m x then Some x else Some m
  end.

(** [Math.max(...xs)] *)
Definition Math_max (xs : list Q) : option Q := foldl max_step None xs.

(** [m >= t] where [m] may be -Infinity. *)
Definition max_ge (m : option Q) (t : Q) : bool :=
  match m with None => false | Some q => ge q t end.

(** [xs.some(p)] *)
Definition some {A} (p : A -> bool) (xs : list A) : bool := existsb p xs.

(* ===================================================================== *)
(** ** Strings *)

Definition code (c : ascii) : nat := nat_of_ascii c.

Definition between (lo hi : nat) (c : ascii) : bool :=
  (lo <=? code c)%nat && (code c <=? hi)%nat.

Definition isDigit (c : ascii) : bool := between 48 57 c.
Definition isUpper (c : ascii) : bool := between 65 90 c.
Definition isLower (c : ascii) : bool := between 97 122 c.
Definition isAlnum (c : ascii) : bool := isUpper c || isLower c || isDigit c.

(** The class [\w] of a regular expression without the [u] flag. *)
Definition isWord (c : ascii) : bool := isAlnum c || Ascii.eqb c "_".

(** [String.prototype.toLowerCase] on one Latin-1 code unit: A-Z and
    U+00C0..U+00DE except the multiplication sign move up by 32. *)
Definition lowerChar (c : ascii) : ascii :=
  if isUpper c || (between 192 222 c && negb (code c =? 215)%nat)
  then ascii_of_nat (code c + 32)
  else c.

Fixpoint toLowerCase (s : string) : string :=
  match s with
  | EmptyString => EmptyString
  | String c s' => String (lowerChar c) (toLowerCase s')
  end.

(** [s.startsWith(pat)] *)
Fixpoint startsWith (pat s : string) : bool :=
  match pat, s with
  | EmptyString, _ => true
  | String a pat', String b s' => Ascii.eqb a b && startsWith pat' s'
  | String _ _, EmptyString => false
  end.

(** [s.includes(pat)] *)
Fixpoint includes (s pat : string) : bool :=
  startsWith pat s ||
  match s with
  | EmptyString => false
  | String _ s' => includes s' pat
  end.

(** Truthiness of the result of [Array.prototype.find] over strings:
    [undefined] and the empty string are falsy. *)
Definition truthy (o : option string) : bool :=
  match o with
  | Some (String _ _) => true
  | _ => false
  end.

Fixpoint string_forall (p : ascii -> bool) (s : string) : bool :=
  match s with
  | EmptyString => true
  | String c s' => p c && string_forall p s'
  end.

(** First and last code unit, when there is one. *)
Definition first_char (s : string) : option ascii :=
  match s with EmptyString => None | String c _ => Some c end.

Fixpoint last_char (prev : option ascii) (s : string) : option ascii :=
  match s with
  | EmptyString => prev
  | String c s' => last_char (Some c) s'
  end.

(* ===================================================================== *)
(** ** Regular expressions

    The three literals of the detector are sequences of: the assertion
    [\b], one character of a class, [class{n}] and [class{n,}]
    ([class+] is [class{1,}]).  [String.prototype.match] is truthy when
    some start position and some choice of repetition counts match, which
    is what the backtracking search below decides. *)

Module Re.

Inductive atom : Type :=
| Bnd
| Cls (p : ascii -> bool)
| Rep (n : nat) (p : ascii -> bool)
| AtLeast (n : nat) (p : ascii -> bool).

Definition wordOpt (o : option ascii) : bool :=
  match o with None => false | Some c => isWord c end.

(** [\b] between the previous code unit and the rest of the input. *)
Definition atBoundary (prev : option ascii) (s : string) : bool :=
  xorb (wordOpt prev) (wordOpt (first_char s)).

Definition cont : Type := option ascii -> string -> bool.

Fixpoint rep (p : ascii -> bool) (k : cont) (n : nat)
         (prev : option ascii) (s : string) : bool :=
  match n with
  | O => k prev s
  | S n' =>
      match s with
      | String c s' => p c && rep p k n' (Some c) s'
      | EmptyString => false
      end
  end.

Fixpoint many (p : ascii -> bool) (k : cont)
         (prev : option ascii) (s : string) : bool :=
  k prev s ||
  match s with
  | String c s' => p c && many p k (Some c) s'
  | EmptyString => false
  end.

Definition matchAtom (a : atom) (k : cont) : cont :=
  fun prev s =>
    match a with
    | Bnd => atBoundary prev s && k prev s
    | Cls p => rep p k 1 prev s
    | Rep n p => rep p k n prev s
    | AtLeast n p => rep p (many p k) n prev s
    end.

Definition matchHere (re : list atom) : cont :=
  foldr matchAtom (fun _ _ => true) re.

Fixpoint searchFrom (re : list atom) (prev : option ascii) (s : string) : bool :=
  matchHere re prev s ||
  match s with
  | String c s' => searchFrom re (Some c) s'
  | EmptyString => false
  end.

(** Truthiness of [text.match(re)]. *)
Definition test (re : list atom) (text : string) : bool :=
  searchFrom re None text.

Definition lit (c : ascii) : ascii -> bool := Ascii.eqb c.

Definition oneOf (cs : string) (c : ascii) : bool :=
  includes cs (String c EmptyString).

End Re.

(* ===================================================================== *)
(** ** server.js: class EthosLensGovernance *)

Module Server.

Definition hackingPatterns : list string :=
  [ "hack into"; "hack someone"; "break into"; "unauthorized access";
    "crack password"; "bypass security"; "exploit vulnerability";
    "ddos attack"; "sql injection"; "phishing"; "malware";
    "how to hack"; "hacking tutorial"; "illegal access";
    "steal data"; "breach security"; "network intrusion" ].

Definition dataTheftPatterns : list string :=
  [ "share the internal"; "internal database"; "salary database";
    "confidential data"; "proprietary information"; "company secrets";
    "employee records"; "customer database"; "financial records";
    "trade secrets"; "classified information"; "private documents";
    "leak the data"; "access internal"; "company database";
    "sensitive information"; "restricted data"; "internal files" ].

Definition harmfulPatterns : list string :=
  [ "how to make bomb"; "create explosive"; "make poison";
    "suicide methods"; "self harm"; "hurt someone";
    "kill someone"; "murder"; "violence against";
    "how to kill"; "kill my"; "kill him"; "kill her";
    "murder my"; "murder him"; "murder her";
    "harm my"; "hurt my"; "attack my";
    "assassinate"; "eliminate someone" ].

(** /\b\d{3}-\d{2}-\d{4}\b/ *)
Definition re_ssn : list Re.atom :=
  [ Re.Bnd; Re.Rep 3 isDigit; Re.Cls (Re.lit "-"); Re.Rep 2 isDigit;
    Re.Cls (Re.lit "-"); Re.Rep 4 isDigit; Re.Bnd ].

(** /\b\d{16}\b/ *)
Definition re_card : list Re.atom :=
  [ Re.Bnd; Re.Rep 16 isDigit; Re.Bnd ].

(** /\b[A-Za-z0-9._%+-]+@[A-Za-z0-9.-]+\.[A-Z|a-z]{2,}\b/ *)
Definition re_email : list Re.atom :=
  [ Re.Bnd;
    Re.AtLeast 1 (fun c => isAlnum c || Re.oneOf "._%+-" c);
    Re.Cls (Re.lit "@");
    Re.AtLeast 1 (fun c => isAlnum c || Re.oneOf ".-" c);
    Re.Cls (Re.lit ".");
    Re.AtLeast 2 (fun c => isUpper c || isLower c || Re.lit "|" c);
    Re.Bnd ].

Definition illegal_activity : Violation :=
  mkViolation "illegal_activity"
    "Illegal hacking or cybersecurity violation detected"
    "Content requests assistance with unauthorized access, hacking, or other illegal activities"
    9.5 0.95 "Computer Fraud and Abuse Act".

Definition data_theft : Violation :=
  mkViolation "data_theft"
    "Unauthorized access to confidential information detected"
    "Content requests access to proprietary, confidential, or sensitive company data"
    9.0 0.9 "Data Protection Act".

Definition pii : Violation :=
  mkViolation "pii"
    "Personal Identifiable Information detected"
    "Content contains sensitive personal data"
    8.5 0.9 "GDPR".

Definition harmful_content : Violation :=
  mkViolation "harmful_content"
    "Harmful or dangerous content detected"
    "Content may promote violence, self-harm, or dangerous activities"
    9.0 0.9 "Content Safety Guidelines".

Definition bias : Violation :=
  mkViolation "bias"
    "Potential bias detected"
    "Content may contain discriminatory language"
    6.5 0.7 "IEEE Ethics".

Definition misinformation : Violation :=
  mkViolation "misinformation"
    "Potential misinformation detected"
    "Content may spread false information"
    7.0 0.8 "DSA".

(** The text the scanners read: [`${prompt} ${response}`.toLowerCase()]. *)
Definition scanned (prompt response : string) : string :=
  toLowerCase (prompt +:+ " " +:+ response).

(** The six conditions of [detectViolations], in source order. *)
Definition hits_hacking (text : string) : bool :=
  truthy (List.find (fun pattern => includes text pattern) hackingPatterns).

Definition hits_dataTheft (text : string) : bool :=
  truthy (List.find (fun pattern => includes text pattern) dataTheftPatterns).

Definition hits_pii (text : string) : bool :=
  Re.test re_ssn text || Re.test re_card text || Re.test re_email text.

Definition hits_harmful (text : string) : bool :=
  truthy (List.find (fun pattern => includes text pattern) harmfulPatterns).

Definition hits_bias (text : string) : bool :=
  includes text "all women" || includes text "all men" ||
  includes text "people of color are" || includes text "white people are".

Definition hits_misinformation (text : string) : bool :=
  includes text "vaccines cause autism" || includes text "covid is fake" ||
  includes text "climate change is a hoax".

(** [violations.push(v)] when the condition holds. *)
Definition push_if (c : bool) (v : Violation) (violations : list Violation)
  : list Violation :=
  if c then violations ++ [v] else violations.

Definition detectViolations (prompt response : string) : list Violation :=
  let violations := [] in
  let text := scanned prompt response in
  let violations := push_if (hits_hacking text) illegal_activity violations in
  let violations := push_if (hits_dataTheft text) data_theft violations in
  let violations := push_if (hits_pii text) pii violations in
  let violations := push_if (hits_harmful text) harmful_content violations in
  let violations := push_if (hits_bias text) bias violations in
  let violations := push_if (hits_misinformation text) misinformation violations in
  violations.

(** Lines 113-126: the status decision of [processInteraction]. *)
Definition resolveStatus (interaction : Interaction) : Interaction :=
  let violations := i_violations interaction in
  if (0 <? length violations)%nat then
    let maxSeverity := Math_max (map v_severity violations) in
    if max_ge maxSeverity 8 then
      set_severity critical (set_status blocked interaction)
    else if max_ge maxSeverity 6 then
      set_severity high (set_status pending interaction)
    else
      set_severity medium (set_status approved interaction)
  else interaction.

(** The Status Resolver of server.js as a function of the violation
    list: the decision taken from the defaults of [processInteraction]. *)
Definition resolve (violations : list Violation) : Status * Severity :=
  resolved (resolveStatus (blank approved low violations)).

Definition processInteraction (env : Env) (prompt response : string) : Interaction :=
  let interaction :=
    mkInteraction ("int_" +:+ pretty (now env) +:+ "_" +:+ rnd env)
                  prompt response (now env) approved low [] [] None in
  let violations := detectViolations prompt response in
  let interaction := set_violations violations interaction in
  let interaction := resolveStatus interaction in
  set_agentActions
    [ mkAgentAction "PolicyEnforcerAgent" "analyze"
        ("Found " +:+ pretty (length violations) +:+ " violations") (now env);
      mkAgentAction "VerifierAgent" "verify"
        ("Status: " +:+ Status_str (i_status interaction)) (now env) ]
    interaction.

End Server.

(* ===================================================================== *)
(** ** Effects: a state and error monad

    [M S A] is a computation over a mutable state [S] that returns an
    [A] or throws.  What was written to the state before a throw stays
    written, as with a mutated JavaScript object. *)

Section Monad.
Context {S : Type}.

Definition M (A : Type) : Type := S -> Result A * S.

Definition ret {A} (a : A) : M A := fun s => (Ok a, s).

Definition throw {A} (msg : string) : M A := fun s => (Throw msg, s).

Definition bind {A B} (m : M A) (k : A -> M B) : M B :=
  fun s =>
    match m s with
    | (Ok a, s') => k a s'
    | (Throw e, s') => (Throw e, s')
    end.

(** [try { m } catch (e) { h e }] *)
Definition try_catch {A} (m : M A) (h : string -> M A) : M A :=
  fun s =>
    match m s with
    | (Ok a, s') => (Ok a, s')
    | (Throw e, s') => h e s'
    end.

Definition get : M S := fun s => (Ok s, s).

Definition modify (f : S -> S) : M unit := fun s => (Ok tt, f s).
End Monad.
Arguments M : clear implicits.

Notation "x <- m ;; k" := (bind m (fun x => k))
  (at level 100, m at next level, right associativity).
Notation "m ;;; k" := (bind m (fun _ => k))
  (at level 100, right associativity).

(* ===================================================================== *)
(** ** The world outside one call

    [w_interactions] are the interactions already resolved and kept by id
    (the audit store); [w_requests] is the trace of HTTP requests issued. *)

Record Request : Type := mkRequest {
  q_method : string;
  q_url : string;
  q_graphId : string;
  q_message : string
}.

Record World : Type := mkWorld {
  w_interactions : gmap string Interaction;
  w_requests : list Request
}.

(** [await response.json()]: a parse error, or the [content] and
    [message] fields of the reply (an absent field is the empty string,
    which is as falsy as [undefined]). *)
Inductive Payload : Type :=
| BadJson (msg : string)
| Json (content message : string).

(** What [await fetch(...)] does: it rejects (network error, timeout) or
    resolves to a response with a status. *)
Inductive FetchOutcome : Type :=
| Rejects (msg : string)
| Responds (status : nat) (payload : Payload).

Definition Network : Type := Request -> FetchOutcome.

Record Response : Type := mkResponse {
  r_status : nat;
  r_payload : Payload
}.

(** [response.ok] *)
Definition r_ok (r : Response) : bool :=
  (200 <=? r_status r)%nat && (r_status r <=? 299)%nat.

(** The world after one more request. *)
Definition requested (q : Request) (w : World) : World :=
  mkWorld (w_interactions w) (w_requests w ++ [q]).

Definition fetch (net : Network) (q : Request) : M World Response :=
  fun w =>
    let w' := requested q w in
    match net q with
    | Rejects e => (Throw e, w')
    | Responds st p => (Ok (mkResponse st p), w')
    end.

Definition json (r : Response) : M World (string * string) :=
  match r_payload r with
  | BadJson e => throw e
  | Json content message => ret (content, message)
  end.

(** [a || b] on strings: the empty string is falsy. *)
Definition or_str (a b : string) : string :=
  match a with EmptyString => b | _ => a end.

(** Line feed and double quote, for the template literals. *)
Definition nl : string := String (ascii_of_nat 10) EmptyString.
Definition dq : string := String (ascii_of_nat 34) EmptyString.

(** What the remote analysis hands back to the orchestrator (the
    [verificationResults] and [riskAssessment] of the advanced reply
    are read by no caller and are left out). *)
Record RemoteResult : Type := mkRemoteResult {
  rr_violations : list Violation;
  rr_agentActions : list AgentAction;
  rr_status : Status;
  rr_severity : Severity
}.

(* ===================================================================== *)
(** ** inkeepAgentsService.ts and inkeepAgentsService.js *)

Module Inkeep.

Record Service : Type := mkService {
  baseUrl : string;
  isEnabled : bool
}.

Definition GET (url : string) : Request := mkRequest "GET" url "" "".

Definition POST (svc : Service) (graphId message : string) : Request :=
  mkRequest "POST" (baseUrl svc +:+ "/conversations") graphId message.

Definition api_error (r : Response) : string :=
  "Inkeep agents API error: " +:+ pretty (r_status r).

(** *** TypeScript service *)

Definition isAvailable (svc : Service) (net : Network) : M World bool :=
  if negb (isEnabled svc) then ret false
  else
    try_catch
      (response <- fetch net (GET (baseUrl svc +:+ "/health"));;
       ret (r_ok response))
      (fun _ => ret false).

Definition parseGovernanceResponse (env : Env) (response : string * string)
  : RemoteResult :=
  let content := or_str (fst response) (or_str (snd response) "") in
  let lc := toLowerCase content in
  let violations :=
    if includes lc "violation" || includes lc "blocked" then
      [ mkViolation "compliance"
          "Policy violation detected by Inkeep agents"
          "Detected through Inkeep governance analysis"
          (if includes lc "critical" then 9
           else if includes lc "high" then 7 else 5)
          0.85 "Multiple frameworks" ]
    else [] in
  let agentActions :=
    [ mkAgentAction "InkeepGovernanceCoordinator"
        (if (0 <? length violations)%nat then "flag" else "approve")
        (substring 0 200 content +:+ "...") (now env) ] in
  let status :=
    if (0 <? length violations)%nat then
      (if some (fun v => ge (v_severity v) 8) violations then blocked else pending)
    else approved in
  let severity :=
    if (0 <? length violations)%nat then
      (if some (fun v => ge (v_severity v) 8) violations then critical
       else if some (fun v => ge (v_severity v) 6) violations then high
       else medium)
    else low in
  mkRemoteResult violations agentActions status severity.

Definition parseAdvancedGovernanceResponse (env : Env) (response : string * string)
  : RemoteResult :=
  parseGovernanceResponse env response.

(** [context] is the text [JSON.stringify(context)] of a truthy context. *)
Definition advanced_message (input output : string) (context : option string)
  : string :=
  "Please perform advanced governance analysis on this AI interaction:"
  +:+ nl +:+ nl +:+
  "Input: " +:+ dq +:+ input +:+ dq +:+ nl +:+
  "Output: " +:+ dq +:+ output +:+ dq +:+ nl +:+
  match context with
  | Some c => "Context: " +:+ c
  | None => ""
  end +:+ nl +:+ nl +:+
  "Please provide:" +:+ nl +:+
  "1. Comprehensive policy violation analysis across all regulatory frameworks" +:+ nl +:+
  "2. Content verification and fact-checking" +:+ nl +:+
  "3. Risk assessment and impact analysis" +:+ nl +:+
  "4. Safe alternative responses if violations found" +:+ nl +:+
  "5. Detailed audit trail information".

Definition processAdvancedGovernance (env : Env) (svc : Service) (net : Network)
           (input output : string) (context : option string)
  : M World RemoteResult :=
  try_catch
    (response <- fetch net
        (POST svc "governance-graph-advanced" (advanced_message input output context));;
     if negb (r_ok response) then throw (api_error response)
     else
       result <- json response;;
       ret (parseAdvancedGovernanceResponse env result))
    (fun e => throw e).

Definition Rating_str (r : Rating) : string :=
  match r with
  | positive => "positive" | negative => "negative" | report => "report"
  end.

Definition feedback_message (interactionId : string) (rating : Rating)
           (comment : option string) : string :=
  "Please process user feedback for interaction " +:+ interactionId +:+ ":"
  +:+ nl +:+ nl +:+
  "Feedback Type: " +:+ Rating_str rating +:+ nl +:+
  match comment with
  | Some (String c s) => "Comment: " +:+ dq +:+ String c s +:+ dq
  | _ => ""
  end +:+ nl +:+ nl +:+
  "Please:" +:+ nl +:+
  "1. Analyze the feedback for governance insights" +:+ nl +:+
  "2. Create appropriate audit log entries" +:+ nl +:+
  "3. Identify any system improvement opportunities" +:+ nl +:+
  "4. Generate compliance reports if needed".

(** The reply of [parseFeedbackResponse] is constant. *)
Record FeedbackResult : Type := mkFeedbackResult {
  feedbackProcessed : bool;
  auditLogCreated : bool
}.

Definition processFeedback (svc : Service) (net : Network)
           (interactionId : string) (rating : Rating) (comment : option string)
  : M World FeedbackResult :=
  try_catch
    (response <- fetch net
        (POST svc "compliance-audit-graph"
              (feedback_message interactionId rating comment));;
     if negb (r_ok response) then throw (api_error response)
     else
       _ <- json response;;
       ret (mkFeedbackResult true true))
    (fun e => throw e).

(** What [getGovernanceInsights] returns; [complianceStatus] and
    [trends] are objects, kept as their key-value pairs. *)
Record Insights : Type := mkInsights {
  totalInteractions : nat;
  totalViolations : nat;
  blockedCount : nat;
  approvalRate : string;
  topViolationTypes : list string;
  complianceStatus : list (string * string);
  trends : list (string * string)
}.

Definition insights_message (timeframe : string) : string :=
  "Please provide governance insights and analytics for the " +:+ timeframe
  +:+ " timeframe:" +:+ nl +:+ nl +:+
  "Please include:" +:+ nl +:+
  "1. Overall interaction and violation statistics" +:+ nl +:+
  "2. Compliance status across regulatory frameworks" +:+ nl +:+
  "3. Top violation types and trends" +:+ nl +:+
  "4. Risk assessment summary" +:+ nl +:+
  "5. Recommendations for improvement".

Definition parseInsightsResponse (response : string * string) : Insights :=
  let content := or_str (fst response) (or_str (snd response) "") in
  mkInsights 150 12 3 "92%" ["GDPR"; "Content Safety"; "Misinformation"]
             [("gdpr", "compliant"); ("euAiAct", "compliant");
              ("fisma", "needs_attention")]
             [("violationTrend", "decreasing"); ("complianceTrend", "improving")].

Definition getGovernanceInsights (svc : Service) (net : Network) (timeframe : string)
  : M World Insights :=
  try_catch
    (response <- fetch net
        (POST svc "compliance-audit-graph" (insights_message timeframe));;
     if negb (r_ok response) then throw (api_error response)
     else
       result <- json response;;
       ret (parseInsightsResponse result))
    (fun e => throw e).

(** *** JavaScript service (Node runtime) *)

Module JS.

Definition candidates (svc : Service) : list string :=
  [ baseUrl svc +:+ "/health";
    baseUrl svc +:+ "/openapi.json";
    baseUrl svc +:+ "/" ].

(** The [for] loop of [isAvailable] over the remaining candidates. *)
Fixpoint probe (net : Network) (urls : list string) : M World bool :=
  match urls with
  | [] => ret false
  | url :: rest =>
      hit <- try_catch
               (res <- fetch net (GET url);;
                ret (r_ok res || (r_status res =? 404)%nat))
               (fun _ => ret false);;
      if hit then ret true else probe net rest
  end.

Definition isAvailable (svc : Service) (net : Network) : M World bool :=
  if negb (isEnabled svc) then ret false
  else probe net (candidates svc).

Definition parseBasic (env : Env) (response : string * string) : RemoteResult :=
  let content := or_str (fst response) (or_str (snd response) "") in
  let lc := toLowerCase content in
  let hasViolation := includes lc "violation" || includes lc "blocked" in
  let isCritical := includes lc "critical" in
  let severity := if isCritical then critical
                  else if hasViolation then high else low in
  mkRemoteResult
    (if hasViolation then
       [ mkViolation "compliance" "Detected by Inkeep" "Inkeep analysis"
           (if isCritical then 9 else 7) 0.85 "" ]
     else [])
    [ mkAgentAction "InkeepGovernanceCoordinator"
        (if hasViolation then "flag" else "approve")
        (substring 0 200 content +:+ "...") (now env) ]
    (if hasViolation then (if isCritical then blocked else pending) else approved)
    severity.

Definition parseAdvanced (env : Env) (response : string * string) : RemoteResult :=
  parseBasic env response.

Definition advanced_message (input output : string) (context : option string)
  : string :=
  "Please perform advanced governance analysis on this AI interaction:"
  +:+ nl +:+ nl +:+
  "Input: " +:+ dq +:+ input +:+ dq +:+ nl +:+
  "Output: " +:+ dq +:+ output +:+ dq +:+ nl +:+
  match context with
  | Some c => "Context: " +:+ c
  | None => ""
  end.

Definition feedback_message (interactionId : string) (rating : Rating)
           (comment : option string) : string :=
  "Please process user feedback for interaction " +:+ interactionId +:+ ":" +:+ nl +:+
  "Type: " +:+ Rating_str rating +:+ nl +:+
  match comment with
  | Some (String c s) => "Comment: " +:+ String c s
  | _ => ""
  end.

Definition processAdvancedGovernance (env : Env) (svc : Service) (net : Network)
           (input output : string) (context : option string)
  : M World RemoteResult :=
  response <- fetch net
      (POST svc "governance-graph-advanced" (advanced_message input output context));;
  if negb (r_ok response) then throw (api_error response)
  else
    result <- json response;;
    ret (parseAdvanced env result).

Definition processFeedback (svc : Service) (net : Network)
           (interactionId : string) (rating : Rating) (comment : option string)
  : M World FeedbackResult :=
  response <- fetch net
      (POST svc "compliance-audit-graph"
            (feedback_message interactionId rating comment));;
  if negb (r_ok response) then throw (api_error response)
  else
    _ <- json response;;
    ret (mkFeedbackResult true true).

(** [{ raw: result }]: the reply as it came. *)
Definition getGovernanceInsights (svc : Service) (net : Network) (timeframe : string)
  : M World (string * string) :=
  response <- fetch net
      (POST svc "compliance-audit-graph"
            ("Provide governance insights for " +:+ timeframe +:+ "."));;
  if negb (r_ok response) then throw (api_error response)
  else
    result <- json response;;
    ret result.

End JS.

End Inkeep.

(* ===================================================================== *)
(** ** Orchestration state: the interaction being built, and the world *)

Definition Proc : Type := (Interaction * World)%type.

Definition onInteraction {A} (m : M Interaction A) : M Proc A :=
  fun s => let '(r, i') := m (fst s) in (r, (i', snd s)).

Definition onWorld {A} (m : M World A) : M Proc A :=
  fun s => let '(r, w') := m (snd s) in (r, (fst s, w')).

(** Runs an orchestration on a fresh interaction and returns it. *)
Definition run (interaction : Interaction) (m : M Proc unit) : M World Interaction :=
  fun w =>
    let '(r, s) := m (interaction, w) in
    match r with
    | Ok _ => (Ok (fst s), snd s)
    | Throw e => (Throw e, snd s)
    end.

(** [`interaction_${Date.now()}_${Math.random().toString(36)...}`] *)
Definition interaction_id (env : Env) : string :=
  "interaction_" +:+ pretty (now env) +:+ "_" +:+ rnd env.

(** The interaction object both governance services start from. *)
Definition fresh (env : Env) (input output : string) : Interaction :=
  mkInteraction (interaction_id env) input output (now env)
                pending low [] [] None.

Record Config : Type := mkConfig {
  useInkeepAgents : bool;
  inkeepAvailable : bool
}.

(** The service object: its two flags, and the world. *)
Definition Svc : Type := (Config * World)%type.

Definition onService {A} (m : M World A) : M Svc A :=
  fun s => let '(r, w') := m (snd s) in (r, (fst s, w')).

Definition set_useInkeepAgents (b : bool) (s : Svc) : Svc :=
  (mkConfig b (inkeepAvailable (fst s)), snd s).

Definition set_inkeepAvailable (b : bool) (s : Svc) : Svc :=
  (mkConfig (useInkeepAgents (fst s)) b, snd s).

(** What [getStatus()] returns. *)
Record StatusReport : Type := mkStatusReport {
  usingInkeep : bool;
  sr_inkeepAvailable : bool;
  agentType : string
}.

(* ===================================================================== *)
(** ** src/services/governanceService.ts *)

Module GovTS.

Definition shouldUseInkeep (cfg : Config) : bool :=
  useInkeepAgents cfg && inkeepAvailable cfg.

(** The legacy agents of [../agents] are not part of these sources:
    [agent.process(interaction)] is any computation over the interaction
    that returns agent actions or throws. *)
Definition Agent : Type := M Interaction (list AgentAction).

Record Agents : Type := mkAgents {
  policyEnforcer : Agent;
  verifier : Agent;
  responseAgent : Agent;
  auditLogger : Agent;
  feedbackAgent : Agent
}.

Definition determineFinalStatus (interaction : Interaction) : Interaction :=
  if (length (i_violations interaction) =? 0)%nat then
    set_severity low (set_status approved interaction)
  else
    let maxSeverity := Math_max (map v_severity (i_violations interaction)) in
    let criticalViolations :=
      List.filter (fun v => ge (v_severity v) 9) (i_violations interaction) in
    let highViolations :=
      List.filter (fun v => ge (v_severity v) 7) (i_violations interaction) in
    if (0 <? length criticalViolations)%nat then
      set_severity critical (set_status blocked interaction)
    else if (0 <? length highViolations)%nat then
      set_severity high (set_status pending interaction)
    else if max_ge maxSeverity 5 then
      set_severity medium (set_status pending interaction)
    else
      set_severity low (set_status approved interaction).

(** The Status Resolver of governanceService.ts as a function of the
    violation list. *)
Definition resolve (violations : list Violation) : Status * Severity :=
  resolved (determineFinalStatus (blank pending low violations)).

Section Service.
Variable env : Env.
Variable cfg : Config.
Variable svc : Inkeep.Service.
Variable net : Network.
Variable agents : Agents.

Definition inkeep_log (n : nat) : AgentAction :=
  mkAgentAction "InkeepIntegration" "log"
    ("Processed through Inkeep Advanced Governance with " +:+ pretty n
     +:+ " violations detected")
    (now env).

Definition processWithInkeepAgents (context : option string) : M Proc unit :=
  try_catch
    (interaction <- onInteraction get;;
     result <- onWorld (Inkeep.processAdvancedGovernance env svc net
                          (i_input interaction) (i_output interaction) context);;
     onInteraction (modify (push_violations (rr_violations result)));;;
     onInteraction (modify (push_actions (rr_agentActions result)));;;
     onInteraction (modify (push_actions
                              [inkeep_log (length (rr_violations result))])))
    (fun e => throw e).

(** One [const actions = await agent.process(interaction);
    interaction.agentActions.push(...actions)]. *)
Definition step (agent : Agent) : M Proc unit :=
  actions <- onInteraction agent;;
  onInteraction (modify (push_actions actions)).

Definition processWithLegacyAgents : M Proc unit :=
  try_catch
    (step (policyEnforcer agents);;;
     step (verifier agents);;;
     step (responseAgent agents);;;
     step (auditLogger agents);;;
     step (feedbackAgent agents))
    (fun e => throw e).

Definition processInteraction (input output : string) (context : option string)
  : M World Interaction :=
  let interaction := fresh env input output in
  run interaction
    (try_catch
       (if shouldUseInkeep cfg then processWithInkeepAgents context
        else processWithLegacyAgents)
       (fun _ =>
          if shouldUseInkeep cfg then processWithLegacyAgents
          else ret tt);;;
     onInteraction (modify determineFinalStatus)).

Definition processFeedback (interactionId : string) (rating : Rating)
           (comment : option string) : M World unit :=
  try_catch
    (if shouldUseInkeep cfg then
       _ <- Inkeep.processFeedback svc net interactionId rating comment;;
       ret tt
     else ret tt)
    (fun _ => ret tt).
End Service.

Definition checkInkeepAvailability (svc : Inkeep.Service) (net : Network)
  : M Svc unit :=
  available <- onService (Inkeep.isAvailable svc net);;
  modify (set_inkeepAvailable available).

Definition getStatus (cfg : Config) : StatusReport :=
  mkStatusReport (useInkeepAgents cfg) (inkeepAvailable cfg)
                 (if shouldUseInkeep cfg then "inkeep" else "legacy").

Definition switchAgentType (svc : Inkeep.Service) (net : Network)
           (useInkeep : bool) : M Svc unit :=
  modify (set_useInkeepAgents useInkeep);;;
  if useInkeep then checkInkeepAvailability svc net else ret tt.

(** The figures returned for the legacy system. *)
Definition mock_insights : Inkeep.Insights :=
  Inkeep.mkInsights 100 8 2 "94%" ["PII"; "Misinformation"; "Bias"]
                    [("gdpr", "compliant"); ("contentSafety", "compliant")]
                    [("violationTrend", "stable"); ("complianceTrend", "improving")].

Definition getGovernanceInsights (cfg : Config) (svc : Inkeep.Service)
           (net : Network) (timeframe : string) : M World Inkeep.Insights :=
  try_catch
    (if shouldUseInkeep cfg then Inkeep.getGovernanceInsights svc net timeframe
     else ret mock_insights)
    (fun e => throw e).

End GovTS.

(* ===================================================================== *)
(** ** src/services/governanceService.js *)

Module GovJS.

(** Lines 51-64: "Finalize status". *)
Definition finalizeStatus (interaction : Interaction) : Interaction :=
  if (length (i_violations interaction) =? 0)%nat then
    set_severity low (set_status approved interaction)
  else if some (fun v => ge (v_severity v) 9) (i_violations interaction) then
    set_severity critical (set_status blocked interaction)
  else if some (fun v => ge (v_severity v) 7) (i_violations interaction) then
    set_severity high (set_status pending interaction)
  else
    set_severity medium (set_status pending interaction).

(** The Status Resolver of governanceService.js as a function of the
    violation list. *)
Definition resolve (violations : list Violation) : Status * Severity :=
  resolved (finalizeStatus (blank pending low violations)).

Section Service.
Variable env : Env.
Variable cfg : Config.
Variable svc : Inkeep.Service.
Variable net : Network.

Definition legacy_log : AgentAction :=
  mkAgentAction "Legacy" "log" "Legacy fallback used" (now env).

Definition error_log (message : string) : AgentAction :=
  mkAgentAction "GovernanceService" "log"
    ("Processing error: " +:+ message) (now env).

Definition processInteraction (input output : string) (context : option string)
  : M World Interaction :=
  let interaction := fresh env input output in
  let useInkeep := useInkeepAgents cfg && inkeepAvailable cfg in
  run interaction
    (try_catch
       (if useInkeep then
          result <- onWorld (Inkeep.JS.processAdvancedGovernance env svc net
                               input output context);;
          onInteraction (modify (push_violations (rr_violations result)));;;
          onInteraction (modify (push_actions (rr_agentActions result)))
        else
          onInteraction (modify (push_actions [legacy_log])))
       (fun e => onInteraction (modify (push_actions [error_log e])));;;
     onInteraction (modify finalizeStatus)).
End Service.

Definition checkInkeepAvailability (svc : Inkeep.Service) (net : Network)
  : M Svc unit :=
  available <- onService (Inkeep.JS.isAvailable svc net);;
  modify (set_inkeepAvailable available).

Definition getStatus (cfg : Config) : StatusReport :=
  mkStatusReport (useInkeepAgents cfg) (inkeepAvailable cfg)
                 (if useInkeepAgents cfg && inkeepAvailable cfg
                  then "inkeep" else "legacy").

(** [this.useInkeepAgents = !!useInkeep] on a boolean argument. *)
Definition switchAgentType (svc : Inkeep.Service) (net : Network)
           (useInkeep : bool) : M Svc unit :=
  modify (set_useInkeepAgents useInkeep);;;
  if useInkeep then checkInkeepAvailability svc net else ret tt.

(** What [getGovernanceInsights] returns: the raw remote reply, or the
    totals of the legacy branch. *)
Inductive NodeInsights : Type :=
| Raw (content message : string)
| Totals (totalInteractions totalViolations blockedCount : nat)
         (approvalRate : string).

Definition getGovernanceInsights (cfg : Config) (svc : Inkeep.Service)
           (net : Network) (timeframe : string) : M World NodeInsights :=
  if useInkeepAgents cfg && inkeepAvailable cfg then
    result <- Inkeep.JS.getGovernanceInsights svc net timeframe;;
    ret (Raw (fst result) (snd result))
  else ret (Totals 0 0 0 "100%").

End GovJS.

(* ===================================================================== *)
(** ** The Live Monitor page: feedback and operator actions on the
       interactions it holds *)

Module LiveMonitor.

Inductive UiRating : Type := ui_positive | ui_negative | ui_flag.

Definition to_rating (r : UiRating) : Rating :=
  match r with
  | ui_flag => report
  | ui_positive => positive
  | ui_negative => negative
  end.

(** [prev.map(interaction => interaction.id === id ? f(interaction) : interaction)] *)
Definition update_by_id (id : string) (f : Interaction -> Interaction)
           (prev : list Interaction) : list Interaction :=
  map (fun interaction =>
         if String.eqb (i_id interaction) id then f interaction
         else interaction) prev.

Definition handleInteractionAction (env : Env) (id action : string)
           (rating : option UiRating) (prev : list Interaction)
  : list Interaction :=
  match String.eqb action "feedback", rating with
  | true, Some rating =>
      update_by_id id
        (set_userFeedback
           (Some (mkUserFeedback (to_rating rating) (now env)))) prev
  | _, _ =>
      if String.eqb action "approve" || String.eqb action "block" then
        let newStatus := if String.eqb action "approve" then approved else blocked in
        update_by_id id (set_status newStatus) prev
      else prev
  end.

End LiveMonitor.

(* ===================================================================== *)
(** ** src/services/governanceServiceSupabase.ts

    This variant has its own shapes: an agent returns one action with a
    [type], a severity label and a reason; a violation carries that
    label; the status vocabulary adds flagged, compliant and error. *)

Module GovSupabase.

Record Action : Type := mkAction {
  act_type : string;
  act_severity : string;
  act_reason : string;
  act_policyId : string
}.

Record SViolation : Type := mkSViolation {
  sv_id : string;
  sv_policyId : string;
  sv_description : string;
  sv_timestamp : Z;
  sv_severity : string;
  sv_resolved : bool
}.

Record SInteraction : Type := mkSInteraction {
  s_id : string;
  s_input : string;
  s_output : string;
  s_timestamp : Z;
  s_status : Status;
  s_severity : Severity;
  s_violations : list SViolation;
  s_agentActions : list Action
}.

Definition with_status (st : Status) (i : SInteraction) : SInteraction :=
  mkSInteraction (s_id i) (s_input i) (s_output i) (s_timestamp i)
                 st (s_severity i) (s_violations i) (s_agentActions i).

Definition with_severity (sv : Severity) (i : SInteraction) : SInteraction :=
  mkSInteraction (s_id i) (s_input i) (s_output i) (s_timestamp i)
                 (s_status i) sv (s_violations i) (s_agentActions i).

Definition with_violations (vs : list SViolation) (i : SInteraction) : SInteraction :=
  mkSInteraction (s_id i) (s_input i) (s_output i) (s_timestamp i)
                 (s_status i) (s_severity i) vs (s_agentActions i).

Definition with_agentActions (acts : list Action) (i : SInteraction) : SInteraction :=
  mkSInteraction (s_id i) (s_input i) (s_output i) (s_timestamp i)
                 (s_status i) (s_severity i) (s_violations i) acts.

(** An agent of [../agents], not part of these sources. *)
Record Agent : Type := mkAgent {
  ag_name : string;
  ag_type : string;
  ag_process : M SInteraction Action
}.

(** What [inkeepAgentsService.runGovernanceCheck] resolves to. *)
Record Remote : Type := mkRemote {
  rm_status : Status;
  rm_severity : Severity;
  rm_violations : list SViolation;
  rm_agentActions : list Action
}.

(** [severities.includes(label)] *)
Definition has (label : string) (severities : list string) : bool :=
  existsb (String.eqb label) severities.

Definition getMaxSeverity (severities : list string) : Severity :=
  if has "critical" severities then critical
  else if has "high" severities then high
  else if has "medium" severities then medium
  else low.

Section Service.
Variable env : Env.
Variable cfg : Config.
Variable useSupabase : bool.
(** Whether the awaited Supabase client call at a site resolves or
    rejects.  [persistViolation] and [persistInteractionResults] catch
    everything and do not touch the interaction: they are left out. *)
Variable db : string -> Result unit.
Variable agents : list Agent.
Variable runGovernanceCheck : string -> string -> string -> Result Remote.

Definition shouldUseInkeep : bool :=
  useInkeepAgents cfg && inkeepAvailable cfg.

Definition await_db (site : string) : M SInteraction unit :=
  if useSupabase then
    match db site with
    | Ok _ => ret tt
    | Throw e => throw e
    end
  else ret tt.

Definition violation_of (action : Action) : SViolation :=
  mkSViolation ("v_" +:+ pretty (now env) +:+ "_" +:+ rnd env)
               (or_str (act_policyId action) "unknown")
               (act_reason action) (now env) (act_severity action) false.

(** [agents.map(async (agent) => ...)] starts the callbacks one after
    the other, and each of them runs up to its first [await]: every
    [agent.process(interaction)] is called, in the order of the agents
    and on the one shared interaction, before any callback pushes
    anything.  A call that throws is paired with its error. *)
Fixpoint call_agents (l : list Agent) (i : SInteraction)
  : list (Agent * Result Action) * SInteraction :=
  match l with
  | [] => ([], i)
  | agent :: rest =>
      let '(outcome, i1) := ag_process agent i in
      let '(called, i2) := call_agents rest i1 in
      ((agent, outcome) :: called, i2)
  end.

(** The rest of one callback, after [await agent.process(interaction)];
    its [catch] returns null. *)
Definition settle (called : Agent * Result Action) : M SInteraction unit :=
  let '(agent, outcome) := called in
  try_catch
    (match outcome with
     | Throw e => throw e
     | Ok action =>
         modify (fun i => with_agentActions (s_agentActions i ++ [action]) i);;;
         await_db ("agent_" +:+ ag_type agent +:+ "_processed");;;
         if String.eqb (act_type action) "violation" then
           modify (fun i => with_violations (s_violations i ++ [violation_of action]) i)
         else ret tt
     end)
    (fun _ => ret tt).

(** The callbacks are resumed in the order of the agents.  With
    [useSupabase] the awaited calls may complete in another order, which
    permutes [violations] and nothing else. *)
Fixpoint settle_all (l : list (Agent * Result Action)) : M SInteraction unit :=
  match l with
  | [] => ret tt
  | called :: rest => settle called;;; settle_all rest
  end.

(** [await Promise.all(agents.map(...))] *)
Definition run_agents (l : list Agent) : M SInteraction unit :=
  fun i =>
    let '(called, i1) := call_agents l i in
    settle_all called i1.

(** Lines 210-219: "Determine final status". *)
Definition decide_status (i : SInteraction) : SInteraction :=
  if (0 <? length (s_violations i))%nat then
    let maxSeverity := getMaxSeverity (map sv_severity (s_violations i)) in
    let i := with_severity maxSeverity i in
    with_status (if decide (maxSeverity = critical) then blocked else flagged) i
  else
    with_status compliant i.

Definition processWithLegacyAgents : M SInteraction unit :=
  run_agents agents;;;
  modify decide_status.

Definition processWithInkeepAgents (complexity : string) : M SInteraction unit :=
  try_catch
    (interaction <- get;;
     let graphType := or_str complexity "basic" in
     match runGovernanceCheck (s_input interaction) (s_output interaction) graphType with
     | Throw e => throw e
     | Ok result =>
         modify (with_status (rm_status result));;;
         modify (with_severity (rm_severity result));;;
         modify (with_violations (rm_violations result));;;
         modify (with_agentActions (rm_agentActions result))
     end)
    (fun _ => processWithLegacyAgents).

Definition processInteraction (input output complexity : string)
  : Result SInteraction :=
  let interaction :=
    mkSInteraction (interaction_id env) input output (now env)
                   pending low [] [] in
  let '(r, i) :=
    try_catch
      (await_db "process_interaction_start";;;
       if shouldUseInkeep then processWithInkeepAgents complexity
       else processWithLegacyAgents)
      (fun _ =>
         await_db "process_interaction_error";;;
         modify (with_status error))
      interaction in
  match r with
  | Ok _ => Ok i
  | Throw e => Throw e
  end.
End Service.

End GovSupabase.

(* ===================================================================== *)
(** ** server.js: the HTTP endpoints

    In string literals, a character outside Latin-1 stands as its UTF-8
    bytes. *)

Module Api.

Record Message : Type := mkMessage {
  m_role : string;
  (** [None]: the message has no [content] (it is undefined).  A
      content that is present and not a string (null, a number, an
      array) is not a message of this model. *)
  m_content : option string
}.

(** The [ethosLens] field of a completion reply. *)
Record EthosLens : Type := mkEthosLens {
  interactionId : string;
  el_status : Status;
  el_violations : list Violation;
  el_severity : Severity
}.

(** The replies of POST /api/copilotkit.  A completion is the object
    [{choices: [{message: {role: 'assistant', content}}],
      usage: {total_tokens}, ethosLens}]. *)
Inductive Reply : Type :=
| BadRequest (error : string)                      (* status 400 *)
| ServerError (error message : string)             (* status 500 *)
| Completion (content : string) (total_tokens : nat) (ethosLens : EthosLens).

(** The Neo4j driver as [saveToNeo4j] meets it: whether opening and
    closing a session return or throw.  Errors of the queries themselves
    are caught inside [saveToNeo4j]; what the queries write is outside
    the world of this model. *)
Record Neo4j : Type := mkNeo4j {
  session : Result unit;
  close : Result unit
}.

Definition saveToNeo4j (neo4jDriver : option Neo4j) (interaction : Interaction)
  : M Svc unit :=
  match neo4jDriver with
  | None => ret tt
  | Some driver =>
      match session driver with
      | Throw e => throw e
      | Ok _ =>
          match close driver with
          | Throw e => throw e
          | Ok _ => ret tt
          end
      end
  end.

Definition apology : string :=
  "I apologize, but I'm having trouble generating a response right now. Please try again.".

(** The message of the TypeError raised by [prompt.substring] when the
    prompt is undefined. *)
Definition type_error : string :=
  "Cannot read properties of undefined (reading 'substring')".

Definition ethosLens_of (interaction : Interaction) : EthosLens :=
  mkEthosLens (i_id interaction) (i_status interaction)
              (i_violations interaction) (i_severity interaction).

(** [list.join(sep)] *)
Fixpoint join (sep : string) (l : list string) : string :=
  match l with
  | [] => ""
  | [x] => x
  | x :: rest => x +:+ sep +:+ join sep rest
  end.

Section Handlers.
Variable env : Env.
Variable svc : Inkeep.Service.
Variable net : Network.
(** [String.prototype.toUpperCase]; the upper case of a Latin-1 string
    may leave Latin-1, so it is not fixed here. *)
Variable toUpperCase : string -> string.
(** The OpenAI completion for a model and messages: its text, or an error. *)
Variable llm : string -> list Message -> Result string.
(** The text [JSON.stringify] gives for the context object
    [{model, timestamp, source: 'copilotkit'}]. *)
Variable context_json : string -> string.
Variable neo4jDriver : option Neo4j.

(** [v.type.toUpperCase().replace('_', '_')]: the replacement puts back
    what it takes out. *)
Definition violation_line (v : Violation) : string :=
  "- **" +:+ toUpperCase (v_type v) +:+ "**: " +:+ v_description v.

Definition blockedContent (violations : list Violation) : string :=
  "⚠️ **Content Blocked by EthosLens Governance**" +:+ nl +:+ nl +:+
  "Your request has been blocked due to " +:+ pretty (length violations) +:+
  " policy violation(s):" +:+ nl +:+ nl +:+
  join nl (map violation_line violations) +:+ nl +:+ nl +:+
  "Please rephrase your request to comply with our governance policies.".

Definition flaggedContent (response : string) : string :=
  "⚠️ **Content Flagged for Review**" +:+ nl +:+ nl +:+ response +:+ nl +:+ nl +:+
  "---" +:+ nl +:+
  "*Note: This response has been flagged by EthosLens governance for potential policy violations and may require human review.*".

(** Step 4: the reply for a governance decision. *)
Definition reply_for (interaction : Interaction) (response : string) : Reply :=
  match i_status interaction with
  | blocked =>
      Completion (blockedContent (i_violations interaction)) 0
                 (ethosLens_of interaction)
  | pending =>
      Completion (flaggedContent response) (String.length response)
                 (ethosLens_of interaction)
  | _ =>
      Completion response (String.length response) (ethosLens_of interaction)
  end.

(** POST /api/copilotkit.  [messages] is [None] when the body has no
    array under [messages]; [model] is [None] when the body names none. *)
Definition copilotkit (messages : option (list Message)) (model : option string)
  : M Svc Reply :=
  try_catch
    (let model := default "gpt-3.5-turbo" model in
     match messages with
     | None | Some [] => ret (BadRequest "Messages array is required")
     | Some (m :: ms) =>
         let userMessage := List.last ms m in
         match m_content userMessage with
         | None => throw type_error
         | Some prompt =>
             let response :=
               match llm model (m :: ms) with
               | Ok text => text
               | Throw _ => apology
               end in
             s <- get;;
             interaction <- onService
               (GovJS.processInteraction env (fst s) svc net prompt response
                  (Some (context_json model)));;
             saveToNeo4j neo4jDriver interaction;;;
             ret (reply_for interaction response)
         end
     end)
    (fun e => ret (ServerError "Internal server error" e)).

(** The [useInkeep] field of a request body: a boolean, or anything else. *)
Inductive JsValue : Type :=
| JsBool (b : bool)
| JsOther.

(** The replies of the switch endpoint; the [timestamp] of a reply is
    left out. *)
Inductive SwitchReply : Type :=
| SwitchBadRequest (error : string)                        (* status 400 *)
| SwitchError (error : string)                             (* status 500 *)
| Switched (message : string) (governance : StatusReport).

(** POST /api/governance/switch *)
Definition switch (useInkeep : JsValue) : M Svc SwitchReply :=
  try_catch
    (match useInkeep with
     | JsOther => ret (SwitchBadRequest "useInkeep must be a boolean")
     | JsBool b =>
         GovJS.switchAgentType svc net b;;;
         s <- get;;
         let status := GovJS.getStatus (fst s) in
         ret (Switched ("Switched to " +:+ agentType status +:+ " agents") status)
     end)
    (fun _ => ret (SwitchError "Failed to switch governance type")).
(** The replies of the insights endpoint; the [timestamp] of a reply
    is left out. *)
Inductive InsightsReply : Type :=
| InsightsError (error : string)                           (* status 500 *)
| InsightsOk (insights : GovJS.NodeInsights) (timeframe : string).

(** GET /api/governance/insights; [timeframe] is [None] when the query
    names none. *)
Definition insights (timeframe : option string) : M Svc InsightsReply :=
  try_catch
    (let timeframe := default "today" timeframe in
     s <- get;;
     found <- onService (GovJS.getGovernanceInsights (fst s) svc net timeframe);;
     ret (InsightsOk found timeframe))
    (fun _ => ret (InsightsError "Failed to get governance insights")).
End Handlers.

End Api.

(* ===================================================================== *)
(** ** Vocabulary of the properties *)

Definition severities (vs : list Violation) : list Q := map v_severity vs.

(** A resolver [R] follows a threshold table: no violation gives
    (approved, low); otherwise, with [m] the maximum severity,
    [m >= t1] gives (blocked, critical), [t2 <= m < t1] gives
    (pending, high), [t3 <= m < t2] gives [mid] and [m < t3] gives [bot]. *)
Definition bands (R : list Violation -> Status * Severity)
           (t1 t2 t3 : Q) (mid bot : Status * Severity) : Prop :=
  R [] = (approved, low) /\
  forall vs m, Math_max (severities vs) = Some m ->
    ((t1 <= m)%Q -> R vs = (blocked, critical)) /\
    ((t2 <= m)%Q -> (m < t1)%Q -> R vs = (pending, high)) /\
    ((t3 <= m)%Q -> (m < t2)%Q -> R vs = mid) /\
    ((m < t3)%Q -> R vs = bot).

(** The table of the specification: 8 / 6 / 5. *)
Definition canonical_policy (R : list Violation -> Status * Severity) : Prop :=
  bands R 8 6 5 (pending, medium) (approved, low).

(** A threshold table on the maximum, as a function. *)
Definition table (t1 t2 t3 : Q) (mid bot : Status * Severity)
           (vs : list Violation) : Status * Severity :=
  match vs with
  | [] => (approved, low)
  | _ :: _ =>
      let m := Math_max (severities vs) in
      if max_ge m t1 then (blocked, critical)
      else if max_ge m t2 then (pending, high)
      else if max_ge m t3 then mid
      else bot
  end.

(** [R] does not count violations. *)
Definition count_insensitive (R : list Violation -> Status * Severity) : Prop :=
  (forall (l1 : list Violation) v l2,
      R (l1 ++ v :: v :: l2)%list = R (l1 ++ v :: l2)%list) /\
  (forall (l1 : list Violation) v l2 vs,
      length vs = 5 ->
      Forall (fun w => (v_severity w == v_severity v)%Q) vs ->
      R (l1 ++ vs ++ l2)%list = R (l1 ++ v :: l2)%list) /\
  (forall vs ws m m',
      Math_max (severities vs) = Some m ->
      Math_max (severities ws) = Some m' ->
      (m == m')%Q ->
      R vs = R ws).

(** The category scanners of the local detector with the violation each
    one emits, in detection order. *)
Definition scanners : list ((string -> bool) * Violation) :=
  [ (Server.hits_hacking, Server.illegal_activity);
    (Server.hits_dataTheft, Server.data_theft);
    (Server.hits_pii, Server.pii);
    (Server.hits_harmful, Server.harmful_content);
    (Server.hits_bias, Server.bias);
    (Server.hits_misinformation, Server.misinformation) ].

(** What one scanner contributes for a text. *)
Definition emit (text : string) (sc : (string -> bool) * Violation) : list Violation :=
  if fst sc text then [snd sc] else [].

(** The fixed severity of each category. *)
Definition fixed_severity (category : string) : option Q :=
  if String.eqb category "illegal_activity" then Some 9.5%Q
  else if String.eqb category "data_theft" then Some 9.0%Q
  else if String.eqb category "harmful_content" then Some 9.0%Q
  else if String.eqb category "pii" then Some 8.5%Q
  else if String.eqb category "bias" then Some 6.5%Q
  else if String.eqb category "misinformation" then Some 7.0%Q
  else None.

(** The violations of one category in a list. *)
Definition of_category (category : string) (vs : list Violation) : list Violation :=
  List.filter (fun v => String.eqb (v_type v) category) vs.

(** An input is clean when no scanner fires on its text. *)
Definition clean (prompt response : string) : Prop :=
  forall sc, In sc scanners -> fst sc (Server.scanned prompt response) = false.

(** The three decisions of the specification. *)
Definition decided (s : Status) : Prop :=
  s = approved \/ s = pending \/ s = blocked.

(** A reply with a success status. *)
Definition succeeds (o : FetchOutcome) : bool :=
  match o with
  | Rejects _ => false
  | Responds st _ => (200 <=? st)%nat && (st <=? 299)%nat
  end.

(** A reply the Node probe takes as a sign of life: success or 404. *)
Definition answers (o : FetchOutcome) : bool :=
  match o with
  | Rejects _ => false
  | Responds st _ => ((200 <=? st)%nat && (st <=? 299)%nat) || (st =? 404)%nat
  end.


(** An interaction carries a log action. *)
Definition has_log (i : Interaction) : Prop :=
  exists a, In a (i_agentActions i) /\ a_action a = "log".

(** The fallback contract of the specification for a service
    [process cfg ... : M World Interaction] whose remote call is
    [remote]: when the remote is preferred and available and its call
    throws, the service returns a decided interaction with a log action. *)
Definition falls_back
           (remote : Env -> Inkeep.Service -> Network -> string -> string ->
                     option string -> M World RemoteResult)
           (process : Env -> Config -> Inkeep.Service -> Network -> string -> string ->
                      option string -> M World Interaction) : Prop :=
  forall env svc net input output context w e w1,
    remote env svc net input output context w = (Throw e, w1) ->
    exists i w',
      process env (mkConfig true true) svc net input output context w = (Ok i, w') /\
      decided (i_status i) /\
      has_log i.

(** Legacy agents that return no action and leave the interaction as it is. *)
Definition quiet_agents : GovTS.Agents :=
  GovTS.mkAgents (ret []) (ret []) (ret []) (ret []) (ret []).

(** A network on which every request times out. *)
Definition dead_network : Network := fun _ => Rejects "timeout".


(** A computation leaves the kept interactions as they are, whether it
    returns or throws. *)
Definition frames {A} (m : M World A) : Prop :=
  forall w, w_interactions (snd (m w)) = w_interactions w.

(** The text of a remote reply that the parsers read, lower-cased:
    [(response.content || response.message || '').toLowerCase()]. *)
Definition reply_text (response : string * string) : string :=
  toLowerCase (or_str (fst response) (or_str (snd response) "")).

(** The reply mentions a violation: it contains "violation" or "blocked". *)
Definition mentions_violation (response : string * string) : bool :=
  includes (reply_text response) "violation" || includes (reply_text response) "blocked".

(** The reply contains "critical". *)
Definition mentions_critical (response : string * string) : bool :=
  includes (reply_text response) "critical".

(** The one request of an advanced analysis. *)
Definition advanced_request (svc : Inkeep.Service) (message : string) : Request :=
  Inkeep.POST svc "governance-graph-advanced" message.

(** What a remote call makes of the network's answer, given its parser. *)
Definition remote_outcome {A} (parse : string * string -> A) (o : FetchOutcome)
  : Result A :=
  match o with
  | Rejects e => Throw e
  | Responds st payload =>
      if (200 <=? st)%nat && (st <=? 299)%nat then
        match payload with
        | BadJson e => Throw e
        | Json content message => Ok (parse (content, message))
        end
      else Throw ("Inkeep agents API error: " +:+ pretty st)
  end.

(** The label of a severity bucket. *)
Definition Severity_label (s : Severity) : string :=
  match s with
  | low => "low" | medium => "medium" | high => "high" | critical => "critical"
  end.

(** The interaction governanceServiceSupabase.ts starts from. *)
Definition fresh_s (env : Env) (input output : string) : GovSupabase.SInteraction :=
  GovSupabase.mkSInteraction (interaction_id env) input output (now env)
                             pending low [] [].

(** The audit site of an agent in the Supabase variant. *)
Definition audit_site (agent : GovSupabase.Agent) : string :=
  "agent_" +:+ GovSupabase.ag_type agent +:+ "_processed".

(** An agent that reports only through the action it returns: running
    it leaves the violations of the interaction as they are. *)
Definition reports_by_action (agent : GovSupabase.Agent) : Prop :=
  forall i, GovSupabase.s_violations (snd (GovSupabase.ag_process agent i))
            = GovSupabase.s_violations i.

(** The elements of a list up to and including the first that satisfies
    [p]; the whole list when none does. *)
Fixpoint through_first {A} (p : A -> bool) (l : list A) : list A :=
  match l with
  | [] => []
  | x :: rest => if p x then [x] else x :: through_first p rest
  end.

(** The world after a sequence of requests. *)
Definition requested_all (qs : list Request) (w : World) : World :=
  mkWorld (w_interactions w) (w_requests w ++ qs).

(** *** The detector, described on the text

    The conditions of the detector said without its search functions:
    where a phrase stands in a text, and what a text that matches one
    of the three patterns is made of. *)

(** [c] is one of the characters of [cs]. *)
Definition among (cs : string) (c : ascii) : bool :=
  existsb (Ascii.eqb c) (list_ascii_of_string cs).

Definition capitals : string := "ABCDEFGHIJKLMNOPQRSTUVWXYZ".

Definition digit_chars : string := "0123456789".

(** The characters of [\w]. *)
Definition word_chars : string :=
  "ABCDEFGHIJKLMNOPQRSTUVWXYZabcdefghijklmnopqrstuvwxyz0123456789_".

(** The three classes of the e-mail pattern: [A-Za-z0-9._%+-],
    [A-Za-z0-9.-] and [A-Z|a-z]. *)
Definition local_chars : string :=
  "ABCDEFGHIJKLMNOPQRSTUVWXYZabcdefghijklmnopqrstuvwxyz0123456789._%+-".

Definition domain_chars : string :=
  "ABCDEFGHIJKLMNOPQRSTUVWXYZabcdefghijklmnopqrstuvwxyz0123456789.-".

Definition tld_chars : string :=
  "ABCDEFGHIJKLMNOPQRSTUVWXYZ|abcdefghijklmnopqrstuvwxyz".

(** The side of a position in a text holds a word character; [None]:
    the text ends on that side. *)
Definition wordish (side : option ascii) : bool :=
  match side with
  | Some c => among word_chars c
  | None => false
  end.

(** [pat] stands somewhere in [text]. *)
Definition occurs (pat text : string) : Prop :=
  exists before after, text = before +:+ pat +:+ after.

Definition some_occurs (patterns : list string) (text : string) : Prop :=
  exists pat, In pat patterns /\ occurs pat text.

(** The text holds ddd-dd-dddd between two non-word positions. *)
Definition has_ssn (text : string) : Prop :=
  exists pre a b c post,
    text = pre +:+ a +:+ "-" +:+ b +:+ "-" +:+ c +:+ post /\
    (String.length a = 3 /\ String.length b = 2 /\ String.length c = 4) /\
    (string_forall (among digit_chars) a = true /\
     string_forall (among digit_chars) b = true /\
     string_forall (among digit_chars) c = true) /\
    wordish (last_char None pre) = false /\
    wordish (first_char post) = false.

(** The text holds sixteen digits between two non-word positions. *)
Definition has_card (text : string) : Prop :=
  exists pre digits post,
    text = pre +:+ digits +:+ post /\
    String.length digits = 16 /\
    string_forall (among digit_chars) digits = true /\
    wordish (last_char None pre) = false /\
    wordish (first_char post) = false.

(** The text holds local@domain.tld: each part from its class, the
    local part and the domain not empty, the last part of two
    characters or more, with a word boundary before the local part and
    after the last part. *)
Definition has_email (text : string) : Prop :=
  exists pre loc domain tld post,
    text = pre +:+ loc +:+ "@" +:+ domain +:+ "." +:+ tld +:+ post /\
    (1 <= String.length loc /\ string_forall (among local_chars) loc = true) /\
    (1 <= String.length domain /\ string_forall (among domain_chars) domain = true) /\
    (2 <= String.length tld /\ string_forall (among tld_chars) tld = true) /\
    wordish (last_char None pre) <> wordish (first_char loc) /\
    wordish (last_char None tld) <> wordish (first_char post).

(** The six violations of the detector, in detection order. *)
Definition detection_order : list Violation :=
  [ Server.illegal_activity; Server.data_theft; Server.pii;
    Server.harmful_content; Server.bias; Server.misinformation ].

(* ===================================================================== *)
(** * Properties *)

(** ** Maximum and thresholds *)

Section MaxFacts.
Local Open Scope Q_scope.

Lemma Qle_bool_false (a b : Q) : Qle_bool a b = false <-> b < a.
Proof.
  split; intros H.
  - apply Qnot_le_lt. intros Hle. apply Qle_bool_iff in Hle. congruence.
  - destruct (Qle_bool a b) eqn:E; [|reflexivity].
    apply Qle_bool_iff in E. lra.
Qed.

Lemma ge_true (a t : Q) : ge a t = true <-> t <= a.
Proof. unfold ge. apply Qle_bool_iff. Qed.

Lemma ge_false (a t : Q) : ge a t = false <-> a < t.
Proof. unfold ge. apply Qle_bool_false. Qed.

Lemma ge_Qeq (a b t : Q) : a == b -> ge a t = ge b t.
Proof.
  intros E. destruct (ge b t) eqn:Eb.
  - apply ge_true in Eb. apply ge_true. lra.
  - apply ge_false in Eb. apply ge_false. lra.
Qed.

Lemma Math_max_unfold xs : Math_max xs = foldl max_step None xs.
Proof. reflexivity. Qed.

Lemma max_step_ge acc x t :
  max_ge (max_step acc x) t = max_ge acc t || ge x t.
Proof.
  destruct acc as [m|]; simpl; [|reflexivity].
  destruct (Qle_bool m x) eqn:E; simpl.
  - apply Qle_bool_iff in E.
    destruct (ge m t) eqn:Em; simpl; [|reflexivity].
    apply ge_true in Em. apply ge_true. lra.
  - apply Qle_bool_false in E.
    destruct (ge x t) eqn:Ex; simpl; [|by rewrite orb_false_r].
    apply ge_true in Ex.
    assert (ge m t = true) as -> by (apply ge_true; lra). reflexivity.
Qed.

Lemma foldl_max_ge xs : forall acc t,
  max_ge (foldl max_step acc xs) t = max_ge acc t || existsb (fun x => ge x t) xs.
Proof.
  induction xs as [|x xs IH]; intros acc t; simpl.
  - by rewrite orb_false_r.
  - rewrite IH, max_step_ge. by rewrite orb_assoc.
Qed.

(** [Math.max(...xs) >= t] exactly when some element is [>= t]. *)
Lemma max_ge_some xs t :
  max_ge (Math_max xs) t = some (fun x => ge x t) xs.
Proof. rewrite Math_max_unfold, foldl_max_ge. reflexivity. Qed.

Lemma foldl_max_is_Some xs : forall m, exists m', foldl max_step (Some m) xs = Some m'.
Proof.
  induction xs as [|x xs IH]; intros m; simpl; [eauto|].
  destruct (Qle_bool m x); apply IH.
Qed.

Lemma Math_max_None xs : Math_max xs = None -> xs = [].
Proof.
  destruct xs as [|x xs]; [reflexivity|].
  rewrite Math_max_unfold. simpl.
  destruct (foldl_max_is_Some xs x) as [m' ->]. discriminate.
Qed.

Lemma Math_max_Some_nonempty xs m : Math_max xs = Some m -> xs <> [].
Proof. intros H ->. discriminate. Qed.

Lemma some_severity p (vs : list Violation) :
  some (fun v => p (v_severity v)) vs = some p (severities vs).
Proof.
  unfold some, severities. induction vs as [|v vs IH]; simpl; [reflexivity|].
  by rewrite IH.
Qed.

Lemma filter_nonempty {A} (p : A -> bool) (l : list A) :
  (0 <? length (List.filter p l))%nat = some p l.
Proof.
  unfold some. induction l as [|a l IH]; simpl; [reflexivity|].
  destruct (p a); simpl; [reflexivity | exact IH].
Qed.
End MaxFacts.

(** ** The three resolvers as threshold tables on the maximum *)

Lemma GovTS_resolve_table vs :
  GovTS.resolve vs = table 9 7 5 (pending, medium) (approved, low) vs.
Proof.
  destruct vs as [|v vs]; [reflexivity|].
  unfold GovTS.resolve, GovTS.determineFinalStatus, table.
  cbn [blank i_violations length Nat.eqb].
  rewrite !filter_nonempty, !max_ge_some.
  rewrite !(some_severity (fun s => ge s _)).
  fold (severities (v :: vs)).
  destruct (some _ (severities (v :: vs))); [reflexivity|].
  destruct (some _ (severities (v :: vs))); [reflexivity|].
  destruct (some _ (severities (v :: vs))); reflexivity.
Qed.

Lemma Server_resolve_table vs :
  Server.resolve vs = table 8 6 5 (approved, medium) (approved, medium) vs.
Proof.
  destruct vs as [|v vs]; [reflexivity|].
  unfold Server.resolve, Server.resolveStatus, table.
  cbn [blank i_violations length Nat.ltb Nat.leb].
  fold (severities (v :: vs)).
  destruct (max_ge _ 8); [reflexivity|].
  destruct (max_ge _ 6); [reflexivity|].
  destruct (max_ge _ 5); reflexivity.
Qed.

Lemma GovJS_resolve_table vs :
  GovJS.resolve vs = table 9 7 5 (pending, medium) (pending, medium) vs.
Proof.
  destruct vs as [|v vs]; [reflexivity|].
  unfold GovJS.resolve, GovJS.finalizeStatus, table.
  cbn [blank i_violations length Nat.eqb].
  rewrite !max_ge_some, !(some_severity (fun s => ge s _)).
  fold (severities (v :: vs)).
  destruct (some _ (severities (v :: vs))); [reflexivity|].
  destruct (some _ (severities (v :: vs))); [reflexivity|].
  destruct (some _ (severities (v :: vs))); reflexivity.
Qed.

(** The resolvers read nothing of the interaction but its violations
    (and, in server.js, the defaults it was created with). *)
Lemma GovTS_determineFinalStatus_resolved i :
  resolved (GovTS.determineFinalStatus i) = GovTS.resolve (i_violations i).
Proof.
  unfold GovTS.resolve, GovTS.determineFinalStatus. cbn [blank i_violations].
  repeat match goal with |- context [if ?c then _ else _] => destruct c end;
    reflexivity.
Qed.

Lemma GovJS_finalizeStatus_resolved i :
  resolved (GovJS.finalizeStatus i) = GovJS.resolve (i_violations i).
Proof.
  unfold GovJS.resolve, GovJS.finalizeStatus. cbn [blank i_violations].
  repeat match goal with |- context [if ?c then _ else _] => destruct c end;
    reflexivity.
Qed.

Lemma Server_processInteraction_resolved env prompt response :
  resolved (Server.processInteraction env prompt response) =
  Server.resolve (Server.detectViolations prompt response).
Proof.
  unfold Server.processInteraction, Server.resolve, Server.resolveStatus.
  cbn [blank set_violations i_violations].
  repeat match goal with |- context [if ?c then _ else _] => destruct c end;
    reflexivity.
Qed.

Section TableFacts.
Local Open Scope Q_scope.
Variables t1 t2 t3 : Q.
Variables mid bot : Status * Severity.

Lemma max_ge_Some_true m t : max_ge (Some m) t = true <-> t <= m.
Proof. apply ge_true. Qed.

Lemma max_ge_Some_false m t : max_ge (Some m) t = false <-> m < t.
Proof. apply ge_false. Qed.

Lemma table_bands :
  t3 <= t2 -> t2 <= t1 -> bands (table t1 t2 t3 mid bot) t1 t2 t3 mid bot.
Proof.
  intros H32 H21. split; [reflexivity|].
  intros vs m Hm.
  assert (Hne : vs <> []) by (intros ->; discriminate).
  destruct vs as [|v vs]; [done|]. unfold table. rewrite Hm.
  repeat split; intros.
  - assert (max_ge (Some m) t1 = true) as -> by (apply max_ge_Some_true; lra).
    reflexivity.
  - assert (max_ge (Some m) t1 = false) as -> by (apply max_ge_Some_false; lra).
    assert (max_ge (Some m) t2 = true) as -> by (apply max_ge_Some_true; lra).
    reflexivity.
  - assert (max_ge (Some m) t1 = false) as -> by (apply max_ge_Some_false; lra).
    assert (max_ge (Some m) t2 = false) as -> by (apply max_ge_Some_false; lra).
    assert (max_ge (Some m) t3 = true) as -> by (apply max_ge_Some_true; lra).
    reflexivity.
  - assert (max_ge (Some m) t1 = false) as -> by (apply max_ge_Some_false; lra).
    assert (max_ge (Some m) t2 = false) as -> by (apply max_ge_Some_false; lra).
    assert (max_ge (Some m) t3 = false) as -> by (apply max_ge_Some_false; lra).
    reflexivity.
Qed.

(** The table reads the list through its emptiness and through the
    tests "some severity is at least t". *)
Lemma table_ext (vs ws : list Violation) :
  (vs = [] <-> ws = []) ->
  (forall t, some (fun x => ge x t) (severities vs)
             = some (fun x => ge x t) (severities ws)) ->
  table t1 t2 t3 mid bot vs = table t1 t2 t3 mid bot ws.
Proof.
  intros Hnil Hsome.
  destruct vs as [|v vs], ws as [|w ws]; try reflexivity.
  - destruct Hnil as [H _]. by specialize (H eq_refl).
  - destruct Hnil as [_ H]. by specialize (H eq_refl).
  - unfold table. rewrite !max_ge_some, !Hsome. reflexivity.
Qed.

Lemma some_ge_all_equal (vs : list Violation) (v : Violation) t :
  vs <> [] ->
  Forall (fun w => v_severity w == v_severity v) vs ->
  some (fun x => ge x t) (severities vs) = ge (v_severity v) t.
Proof.
  intros Hne Hall. unfold some, severities.
  assert (existsb (fun x => ge x t) (map v_severity vs)
          = match vs with [] => false | _ :: _ => ge (v_severity v) t end) as ->.
  { clear Hne. induction Hall as [|w vs Hw Hall IH]; [reflexivity|].
    cbn [map existsb]. rewrite IH, (ge_Qeq _ _ t Hw).
    destruct vs; [apply orb_false_r | apply orb_diag]. }
  by destruct vs.
Qed.

Lemma table_count_insensitive : count_insensitive (table t1 t2 t3 mid bot).
Proof.
  repeat split.
  - intros l1 v l2. apply table_ext.
    + split; intros H; by destruct l1.
    + intros t. unfold some, severities.
      rewrite !map_app, !existsb_app. simpl.
      by destruct (ge (v_severity v) t).
  - intros l1 v l2 vs Hlen Hall. apply table_ext.
    + split; intros H; destruct l1; try done.
      destruct vs; done.
    + intros t.
      assert (Hne : vs <> []) by (intros ->; discriminate).
      pose proof (some_ge_all_equal vs v t Hne Hall) as E.
      unfold some, severities in *.
      rewrite !map_app, !existsb_app, E. simpl. reflexivity.
  - intros vs ws m m' Hm Hm' Heq.
    destruct vs as [|v vs]; [discriminate|].
    destruct ws as [|w ws]; [discriminate|].
    unfold table. rewrite Hm, Hm'. unfold max_ge.
    rewrite !(ge_Qeq m m' _ Heq). reflexivity.
Qed.
End TableFacts.

Lemma count_insensitive_ext (R R' : list Violation -> Status * Severity) :
  (forall vs, R vs = R' vs) -> count_insensitive R' -> count_insensitive R.
Proof.
  intros E (H1 & H2 & H3). repeat split; intros; rewrite !E; eauto.
Qed.

Lemma bands_ext (R R' : list Violation -> Status * Severity) t1 t2 t3 mid bot :
  (forall vs, R vs = R' vs) -> bands R' t1 t2 t3 mid bot -> bands R t1 t2 t3 mid bot.
Proof.
  intros E [H0 H]. split; [by rewrite E|].
  intros vs m Hm. rewrite E. by apply H.
Qed.

(** C1 (as amended).  No resolver of the repository uses the 8 / 6 / 5
    table.  With m the maximum severity of a non-empty list:
    governanceService.ts blocks (critical) at m >= 9, holds pending
    (high) at 7 <= m < 9, pending (medium) at 5 <= m < 7 and approves
    (low) below 5; server.js blocks at m >= 8, holds pending (high) at
    6 <= m < 8 and approves with severity medium below 6;
    governanceService.js blocks at m >= 9, holds pending (high) at
    7 <= m < 9 and pending (medium) below 7.  All three give
    (approved, low) on the empty list. *)
Theorem resolver_threshold_tables :
  bands GovTS.resolve 9 7 5 (pending, medium) (approved, low) /\
  bands Server.resolve 8 6 5 (approved, medium) (approved, medium) /\
  bands GovJS.resolve 9 7 5 (pending, medium) (pending, medium).
Proof.
  split; [|split].
  - eapply bands_ext; [apply GovTS_resolve_table|]. apply table_bands; lra.
  - eapply bands_ext; [apply Server_resolve_table|]. apply table_bands; lra.
  - eapply bands_ext; [apply GovJS_resolve_table|]. apply table_bands; lra.
Qed.

Lemma resolver_threshold_tables_witness :
  GovTS.resolve [Server.pii] = (pending, high) /\
  Server.resolve [Server.bias] = (pending, high) /\
  GovJS.resolve [Server.bias] = (pending, medium).
Proof.
  destruct resolver_threshold_tables as ((_ & Hts) & (_ & Hsv) & (_ & Hjs)).
  split; [|split].
  - destruct (Hts [Server.pii] 8.5%Q eq_refl) as (_ & H & _).
    apply H; lra.
  - destruct (Hsv [Server.bias] 6.5%Q eq_refl) as (_ & H & _).
    apply H; lra.
  - destruct (Hjs [Server.bias] 6.5%Q eq_refl) as (_ & _ & H & _).
    apply H; lra.
Defined.

(** C1 (as stated) fails on every resolver: a single violation of
    severity 8.5 is (pending, high) in governanceService.ts and
    governanceService.js, and a single violation of severity 5.5 is
    (approved, medium) in server.js. *)
Lemma canonical_policy_fails :
  ~ canonical_policy GovTS.resolve /\
  ~ canonical_policy Server.resolve /\
  ~ canonical_policy GovJS.resolve.
Proof.
  pose (v55 := mkViolation "compliance" "" "" 5.5 1 "").
  split; [|split]; intros [_ H].
  - destruct (H [Server.pii] 8.5%Q eq_refl) as (Hb & _).
    assert (GovTS.resolve [Server.pii] = (blocked, critical)) as E
        by (apply Hb; lra).
    vm_compute in E. discriminate.
  - destruct (H [v55] 5.5%Q eq_refl) as (_ & _ & Hm & _).
    assert (Server.resolve [v55] = (pending, medium)) as E
        by (apply Hm; lra).
    vm_compute in E. discriminate.
  - destruct (H [Server.pii] 8.5%Q eq_refl) as (Hb & _).
    assert (GovJS.resolve [Server.pii] = (blocked, critical)) as E
        by (apply Hb; lra).
    vm_compute in E. discriminate.
Qed.

(** C8.  Each resolver is insensitive to the number of violations:
    duplicating a violation, or replacing one violation by five of the
    same severity, leaves (status, severity) unchanged, and two lists
    with the same maximum severity resolve identically. *)
Theorem resolvers_count_insensitive :
  count_insensitive GovTS.resolve /\
  count_insensitive Server.resolve /\
  count_insensitive GovJS.resolve.
Proof.
  split; [|split].
  - eapply count_insensitive_ext; [apply GovTS_resolve_table|].
    apply table_count_insensitive.
  - eapply count_insensitive_ext; [apply Server_resolve_table|].
    apply table_count_insensitive.
  - eapply count_insensitive_ext; [apply GovJS_resolve_table|].
    apply table_count_insensitive.
Qed.

Lemma resolvers_count_insensitive_witness :
  GovTS.resolve (repeat Server.data_theft 5) = GovTS.resolve [Server.harmful_content] /\
  Server.resolve [Server.pii; Server.pii] = Server.resolve [Server.pii] /\
  GovJS.resolve [Server.bias; Server.misinformation] = GovJS.resolve [Server.misinformation].
Proof.
  destruct resolvers_count_insensitive as ((_ & Hts & _) & (Hsv & _) & (_ & _ & Hjs)).
  split; [|split].
  - apply (Hts [] Server.harmful_content [] (repeat Server.data_theft 5)).
    + reflexivity.
    + repeat constructor.
  - apply (Hsv [] Server.pii []).
  - apply (Hjs [Server.bias; Server.misinformation] [Server.misinformation]
                (v_severity Server.misinformation) (v_severity Server.misinformation)).
    + reflexivity.
    + reflexivity.
    + reflexivity.
Defined.

(** ** Strings and the regular expressions of the detector *)

Lemma isWord_lowerChar c : isWord (lowerChar c) = isWord c.
Proof. destruct c as [[] [] [] [] [] [] [] []]; reflexivity. Qed.

Lemma lowerChar_digit c : isDigit c = true -> lowerChar c = c.
Proof. destruct c as [[] [] [] [] [] [] [] []]; (reflexivity || discriminate). Qed.

Lemma isDigit_isWord c : isDigit c = true -> isWord c = true.
Proof. destruct c as [[] [] [] [] [] [] [] []]; (reflexivity || discriminate). Qed.

Lemma toLowerCase_app a b :
  toLowerCase (a +:+ b) = toLowerCase a +:+ toLowerCase b.
Proof. induction a as [|c a IH]; simpl; [reflexivity | by rewrite IH]. Qed.

Lemma toLowerCase_digits d :
  string_forall isDigit d = true -> toLowerCase d = d.
Proof.
  induction d as [|c d IH]; simpl; [reflexivity|].
  intros [Hc Hd]%andb_prop. by rewrite lowerChar_digit, IH.
Qed.

Lemma wordOpt_lower o : Re.wordOpt (option_map lowerChar o) = Re.wordOpt o.
Proof. destruct o; simpl; [apply isWord_lowerChar | reflexivity]. Qed.

Lemma last_char_toLowerCase s : forall prev,
  last_char (option_map lowerChar prev) (toLowerCase s)
  = option_map lowerChar (last_char prev s).
Proof.
  induction s as [|c s IH]; intros prev; simpl; [reflexivity|].
  apply (IH (Some c)).
Qed.

Lemma first_char_toLowerCase s :
  first_char (toLowerCase s) = option_map lowerChar (first_char s).
Proof. by destruct s. Qed.

Lemma last_char_forall p d : forall prev,
  string_forall p d = true -> d <> "" ->
  exists c, last_char prev d = Some c /\ p c = true.
Proof.
  induction d as [|c d IH]; intros prev Hall Hne; [done|].
  simpl in Hall. apply andb_prop in Hall as [Hc Hd]. simpl.
  destruct d as [|c' d]; [by exists c|].
  apply IH; done.
Qed.

Section Search.
Variable re : list Re.atom.

Lemma searchFrom_here prev s :
  Re.matchHere re prev s = true -> Re.searchFrom re prev s = true.
Proof. intros H. destruct s; simpl; by rewrite H. Qed.

(** A match found after a prefix is found by the search. *)
Lemma searchFrom_skip pre : forall prev s,
  Re.matchHere re (last_char prev pre) s = true ->
  Re.searchFrom re prev (pre +:+ s) = true.
Proof.
  induction pre as [|c pre IH]; intros prev s H; simpl in *.
  - by apply searchFrom_here.
  - rewrite (IH (Some c) s H). apply orb_true_r.
Qed.
End Search.

(** [class{n}] consumes exactly n characters of the class. *)
Lemma rep_consumes p k d : forall n prev rest,
  String.length d = n -> string_forall p d = true ->
  Re.rep p k n prev (d +:+ rest) = k (last_char prev d) rest.
Proof.
  induction d as [|c d IH]; intros n prev rest Hlen Hall; simpl in *.
  - by subst n.
  - subst n. apply andb_prop in Hall as [Hc Hd]. simpl. rewrite Hc. simpl.
    by apply IH.
Qed.

(** A run of sixteen digits between two non-word positions matches
    /\b\d{16}\b/ where it stands. *)
Lemma re_card_here prev digits post :
  String.length digits = 16 ->
  string_forall isDigit digits = true ->
  Re.wordOpt prev = false ->
  Re.wordOpt (first_char post) = false ->
  Re.matchHere Server.re_card prev (digits +:+ post) = true.
Proof.
  intros Hlen Hall Hprev Hpost.
  assert (Hne : digits <> "") by (intros ->; discriminate).
  unfold Server.re_card, Re.matchHere. cbn [foldr Re.matchAtom].
  rewrite (rep_consumes _ _ digits 16 prev post Hlen Hall).
  destruct (last_char_forall isDigit digits prev Hall Hne) as (c & -> & Hc).
  cbn [Re.matchAtom]. unfold Re.atBoundary. rewrite Hprev, Hpost.
  destruct digits as [|d0 digits]; [done|].
  simpl in Hall. apply andb_prop in Hall as [Hd0 _].
  simpl.
  rewrite (isDigit_isWord d0 Hd0), (isDigit_isWord c Hc). reflexivity.
Qed.

(** ** The local detector *)

(** First-match-wins decides the same as "some pattern occurs", because
    no pattern is the empty string. *)
Lemma truthy_find (p : string -> bool) (patterns : list string) :
  forallb (fun s => negb (String.eqb s "")) patterns = true ->
  truthy (List.find p patterns) = existsb p patterns.
Proof.
  induction patterns as [|s l IH]; simpl; [reflexivity|].
  intros [Hs Hl]%andb_prop. destruct (p s); simpl; [|by apply IH].
  by destruct s.
Qed.

Lemma detectViolations_emit prompt response :
  Server.detectViolations prompt response
  = flat_map (emit (Server.scanned prompt response)) scanners.
Proof.
  unfold Server.detectViolations, scanners, emit, Server.push_if.
  cbn [flat_map fst snd].
  destruct (Server.hits_hacking _), (Server.hits_dataTheft _),
    (Server.hits_pii _), (Server.hits_harmful _), (Server.hits_bias _),
    (Server.hits_misinformation _); reflexivity.
Qed.

Lemma emit_cases (b1 b2 b3 b4 b5 b6 : bool) :
  let vs := ((if b1 then [Server.illegal_activity] else []) ++
             (if b2 then [Server.data_theft] else []) ++
             (if b3 then [Server.pii] else []) ++
             (if b4 then [Server.harmful_content] else []) ++
             (if b5 then [Server.bias] else []) ++
             (if b6 then [Server.misinformation] else []))%list in
  NoDup (map v_type vs) /\
  Forall (fun v => fixed_severity (v_type v) = Some (v_severity v)) vs /\
  of_category "pii" vs = (if b3 then [Server.pii] else []) /\
  (b1 || b2 || b3 || b4 = true -> Server.resolve vs = (blocked, critical)).
Proof.
  destruct b1, b2, b3, b4, b5, b6; cbn zeta;
    (split; [apply (bool_decide_unpack _); vm_compute; reflexivity|]);
    (split; [repeat constructor|]);
    (split; [reflexivity|]);
    (intros H; first [discriminate H | vm_compute; reflexivity]).
Qed.

Lemma detectViolations_cases prompt response :
  let text := Server.scanned prompt response in
  Server.detectViolations prompt response
  = ((if Server.hits_hacking text then [Server.illegal_activity] else []) ++
     (if Server.hits_dataTheft text then [Server.data_theft] else []) ++
     (if Server.hits_pii text then [Server.pii] else []) ++
     (if Server.hits_harmful text then [Server.harmful_content] else []) ++
     (if Server.hits_bias text then [Server.bias] else []) ++
     (if Server.hits_misinformation text then [Server.misinformation] else []))%list.
Proof.
  cbn zeta. rewrite detectViolations_emit. unfold scanners, emit.
  cbn [flat_map fst snd]. by rewrite app_nil_r.
Qed.

Lemma clean_detects_nothing prompt response :
  clean prompt response -> Server.detectViolations prompt response = [].
Proof.
  intros Hclean. rewrite detectViolations_cases. cbn zeta.
  pose proof (Hclean (Server.hits_hacking, Server.illegal_activity)) as H1.
  pose proof (Hclean (Server.hits_dataTheft, Server.data_theft)) as H2.
  pose proof (Hclean (Server.hits_pii, Server.pii)) as H3.
  pose proof (Hclean (Server.hits_harmful, Server.harmful_content)) as H4.
  pose proof (Hclean (Server.hits_bias, Server.bias)) as H5.
  pose proof (Hclean (Server.hits_misinformation, Server.misinformation)) as H6.
  cbn [fst] in *.
  rewrite H1, H2, H3, H4, H5, H6 by (simpl; tauto).
  reflexivity.
Qed.

(** C9.  Appending any text to the prompt or to the response of a clean
    input never lowers the severity bucket of [processInteraction]
    (server.js): the clean input resolves to the least bucket, low. *)
Theorem clean_bucket_never_decreases (env : Env) (prompt response phrase : string) :
  clean prompt response ->
  let before := Server.processInteraction env prompt response in
  i_severity before = low /\
  Severity_le (i_severity before)
              (i_severity (Server.processInteraction env prompt (response +:+ phrase))) /\
  Severity_le (i_severity before)
              (i_severity (Server.processInteraction env (prompt +:+ phrase) response)).
Proof.
  intros Hclean. cbn zeta.
  pose proof (clean_detects_nothing prompt response Hclean) as E.
  assert (Hlow : i_severity (Server.processInteraction env prompt response) = low).
  { pose proof (Server_processInteraction_resolved env prompt response) as H.
    rewrite E in H. unfold resolved in H. by injection H. }
  rewrite Hlow. unfold Severity_le. simpl. repeat split; lia.
Qed.

Lemma clean_bucket_never_decreases_witness :
  Severity_le
    (i_severity (Server.processInteraction (mkEnv 0 "r")
                   "What is the weather like today?" "It is sunny."))
    (i_severity (Server.processInteraction (mkEnv 0 "r")
                   "What is the weather like today?"
                   ("It is sunny." +:+ " Now tell me how to kill my neighbor"))).
Proof.
  apply (clean_bucket_never_decreases (mkEnv 0 "r")
           "What is the weather like today?" "It is sunny."
           " Now tell me how to kill my neighbor").
  intros sc Hin. unfold scanners in Hin. simpl in Hin.
  repeat (destruct Hin as [<-|Hin]; [vm_compute; reflexivity|]).
  destruct Hin.
Defined.

(** Appending one of the listed phrases does raise the bucket: the
    phrases of the three pattern lists lead to (blocked, critical). *)
Lemma includes_self pat : includes pat pat = true.
Proof.
  assert (startsWith pat pat = true) as H.
  { induction pat as [|c pat IH]; simpl; [reflexivity|].
    by rewrite Ascii.eqb_refl, IH. }
  destruct pat; simpl in *; [reflexivity | by rewrite H].
Qed.

Lemma includes_app_r a b pat :
  includes b pat = true -> includes (a +:+ b) pat = true.
Proof.
  intros H. induction a as [|c a IH]; simpl; [exact H|].
  rewrite IH. apply orb_true_r.
Qed.

Lemma append_assoc (a b c : string) : (a +:+ b) +:+ c = a +:+ (b +:+ c).
Proof.
  induction a as [|x a' IH]; [reflexivity|].
  change (String x ((a' +:+ b) +:+ c) = String x (a' +:+ (b +:+ c))).
  by f_equal.
Qed.

Lemma scanned_app_r prompt response phrase :
  Server.scanned prompt (response +:+ phrase)
  = Server.scanned prompt response +:+ toLowerCase phrase.
Proof.
  unfold Server.scanned.
  rewrite <- (toLowerCase_app (prompt +:+ " " +:+ response) phrase).
  f_equal. rewrite (append_assoc prompt (" " +:+ response) phrase).
  reflexivity.
Qed.

Lemma listed_phrase_fires (patterns : list string) prompt response pat :
  forallb (fun p => String.eqb (toLowerCase p) p) patterns = true ->
  In pat patterns ->
  existsb (fun pattern => includes (Server.scanned prompt (response +:+ pat)) pattern)
          patterns = true.
Proof.
  intros Hlow Hin. apply existsb_exists. exists pat. split; [exact Hin|].
  rewrite scanned_app_r. apply includes_app_r.
  rewrite forallb_forall in Hlow. specialize (Hlow pat Hin).
  apply String.eqb_eq in Hlow. rewrite Hlow. apply includes_self.
Qed.

Lemma listed_phrase_blocks env prompt response pat :
  In pat (Server.hackingPatterns ++ Server.dataTheftPatterns ++ Server.harmfulPatterns) ->
  resolved (Server.processInteraction env prompt (response +:+ pat))
  = (blocked, critical).
Proof.
  intros Hin.
  rewrite Server_processInteraction_resolved, detectViolations_cases. cbn zeta.
  set (text := Server.scanned prompt (response +:+ pat)).
  destruct (emit_cases (Server.hits_hacking text) (Server.hits_dataTheft text)
              (Server.hits_pii text) (Server.hits_harmful text)
              (Server.hits_bias text) (Server.hits_misinformation text))
    as (_ & _ & _ & Hblock).
  apply Hblock. clear Hblock.
  unfold Server.hits_hacking, Server.hits_dataTheft, Server.hits_harmful.
  rewrite !truthy_find by reflexivity.
  apply in_app_or in Hin as [Hin | Hin]; [|apply in_app_or in Hin as [Hin | Hin]].
  - unfold text.
    by rewrite (listed_phrase_fires Server.hackingPatterns prompt response pat eq_refl Hin).
  - unfold text.
    rewrite (listed_phrase_fires Server.dataTheftPatterns prompt response pat eq_refl Hin).
    by rewrite orb_true_r.
  - unfold text.
    rewrite (listed_phrase_fires Server.harmfulPatterns prompt response pat eq_refl Hin).
    by rewrite orb_true_r.
Qed.

(** ** The availability probe *)

Lemma fetch_eq net q w :
  fetch net q w =
  (match net q with
   | Rejects e => Throw e
   | Responds st p => Ok (mkResponse st p)
   end, requested q w).
Proof. unfold fetch, requested. by destruct (net q). Qed.

Lemma isAvailable_eq svc net w :
  Inkeep.isAvailable svc net w =
  if Inkeep.isEnabled svc
  then (Ok (succeeds (net (Inkeep.GET (Inkeep.baseUrl svc +:+ "/health")))),
        requested (Inkeep.GET (Inkeep.baseUrl svc +:+ "/health")) w)
  else (Ok false, w).
Proof.
  unfold Inkeep.isAvailable. destruct (Inkeep.isEnabled svc); [|reflexivity].
  cbn [negb]. unfold try_catch, bind. rewrite fetch_eq.
  destruct (net _); reflexivity.
Qed.

Lemma probe_eq net urls : forall w,
  exists w',
    Inkeep.JS.probe net urls w
    = (Ok (existsb (fun url => answers (net (Inkeep.GET url))) urls), w') /\
    w_interactions w' = w_interactions w.
Proof.
  induction urls as [|url rest IH]; intros w.
  - exists w. split; reflexivity.
  - cbn [Inkeep.JS.probe existsb]. unfold bind at 1. unfold try_catch, bind.
    rewrite fetch_eq.
    destruct (net (Inkeep.GET url)) as [e|st p] eqn:E; cbn [answers];
      unfold ret, r_ok; cbn [r_status]; cbv beta iota.
    + destruct (IH (requested (Inkeep.GET url) w)) as (w' & Ew & Hw').
      exists w'. split; [exact Ew | exact Hw'].
    + destruct ((200 <=? st)%nat && (st <=? 299)%nat || (st =? 404)%nat).
      * eexists. split; reflexivity.
      * destruct (IH (requested (Inkeep.GET url) w)) as (w' & Ew & Hw').
        exists w'. split; [exact Ew | exact Hw'].
Qed.




(** ** Feedback *)

Section Frames.
Lemma frames_ret {A} (a : A) : frames (ret a).
Proof. intros w. reflexivity. Qed.

Lemma frames_throw {A} e : frames (@throw World A e).
Proof. intros w. reflexivity. Qed.

Lemma frames_bind {A B} (m : M World A) (k : A -> M World B) :
  frames m -> (forall a, frames (k a)) -> frames (bind m k).
Proof.
  intros Hm Hk w. unfold bind. specialize (Hm w).
  destruct (m w) as [[a|e] w1]; cbn [snd] in *; [|exact Hm].
  rewrite (Hk a w1). exact Hm.
Qed.

Lemma frames_try_catch {A} (m : M World A) (h : string -> M World A) :
  frames m -> (forall e, frames (h e)) -> frames (try_catch m h).
Proof.
  intros Hm Hh w. unfold try_catch. specialize (Hm w).
  destruct (m w) as [[a|e] w1]; cbn [snd] in *; [exact Hm|].
  rewrite (Hh e w1). exact Hm.
Qed.

Lemma frames_fetch net q : frames (fetch net q).
Proof. intros w. rewrite fetch_eq. reflexivity. Qed.

Lemma frames_json r : frames (json r).
Proof. unfold json. destruct (r_payload r); [apply frames_throw | apply frames_ret]. Qed.

Lemma frames_if {A} (c : bool) (m1 m2 : M World A) :
  frames m1 -> frames m2 -> frames (if c then m1 else m2).
Proof. by destruct c. Qed.
End Frames.

Lemma Inkeep_processFeedback_frames svc net id rating comment :
  frames (Inkeep.processFeedback svc net id rating comment).
Proof.
  unfold Inkeep.processFeedback.
  apply frames_try_catch; [|intros; apply frames_throw].
  apply frames_bind; [apply frames_fetch|]. intros r.
  apply frames_if; [apply frames_throw|].
  apply frames_bind; [apply frames_json|]. intros _. apply frames_ret.
Qed.

Lemma Inkeep_JS_processFeedback_frames svc net id rating comment :
  frames (Inkeep.JS.processFeedback svc net id rating comment).
Proof.
  unfold Inkeep.JS.processFeedback.
  apply frames_bind; [apply frames_fetch|]. intros r.
  apply frames_if; [apply frames_throw|].
  apply frames_bind; [apply frames_json|]. intros _. apply frames_ret.
Qed.

Lemma GovTS_processFeedback_frames cfg svc net id rating comment :
  frames (GovTS.processFeedback cfg svc net id rating comment).
Proof.
  unfold GovTS.processFeedback.
  apply frames_try_catch; [|intros; apply frames_ret].
  apply frames_if; [|apply frames_ret].
  apply frames_bind; [apply Inkeep_processFeedback_frames|].
  intros _. apply frames_ret.
Qed.

Lemma GovTS_processFeedback_succeeds cfg svc net id rating comment w :
  fst (GovTS.processFeedback cfg svc net id rating comment w) = Ok tt.
Proof.
  unfold GovTS.processFeedback, try_catch.
  destruct (GovTS.shouldUseInkeep cfg); [|reflexivity].
  unfold bind.
  destruct (Inkeep.processFeedback svc net id rating comment w) as [[a|e] w1];
    reflexivity.
Qed.

Lemma update_by_id_resolved id f prev :
  (forall i, resolved (f i) = resolved i) ->
  (forall i, i_id (f i) = i_id i) ->
  map resolved (LiveMonitor.update_by_id id f prev) = map resolved prev /\
  map i_id (LiveMonitor.update_by_id id f prev) = map i_id prev.
Proof.
  intros Hres Hid. unfold LiveMonitor.update_by_id.
  induction prev as [|i prev [IH1 IH2]]; [split; reflexivity|].
  cbn [map]. rewrite IH1, IH2.
  destruct (String.eqb (i_id i) id); [|split; reflexivity].
  by rewrite Hres, Hid.
Qed.

(** C7.  Recording feedback leaves every kept interaction as it is, so
    no status and no severity changes and nothing is resolved again:
    [processFeedback] of governanceService.ts always returns normally
    and does not touch the kept interactions, whether the feedback goes
    to the remote service (whose own [processFeedback] may throw but
    does not touch them either) or to the console; the feedback branch
    of the Live Monitor sets [userFeedback] on the interaction with the
    given id and keeps every status, severity and id. *)
Theorem feedback_keeps_decisions
        (cfg : Config) (svc : Inkeep.Service) (net : Network)
        (interactionId : string) (rating : Rating) (comment : option string)
        (w : World) :
  (exists w',
      GovTS.processFeedback cfg svc net interactionId rating comment w = (Ok tt, w') /\
      w_interactions w' = w_interactions w) /\
  frames (Inkeep.processFeedback svc net interactionId rating comment) /\
  frames (Inkeep.JS.processFeedback svc net interactionId rating comment) /\
  (forall env ui_rating (prev : list Interaction),
      let next := LiveMonitor.handleInteractionAction
                    env interactionId "feedback" (Some ui_rating) prev in
      map resolved next = map resolved prev /\ map i_id next = map i_id prev).
Proof.
  split; [|split; [|split]].
  - pose proof (GovTS_processFeedback_succeeds cfg svc net interactionId rating comment w) as Hok.
    pose proof (GovTS_processFeedback_frames cfg svc net interactionId rating comment w) as Hfr.
    destruct (GovTS.processFeedback cfg svc net interactionId rating comment w)
      as [r w'] eqn:E.
    cbn [fst snd] in *. subst r. by exists w'.
  - apply Inkeep_processFeedback_frames.
  - apply Inkeep_JS_processFeedback_frames.
  - intros env ui_rating prev. cbn zeta.
    unfold LiveMonitor.handleInteractionAction. cbn [String.eqb Ascii.eqb].
    change (String.eqb "feedback" "feedback") with true. cbv iota.
    apply update_by_id_resolved; intros i; reflexivity.
Qed.

(** After positive feedback on a blocked interaction, it is still blocked. *)
Lemma feedback_keeps_decisions_witness :
  let blocked_one := set_severity critical (set_status blocked (fresh (mkEnv 7 "abc") "in" "out")) in
  let w := mkWorld {[ i_id blocked_one := blocked_one ]} [] in
  let w' := snd (GovTS.processFeedback (mkConfig true true)
                   (Inkeep.mkService "http://localhost:3003" true) dead_network
                   (i_id blocked_one) positive None w) in
  i_status <$> (w_interactions w' !! i_id blocked_one) = Some blocked.
Proof.
  cbn zeta.
  destruct (feedback_keeps_decisions (mkConfig true true)
              (Inkeep.mkService "http://localhost:3003" true) dead_network
              (i_id (set_severity critical (set_status blocked (fresh (mkEnv 7 "abc") "in" "out"))))
              positive None
              (mkWorld {[ i_id (set_severity critical (set_status blocked (fresh (mkEnv 7 "abc") "in" "out")))
                          := set_severity critical (set_status blocked (fresh (mkEnv 7 "abc") "in" "out")) ]} []))
    as ((w' & E & Hw') & _).
  rewrite E. cbn [snd]. rewrite Hw'. cbn [w_interactions].
  rewrite lookup_singleton_eq. reflexivity.
Defined.

(** ** The Node service *)

Lemma finalize_without_violations i :
  i_violations i = [] ->
  i_violations (GovJS.finalizeStatus i) = [] /\
  i_status (GovJS.finalizeStatus i) = approved /\
  i_severity (GovJS.finalizeStatus i) = low /\
  i_agentActions (GovJS.finalizeStatus i) = i_agentActions i.
Proof.
  intros E. unfold GovJS.finalizeStatus. rewrite E. cbn. by rewrite E.
Qed.

Lemma GovJS_local env cfg svc net input output context w :
  useInkeepAgents cfg && inkeepAvailable cfg = false ->
  GovJS.processInteraction env cfg svc net input output context w
  = (Ok (GovJS.finalizeStatus
           (push_actions [GovJS.legacy_log env] (fresh env input output))), w).
Proof.
  intros E. unfold GovJS.processInteraction. rewrite E. reflexivity.
Qed.

Lemma GovJS_remote_throws env cfg svc net input output context w e w1 :
  useInkeepAgents cfg && inkeepAvailable cfg = true ->
  Inkeep.JS.processAdvancedGovernance env svc net input output context w
  = (Throw e, w1) ->
  GovJS.processInteraction env cfg svc net input output context w
  = (Ok (GovJS.finalizeStatus
           (push_actions [GovJS.error_log env e] (fresh env input output))), w1).
Proof.
  intros E Hr. unfold GovJS.processInteraction. rewrite E.
  unfold run, bind, try_catch, onWorld. cbn [fst snd]. rewrite Hr. reflexivity.
Qed.

Lemma GovJS_remote_returns env cfg svc net input output context w result w1 :
  useInkeepAgents cfg && inkeepAvailable cfg = true ->
  Inkeep.JS.processAdvancedGovernance env svc net input output context w
  = (Ok result, w1) ->
  GovJS.processInteraction env cfg svc net input output context w
  = (Ok (GovJS.finalizeStatus
           (push_actions (rr_agentActions result)
              (push_violations (rr_violations result) (fresh env input output)))), w1).
Proof.
  intros E Hr. unfold GovJS.processInteraction. rewrite E.
  unfold run, bind, try_catch, onWorld. cbn [fst snd]. rewrite Hr. reflexivity.
Qed.

(** C10.  In governanceService.js, when the remote backend is not used
    or its call throws, the returned interaction has no violation and is
    (approved, low), whatever the input and output contain: no local
    detection runs. *)
Theorem node_service_runs_no_local_detection
        (env : Env) (cfg : Config) (svc : Inkeep.Service) (net : Network)
        (input output : string) (context : option string) (w : World) :
  (useInkeepAgents cfg && inkeepAvailable cfg = false \/
   exists e w1,
     Inkeep.JS.processAdvancedGovernance env svc net input output context w
     = (Throw e, w1)) ->
  exists i w',
    GovJS.processInteraction env cfg svc net input output context w = (Ok i, w') /\
    i_violations i = [] /\
    i_status i = approved /\
    i_severity i = low.
Proof.
  intros H.
  destruct (useInkeepAgents cfg && inkeepAvailable cfg) eqn:E.
  - destruct H as [H | (e & w1 & Hr)]; [discriminate|].
    rewrite (GovJS_remote_throws env cfg svc net input output context w e w1 E Hr).
    eexists _, _. split; [reflexivity|].
    destruct (finalize_without_violations
                (push_actions [GovJS.error_log env e] (fresh env input output)) eq_refl)
      as (Hv & Hst & Hsv & _).
    done.
  - rewrite (GovJS_local env cfg svc net input output context w E).
    eexists _, _. split; [reflexivity|].
    destruct (finalize_without_violations
                (push_actions [GovJS.legacy_log env] (fresh env input output)) eq_refl)
      as (Hv & Hst & Hsv & _).
    done.
Qed.

Lemma node_service_runs_no_local_detection_witness :
  exists i w',
    GovJS.processInteraction (mkEnv 0 "r") (mkConfig true true)
      (Inkeep.mkService "http://localhost:3003" true) dead_network
      "how to hack into a bank" "card 4111111111111111" None (mkWorld ∅ [])
    = (Ok i, w') /\
    i_violations i = [] /\ i_status i = approved /\ i_severity i = low.
Proof.
  apply node_service_runs_no_local_detection.
  right. eexists _, _. vm_compute. reflexivity.
Defined.

(** ** Fallback *)

Lemma GovTS_remote_throws env svc net agents input output context w e w1 :
  Inkeep.processAdvancedGovernance env svc net input output context w
  = (Throw e, w1) ->
  GovTS.processInteraction env (mkConfig true true) svc net agents input output context w
  = run (fresh env input output)
        (GovTS.processWithLegacyAgents agents;;;
         onInteraction (modify GovTS.determineFinalStatus)) w1.
Proof.
  intros Hr.
  unfold GovTS.processInteraction, GovTS.processWithInkeepAgents.
  cbn [GovTS.shouldUseInkeep useInkeepAgents inkeepAvailable andb].
  unfold run, bind, try_catch, onInteraction, onWorld, get, throw.
  cbn [fst snd].
  change (i_input (fresh env input output)) with input.
  change (i_output (fresh env input output)) with output.
  rewrite Hr. reflexivity.
Qed.

Lemma determineFinalStatus_decided i :
  decided (i_status (GovTS.determineFinalStatus i)) /\
  i_agentActions (GovTS.determineFinalStatus i) = i_agentActions i /\
  i_violations (GovTS.determineFinalStatus i) = i_violations i.
Proof.
  unfold GovTS.determineFinalStatus, decided.
  repeat match goal with |- context [if ?c then _ else _] => destruct c end;
    cbn; tauto.
Qed.

Lemma finalizeStatus_decided i :
  decided (i_status (GovJS.finalizeStatus i)).
Proof.
  unfold GovJS.finalizeStatus, decided.
  repeat match goal with |- context [if ?c then _ else _] => destruct c end;
    cbn; tauto.
Qed.

(** The Node service meets the fallback contract of the specification. *)
Lemma GovJS_falls_back :
  falls_back Inkeep.JS.processAdvancedGovernance GovJS.processInteraction.
Proof.
  intros env svc net input output context w e w1 Hr.
  rewrite (GovJS_remote_throws env (mkConfig true true) svc net input output
             context w e w1 eq_refl Hr).
  eexists _, _. split; [reflexivity|]. split; [apply finalizeStatus_decided|].
  exists (GovJS.error_log env e). split; [|reflexivity].
  destruct (finalize_without_violations
              (push_actions [GovJS.error_log env e] (fresh env input output)) eq_refl)
    as (_ & _ & _ & ->).
  cbn. by left.
Qed.

(** C3 (as amended).  When the remote backend is preferred and
    available and its analysis call throws, the error of that call is not
    propagated.  governanceService.ts then runs the legacy agents on the
    same fresh interaction and, when they return, gives back their
    result resolved by [determineFinalStatus], with no agent action of
    its own.  governanceService.js gives back an interaction with no
    violation, resolved to (approved, low), whose only agent action is
    the log action "Processing error: <message>". *)
Theorem remote_failure_is_absorbed
        (env : Env) (svc : Inkeep.Service) (net : Network) (agents : GovTS.Agents)
        (input output : string) (context : option string) (w : World)
        (e : string) (w1 : World) :
  (Inkeep.processAdvancedGovernance env svc net input output context w = (Throw e, w1) ->
   forall i1 w2,
     GovTS.processWithLegacyAgents agents (fresh env input output, w1) = (Ok tt, (i1, w2)) ->
     GovTS.processInteraction env (mkConfig true true) svc net agents
                              input output context w
     = (Ok (GovTS.determineFinalStatus i1), w2) /\
     decided (i_status (GovTS.determineFinalStatus i1)) /\
     i_agentActions (GovTS.determineFinalStatus i1) = i_agentActions i1) /\
  (Inkeep.JS.processAdvancedGovernance env svc net input output context w = (Throw e, w1) ->
   exists i,
     GovJS.processInteraction env (mkConfig true true) svc net input output context w
     = (Ok i, w1) /\
     i_violations i = [] /\
     resolved i = (approved, low) /\
     i_agentActions i = [GovJS.error_log env e]).
Proof.
  split.
  - intros Hr i1 w2 Hl.
    rewrite (GovTS_remote_throws env svc net agents input output context w e w1 Hr).
    unfold run, bind. rewrite Hl.
    destruct (determineFinalStatus_decided i1) as (Hd & Ha & _).
    repeat split; done.
  - intros Hr.
    rewrite (GovJS_remote_throws env (mkConfig true true) svc net input output
               context w e w1 eq_refl Hr).
    eexists. split; [reflexivity|].
    destruct (finalize_without_violations
                (push_actions [GovJS.error_log env e] (fresh env input output)) eq_refl)
      as (Hv & Hst & Hsv & Ha).
    unfold resolved. rewrite Hv, Hst, Hsv, Ha. done.
Qed.

Lemma remote_failure_is_absorbed_witness :
  let svc := Inkeep.mkService "http://localhost:3003" true in
  fst (GovTS.processInteraction (mkEnv 0 "r") (mkConfig true true)
         svc dead_network quiet_agents "how to hack" "no" None (mkWorld ∅ []))
  = Ok (GovTS.determineFinalStatus (fresh (mkEnv 0 "r") "how to hack" "no")) /\
  exists i w1,
    GovJS.processInteraction (mkEnv 0 "r") (mkConfig true true)
      svc dead_network "how to hack" "no" None (mkWorld ∅ [])
    = (Ok i, w1) /\
    i_violations i = [] /\ resolved i = (approved, low) /\
    i_agentActions i = [GovJS.error_log (mkEnv 0 "r") "timeout"].
Proof.
  cbn zeta. split.
  - destruct (remote_failure_is_absorbed (mkEnv 0 "r")
                (Inkeep.mkService "http://localhost:3003" true) dead_network
                quiet_agents "how to hack" "no" None (mkWorld ∅ []) "timeout"
                (mkWorld ∅ [Inkeep.POST (Inkeep.mkService "http://localhost:3003" true)
                              "governance-graph-advanced"
                              (Inkeep.advanced_message "how to hack" "no" None)]))
      as [Hts _].
    destruct (Hts eq_refl _ _ eq_refl) as (E & _). rewrite E. reflexivity.
  - destruct (remote_failure_is_absorbed (mkEnv 0 "r")
                (Inkeep.mkService "http://localhost:3003" true) dead_network
                quiet_agents "how to hack" "no" None (mkWorld ∅ []) "timeout"
                (mkWorld ∅ [Inkeep.POST (Inkeep.mkService "http://localhost:3003" true)
                              "governance-graph-advanced"
                              (Inkeep.JS.advanced_message "how to hack" "no" None)]))
      as [_ Hjs].
    destruct (Hjs eq_refl) as (i & Hi). exists i. eexists. exact Hi.
Defined.

(** C3 (as stated) fails on governanceService.ts: with legacy agents
    that return no action, the interaction returned after a remote
    time-out carries no log action. *)
Lemma typescript_fallback_leaves_no_log :
  ~ falls_back Inkeep.processAdvancedGovernance
      (fun env cfg svc net => GovTS.processInteraction env cfg svc net quiet_agents).
Proof.
  intros H.
  destruct (H (mkEnv 0 "r") (Inkeep.mkService "http://localhost:3003" true)
              dead_network "hello" "world" None (mkWorld ∅ []) "timeout"
              (mkWorld ∅ [Inkeep.POST (Inkeep.mkService "http://localhost:3003" true)
                            "governance-graph-advanced"
                            (Inkeep.advanced_message "hello" "world" None)])
              eq_refl)
    as (i & w' & E & _ & (a & Hin & _)).
  rewrite (GovTS_remote_throws (mkEnv 0 "r") _ dead_network quiet_agents
             "hello" "world" None (mkWorld ∅ []) "timeout" _ eq_refl) in E.
  cbv in E. injection E as <- _. exact Hin.
Qed.

(** ** The status vocabulary *)



Section SupabaseFacts.
Variable env : Env.
Variable cfg : Config.
Variable useSupabase : bool.
Variable db : string -> Result unit.
Variable agents : list GovSupabase.Agent.
Variable runGovernanceCheck : string -> string -> string -> Result GovSupabase.Remote.

Lemma settle_returns called i :
  exists i', GovSupabase.settle env useSupabase db called i = (Ok tt, i').
Proof.
  destruct called as [agent outcome].
  unfold GovSupabase.settle, try_catch.
  match goal with |- context [?body i] => destruct (body i) as [[[]|e] i1] end;
    eauto.
Qed.

Lemma settle_all_returns l : forall i,
  exists i', GovSupabase.settle_all env useSupabase db l i = (Ok tt, i').
Proof.
  induction l as [|called rest IH]; intros i; cbn [GovSupabase.settle_all].
  - by exists i.
  - unfold bind. destruct (settle_returns called i) as (i1 & ->). apply IH.
Qed.

Lemma run_agents_returns l i :
  exists i', GovSupabase.run_agents env useSupabase db l i = (Ok tt, i').
Proof.
  unfold GovSupabase.run_agents.
  destruct (GovSupabase.call_agents l i) as [called i1].
  apply settle_all_returns.
Qed.




End SupabaseFacts.




(** ** Conformance examples *)

Example max_wins :
  Server.resolve [Server.illegal_activity; Server.bias] = (blocked, critical) /\
  GovTS.resolve [Server.illegal_activity; Server.bias] = (blocked, critical).
Proof. split; reflexivity. Qed.

Example weather_is_approved :
  resolved (Server.processInteraction (mkEnv 0 "r")
              "What is the weather like today?" "It is sunny.") = (approved, low).
Proof. vm_compute. reflexivity. Qed.

Example neighbor_is_blocked :
  let i := Server.processInteraction (mkEnv 0 "r") "how to kill my neighbor" "" in
  map v_type (i_violations i) = ["harmful_content"] /\
  resolved i = (blocked, critical).
Proof. vm_compute. split; reflexivity. Qed.

Example scanners_are_independent :
  map v_type (Server.detectViolations "How to HACK into a bank"
                "card 1234567812345678, mail bob.smith@example.com")
  = ["illegal_activity"; "pii"].
Proof. vm_compute. reflexivity. Qed.

Example seventeen_digits_do_not_match :
  Server.detectViolations "ssn 123-45-67890" "a1234567812345678 bob@x.c" = [].
Proof. vm_compute. reflexivity. Qed.

Example lone_card_number_is_pending_in_typescript :
  GovTS.resolve [Server.pii] = (pending, high).
Proof. reflexivity. Qed.

(* ===================================================================== *)
(** * Further properties of the code *)

(** ** The detector of server.js *)

Lemma lowerChar_idem c : lowerChar (lowerChar c) = lowerChar c.
Proof. destruct c as [[] [] [] [] [] [] [] []]; reflexivity. Qed.

Lemma toLowerCase_idem s : toLowerCase (toLowerCase s) = toLowerCase s.
Proof.
  induction s as [|c s IH]; [reflexivity|].
  cbn [toLowerCase]. by rewrite lowerChar_idem, IH.
Qed.

Lemma scanned_lower prompt response :
  Server.scanned prompt response
  = toLowerCase prompt +:+ " " +:+ toLowerCase response.
Proof. unfold Server.scanned. by rewrite !toLowerCase_app. Qed.

(** The detector reads its input through the lower-cased text only. *)
Lemma detectViolations_scanned p r p' r' :
  Server.scanned p r = Server.scanned p' r' ->
  Server.detectViolations p r = Server.detectViolations p' r'.
Proof. intros E. rewrite !detectViolations_cases. cbn zeta. by rewrite E. Qed.

(** X1.  Detection and the decision of server.js ignore letter case:
    two inputs whose prompts and whose responses agree after
    lower-casing get the same violations and the same status and
    severity. *)
Theorem detection_ignores_case (env : Env) (p r p' r' : string) :
  toLowerCase p = toLowerCase p' ->
  toLowerCase r = toLowerCase r' ->
  Server.detectViolations p r = Server.detectViolations p' r' /\
  resolved (Server.processInteraction env p r)
  = resolved (Server.processInteraction env p' r').
Proof.
  intros Hp Hr.
  assert (E : Server.detectViolations p r = Server.detectViolations p' r').
  { apply detectViolations_scanned. rewrite !scanned_lower. by rewrite Hp, Hr. }
  split; [exact E|]. rewrite !Server_processInteraction_resolved. by rewrite E.
Qed.

Lemma detection_ignores_case_witness :
  Server.detectViolations "How To HACK INTO a server" "No."
  = Server.detectViolations "how to hack into a server" "no.".
Proof.
  apply (detection_ignores_case (mkEnv 0 "r")
           "How To HACK INTO a server" "No." "how to hack into a server" "no.");
    reflexivity.
Defined.

Lemma startsWith_app pat : forall s b,
  startsWith pat s = true -> startsWith pat (s +:+ b) = true.
Proof.
  induction pat as [|c pat IH]; intros s b H; [by destruct s|].
  destruct s as [|d s]; [discriminate|].
  change (String d s +:+ b) with (String d (s +:+ b)).
  cbn [startsWith] in *. apply andb_prop in H as [-> H]. cbn [andb]. by apply IH.
Qed.

Lemma includes_app_l s b pat :
  includes s pat = true -> includes (s +:+ b) pat = true.
Proof.
  induction s as [|c s IH]; intros H.
  - cbn [includes] in H. rewrite orb_false_r in H.
    destruct pat; [|discriminate]. by destruct b.
  - change (String c s +:+ b) with (String c (s +:+ b)).
    cbn [includes] in *. apply orb_prop in H as [H | H].
    + apply (startsWith_app pat (String c s) b) in H.
      change (String c s +:+ b) with (String c (s +:+ b)) in H.
      by rewrite H.
    + rewrite (IH H). apply orb_true_r.
Qed.

Lemma includes_surround a s b pat :
  includes s pat = true -> includes (a +:+ s +:+ b) pat = true.
Proof. intros H. apply includes_app_r. by apply includes_app_l. Qed.

Lemma scanned_surround before p r after :
  Server.scanned (before +:+ p) (r +:+ after)
  = toLowerCase before +:+ Server.scanned p r +:+ toLowerCase after.
Proof.
  unfold Server.scanned. rewrite <- !toLowerCase_app. f_equal.
  rewrite !append_assoc. reflexivity.
Qed.

Lemma existsb_includes_surround (patterns : list string) a s b :
  existsb (fun pattern => includes s pattern) patterns = true ->
  existsb (fun pattern => includes (a +:+ s +:+ b) pattern) patterns = true.
Proof.
  intros H. apply existsb_exists in H as (pat & Hin & Hpat).
  apply existsb_exists. exists pat. split; [exact Hin|].
  by apply includes_surround.
Qed.

Lemma In_detected v prompt response :
  let text := Server.scanned prompt response in
  In v (Server.detectViolations prompt response) <->
  (Server.hits_hacking text = true /\ v = Server.illegal_activity) \/
  (Server.hits_dataTheft text = true /\ v = Server.data_theft) \/
  (Server.hits_pii text = true /\ v = Server.pii) \/
  (Server.hits_harmful text = true /\ v = Server.harmful_content) \/
  (Server.hits_bias text = true /\ v = Server.bias) \/
  (Server.hits_misinformation text = true /\ v = Server.misinformation).
Proof.
  cbn zeta. rewrite detectViolations_cases. cbn zeta.
  destruct (Server.hits_hacking _), (Server.hits_dataTheft _),
    (Server.hits_pii _), (Server.hits_harmful _), (Server.hits_bias _),
    (Server.hits_misinformation _); cbn [app In];
    split; intros H; intuition (try discriminate; auto).
Qed.

(** X2.  A violation found by a phrase scanner (every category but pii)
    stays found when text is put before the prompt and after the
    response. *)
Theorem phrase_violations_persist (prompt response before after : string)
        (v : Violation) :
  In v (Server.detectViolations prompt response) ->
  v_type v <> "pii" ->
  In v (Server.detectViolations (before +:+ prompt) (response +:+ after)).
Proof.
  intros Hin Hpii. apply In_detected in Hin. apply In_detected.
  rewrite scanned_surround.
  set (text := Server.scanned prompt response) in *.
  unfold Server.hits_hacking, Server.hits_dataTheft, Server.hits_harmful,
    Server.hits_bias, Server.hits_misinformation in *.
  rewrite !truthy_find in * by reflexivity.
  destruct Hin as [[H ->] | [[H ->] | [[H ->] | [[H ->] | [[H ->] | [H ->]]]]]].
  - left. split; [|reflexivity]. by apply existsb_includes_surround.
  - right; left. split; [|reflexivity]. by apply existsb_includes_surround.
  - exfalso. by apply Hpii.
  - do 3 right; left. split; [|reflexivity]. by apply existsb_includes_surround.
  - do 4 right; left. split; [|reflexivity].
    repeat (apply orb_prop in H as [H | H]);
      rewrite (includes_surround _ _ _ _ H); by rewrite ?orb_true_r.
  - do 5 right. split; [|reflexivity].
    repeat (apply orb_prop in H as [H | H]);
      rewrite (includes_surround _ _ _ _ H); by rewrite ?orb_true_r.
Qed.

Lemma phrase_violations_persist_witness :
  In Server.misinformation
     (Server.detectViolations ("Is it true that " +:+ "vaccines cause autism")
                              ("No." +:+ " That claim is false.")).
Proof.
  apply (phrase_violations_persist "vaccines cause autism" "No."
           "Is it true that " " That claim is false." Server.misinformation).
  - vm_compute. by left.
  - discriminate.
Defined.

Lemma resolve_cases (b1 b2 b3 b4 b5 b6 : bool) :
  Server.resolve
    ((if b1 then [Server.illegal_activity] else []) ++
     (if b2 then [Server.data_theft] else []) ++
     (if b3 then [Server.pii] else []) ++
     (if b4 then [Server.harmful_content] else []) ++
     (if b5 then [Server.bias] else []) ++
     (if b6 then [Server.misinformation] else []))%list
  = if b1 || b2 || b3 || b4 then (blocked, critical)
    else if b5 || b6 then (pending, high)
    else (approved, low).
Proof. destruct b1, b2, b3, b4, b5, b6; vm_compute; reflexivity. Qed.

(** X3.  What server.js decides, read off the scanners: blocked and
    critical when the hacking, data-theft, PII or harmful-content
    scanner fires; otherwise pending and high when the bias or
    misinformation scanner fires; otherwise approved and low.  The
    severity medium of its last branch is never returned, and an
    interaction is approved only when nothing was detected. *)
Theorem server_decision_by_scanner (env : Env) (prompt response : string) :
  let text := Server.scanned prompt response in
  let interaction := Server.processInteraction env prompt response in
  resolved interaction
  = (if Server.hits_hacking text || Server.hits_dataTheft text ||
        Server.hits_pii text || Server.hits_harmful text
     then (blocked, critical)
     else if Server.hits_bias text || Server.hits_misinformation text
          then (pending, high)
          else (approved, low)) /\
  i_severity interaction <> medium /\
  (i_status interaction = approved <-> i_violations interaction = []).
Proof.
  cbn zeta.
  pose proof (Server_processInteraction_resolved env prompt response) as Hres.
  assert (Hvs : i_violations (Server.processInteraction env prompt response)
                = Server.detectViolations prompt response).
  { unfold Server.processInteraction, Server.resolveStatus.
    cbn [set_agentActions i_violations].
    repeat match goal with |- context [if ?c then _ else _] => destruct c end;
      reflexivity. }
  rewrite Hvs. rewrite detectViolations_cases in *. cbn zeta in *.
  rewrite resolve_cases in Hres. unfold resolved in *.
  set (i := Server.processInteraction env prompt response) in *. clearbody i.
  destruct (Server.hits_hacking _), (Server.hits_dataTheft _),
    (Server.hits_pii _), (Server.hits_harmful _), (Server.hits_bias _),
    (Server.hits_misinformation _); cbn [orb] in *;
    injection Hres as -> ->;
    (split; [reflexivity|]); (split; [discriminate|]);
    split; intros H; (discriminate H || reflexivity).
Qed.

(** ** The card-number pattern *)

Lemma searchFrom_found re : forall s prev,
  Re.searchFrom re prev s = true ->
  exists pre rest,
    s = pre +:+ rest /\ Re.matchHere re (last_char prev pre) rest = true.
Proof.
  induction s as [|c s IH]; intros prev H; cbn [Re.searchFrom] in H.
  - rewrite orb_false_r in H. by exists "", "".
  - apply orb_prop in H as [H | H].
    + by exists "", (String c s).
    + destruct (IH (Some c) H) as (pre & rest & -> & Hm).
      by exists (String c pre), rest.
Qed.

Lemma rep_inv p k : forall n prev s,
  Re.rep p k n prev s = true ->
  exists d rest,
    s = d +:+ rest /\ String.length d = n /\ string_forall p d = true /\
    k (last_char prev d) rest = true.
Proof.
  induction n as [|n IH]; intros prev s H; cbn [Re.rep] in H.
  - by exists "", s.
  - destruct s as [|c s]; [discriminate|].
    apply andb_prop in H as [Hc H].
    destruct (IH (Some c) s H) as (d & rest & -> & Hlen & Hall & Hk).
    exists (String c d), rest. repeat split.
    + cbn. by rewrite Hlen.
    + cbn. by rewrite Hc, Hall.
    + exact Hk.
Qed.

Lemma xorb_word_digit_l o d0 :
  isDigit d0 = true ->
  xorb (Re.wordOpt o) (Re.wordOpt (Some d0)) = true -> Re.wordOpt o = false.
Proof.
  intros Hd. cbn [Re.wordOpt]. rewrite (isDigit_isWord d0 Hd).
  by destruct (Re.wordOpt o).
Qed.

(** X4.  The pattern /\b\d{16}\b/ of the detector matches a text
    exactly when the text holds sixteen digits that stand between two
    non-word positions: fifteen or seventeen digits in a row, or a card
    number glued to a letter, do not match. *)
Theorem card_pattern_matches_exactly (text : string) :
  Re.test Server.re_card text = true <->
  exists pre digits post,
    text = pre +:+ digits +:+ post /\
    String.length digits = 16 /\
    string_forall isDigit digits = true /\
    Re.wordOpt (last_char None pre) = false /\
    Re.wordOpt (first_char post) = false.
Proof.
  split.
  - unfold Re.test. intros H.
    apply searchFrom_found in H as (pre & rest & -> & Hm).
    unfold Server.re_card, Re.matchHere in Hm. cbn [foldr Re.matchAtom] in Hm.
    apply andb_prop in Hm as [Hb Hrep].
    apply rep_inv in Hrep as (d & post & -> & Hlen & Hall & Hk).
    apply andb_prop in Hk as [Hb' _].
    exists pre, d, post. repeat split; try done.
    + destruct d as [|d0 d]; [discriminate|].
      cbn [string_forall] in Hall. apply andb_prop in Hall as [Hd0 _].
      unfold Re.atBoundary in Hb.
      change (first_char (String d0 d +:+ post)) with (Some d0) in Hb.
      by apply (xorb_word_digit_l _ d0 Hd0).
    + assert (Hne : d <> "") by (intros ->; discriminate).
      destruct (last_char_forall isDigit d (last_char None pre) Hall Hne)
        as (c & Hc & Hdc).
      unfold Re.atBoundary in Hb'. rewrite Hc in Hb'.
      cbn [Re.wordOpt] in Hb'. rewrite (isDigit_isWord c Hdc) in Hb'.
      by destruct (Re.wordOpt (first_char post)).
  - intros (pre & digits & post & -> & Hlen & Hall & Hpre & Hpost).
    unfold Re.test. apply searchFrom_skip. by apply re_card_here.
Qed.

Lemma card_pattern_matches_exactly_witness :
  Re.test Server.re_card "card 4111111111111111." = true.
Proof.
  apply card_pattern_matches_exactly.
  exists "card ", "4111111111111111", ".". repeat split.
Defined.

(** ** The remote analysis call and its parsers *)

Lemma remote_call_eq {A} (parse : string * string -> A) net q w
      (rethrow : bool) :
  (if rethrow then
     try_catch
       (response <- fetch net q;;
        if negb (r_ok response) then throw (Inkeep.api_error response)
        else result <- json response;; ret (parse result))
       (fun e => throw e)
   else
     (response <- fetch net q;;
      if negb (r_ok response) then throw (Inkeep.api_error response)
      else result <- json response;; ret (parse result))) w
  = (remote_outcome parse (net q), requested q w).
Proof.
  destruct rethrow; unfold try_catch, bind; rewrite fetch_eq;
    destruct (net q) as [e|st payload]; cbn [remote_outcome]; try reflexivity;
    unfold r_ok, Inkeep.api_error; cbn [r_status];
    destruct ((200 <=? st)%nat && (st <=? 299)%nat); cbn [negb];
    try reflexivity; unfold json; cbn [r_payload];
    destruct payload; reflexivity.
Qed.

Lemma advanced_call_eq env svc net input output context w :
  Inkeep.processAdvancedGovernance env svc net input output context w
  = (remote_outcome (Inkeep.parseAdvancedGovernanceResponse env)
       (net (advanced_request svc (Inkeep.advanced_message input output context))),
     requested (advanced_request svc (Inkeep.advanced_message input output context)) w).
Proof.
  unfold Inkeep.processAdvancedGovernance.
  apply (remote_call_eq (Inkeep.parseAdvancedGovernanceResponse env) net _ w true).
Qed.

Lemma advanced_call_js_eq env svc net input output context w :
  Inkeep.JS.processAdvancedGovernance env svc net input output context w
  = (remote_outcome (Inkeep.JS.parseAdvanced env)
       (net (advanced_request svc (Inkeep.JS.advanced_message input output context))),
     requested (advanced_request svc (Inkeep.JS.advanced_message input output context)) w).
Proof.
  unfold Inkeep.JS.processAdvancedGovernance.
  apply (remote_call_eq (Inkeep.JS.parseAdvanced env) net _ w false).
Qed.

(** X5.  An advanced analysis call, in both services, sends exactly one
    POST to <baseUrl>/conversations for the graph
    governance-graph-advanced, whatever the outcome.  It throws the
    network error when the request rejects, "Inkeep agents API error:
    <status>" when the status is not 2xx and the parse error when the
    body is not JSON; otherwise it returns the parsed reply. *)
Theorem advanced_call_outcomes
        (env : Env) (svc : Inkeep.Service) (net : Network)
        (input output : string) (context : option string) (w : World) :
  let q := advanced_request svc (Inkeep.advanced_message input output context) in
  let q_js := advanced_request svc (Inkeep.JS.advanced_message input output context) in
  Inkeep.processAdvancedGovernance env svc net input output context w
  = (remote_outcome (Inkeep.parseAdvancedGovernanceResponse env) (net q),
     requested q w) /\
  Inkeep.JS.processAdvancedGovernance env svc net input output context w
  = (remote_outcome (Inkeep.JS.parseAdvanced env) (net q_js), requested q_js w) /\
  q_url q = Inkeep.baseUrl svc +:+ "/conversations" /\
  q_method q = "POST".
Proof.
  cbn zeta. split; [|split; [|split; reflexivity]].
  - apply advanced_call_eq.
  - apply advanced_call_js_eq.
Qed.

Lemma parse_cases env response :
  let r := Inkeep.parseGovernanceResponse env response in
  rr_violations r
  = (if mentions_violation response then
       [ mkViolation "compliance"
           "Policy violation detected by Inkeep agents"
           "Detected through Inkeep governance analysis"
           (if mentions_critical response then 9
            else if includes (reply_text response) "high" then 7 else 5)
           0.85 "Multiple frameworks" ]
     else []) /\
  (rr_status r, rr_severity r) = GovTS.resolve (rr_violations r).
Proof.
  cbn zeta. unfold Inkeep.parseGovernanceResponse, mentions_violation,
    mentions_critical, reply_text.
  set (lc := toLowerCase _).
  destruct (includes lc "violation" || includes lc "blocked");
    [|split; reflexivity].
  destruct (includes lc "critical"); [split; reflexivity|].
  destruct (includes lc "high"); split; reflexivity.
Qed.

Lemma parseBasic_cases env response :
  let r := Inkeep.JS.parseBasic env response in
  rr_violations r
  = (if mentions_violation response then
       [ mkViolation "compliance" "Detected by Inkeep" "Inkeep analysis"
           (if mentions_critical response then 9 else 7) 0.85 "" ]
     else []) /\
  rr_status r = fst (GovJS.resolve (rr_violations r)) /\
  rr_severity r
  = (if mentions_critical response && negb (mentions_violation response)
     then critical
     else snd (GovJS.resolve (rr_violations r))).
Proof.
  cbn zeta. unfold Inkeep.JS.parseBasic, mentions_violation,
    mentions_critical, reply_text.
  set (lc := toLowerCase _).
  destruct (includes lc "violation" || includes lc "blocked");
    destruct (includes lc "critical"); repeat split; reflexivity.
Qed.

(** X6.  The status and severity that the TypeScript parser reports for
    a remote reply are the ones [determineFinalStatus] resolves from the
    violations it extracted.  The Node parser reports the status that
    its service resolves, and the same severity except for a reply that
    contains "critical" without "violation" or "blocked": it has no
    violation and status approved, yet is reported critical. *)
Theorem parsers_agree_with_resolvers (env : Env) (response : string * string) :
  let ts := Inkeep.parseAdvancedGovernanceResponse env response in
  let js := Inkeep.JS.parseAdvanced env response in
  (rr_status ts, rr_severity ts) = GovTS.resolve (rr_violations ts) /\
  rr_status js = fst (GovJS.resolve (rr_violations js)) /\
  (mentions_violation response = true \/ mentions_critical response = false ->
   rr_severity js = snd (GovJS.resolve (rr_violations js))) /\
  (mentions_violation response = false -> mentions_critical response = true ->
   rr_violations js = [] /\ rr_status js = approved /\ rr_severity js = critical).
Proof.
  cbn zeta. unfold Inkeep.parseAdvancedGovernanceResponse, Inkeep.JS.parseAdvanced.
  destruct (parse_cases env response) as (_ & Hts).
  destruct (parseBasic_cases env response) as (Hv & Hst & Hsv).
  cbn zeta in *. split; [exact Hts|]. split; [exact Hst|]. split.
  - intros [H | H]; rewrite Hsv, H; [by rewrite andb_false_r | reflexivity].
  - intros Hnv Hc. rewrite Hsv, Hst, Hv, Hnv, Hc. repeat split.
Qed.

Lemma parsers_agree_with_resolvers_witness :
  let js := Inkeep.JS.parseAdvanced (mkEnv 0 "r") ("No critical issue found.", "") in
  rr_violations js = [] /\ rr_status js = approved /\ rr_severity js = critical.
Proof.
  cbn zeta.
  destruct (parsers_agree_with_resolvers (mkEnv 0 "r") ("No critical issue found.", ""))
    as (_ & _ & _ & H).
  apply H; reflexivity.
Defined.

(** ** The orchestrators on the remote path *)

Lemma remote_outcome_Ok {A} (parse : string * string -> A) o result :
  remote_outcome parse o = Ok result ->
  exists st content message,
    o = Responds st (Json content message) /\
    (200 <=? st)%nat && (st <=? 299)%nat = true /\
    result = parse (content, message).
Proof.
  destruct o as [e|st [e|content message]]; cbn [remote_outcome];
    try discriminate;
    destruct ((200 <=? st)%nat && (st <=? 299)%nat) eqn:E; try discriminate.
  intros [= <-]. by exists st, content, message.
Qed.

Lemma GovTS_remote_returns env svc net agents input output context w result w1 :
  Inkeep.processAdvancedGovernance env svc net input output context w
  = (Ok result, w1) ->
  GovTS.processInteraction env (mkConfig true true) svc net agents input output context w
  = (Ok (GovTS.determineFinalStatus
           (push_actions [GovTS.inkeep_log env (length (rr_violations result))]
              (push_actions (rr_agentActions result)
                 (push_violations (rr_violations result)
                    (fresh env input output))))), w1).
Proof.
  intros Hr.
  unfold GovTS.processInteraction, GovTS.processWithInkeepAgents.
  cbn [GovTS.shouldUseInkeep useInkeepAgents inkeepAvailable andb].
  unfold run, bind, try_catch, onInteraction, onWorld, get, modify.
  cbn [fst snd].
  change (i_input (fresh env input output)) with input.
  change (i_output (fresh env input output)) with output.
  rewrite Hr. reflexivity.
Qed.

(** X7.  When the remote analysis succeeds, governanceService.ts
    returns the remote violations, the remote agent actions followed by
    one InkeepIntegration log action that counts the violations, and a
    status and severity equal to the ones the remote reply reported; the
    legacy agents are not consulted. *)
Theorem typescript_remote_success
        (env : Env) (svc : Inkeep.Service) (net : Network) (agents : GovTS.Agents)
        (input output : string) (context : option string) (w : World)
        (result : RemoteResult) (w1 : World) :
  Inkeep.processAdvancedGovernance env svc net input output context w
  = (Ok result, w1) ->
  exists i,
    GovTS.processInteraction env (mkConfig true true) svc net agents
                             input output context w = (Ok i, w1) /\
    i_violations i = rr_violations result /\
    i_agentActions i
    = (rr_agentActions result
       ++ [GovTS.inkeep_log env (length (rr_violations result))])%list /\
    resolved i = (rr_status result, rr_severity result).
Proof.
  intros Hr.
  rewrite (GovTS_remote_returns env svc net agents input output context w result w1 Hr).
  eexists. split; [reflexivity|].
  set (i0 := push_actions _ _).
  destruct (determineFinalStatus_decided i0) as (_ & Ha & Hv).
  split; [exact Hv|]. split; [exact Ha|].
  rewrite GovTS_determineFinalStatus_resolved.
  rewrite advanced_call_eq in Hr. injection Hr as Hout _.
  apply remote_outcome_Ok in Hout as (st & content & message & _ & _ & ->).
  destruct (parse_cases env (content, message)) as (_ & Hres). cbn zeta in Hres.
  symmetry. exact Hres.
Qed.

Lemma typescript_remote_success_witness :
  let net : Network := fun _ => Responds 200 (Json "Critical policy violation." "") in
  exists i w1,
    GovTS.processInteraction (mkEnv 0 "r") (mkConfig true true)
      (Inkeep.mkService "http://localhost:3003" true) net quiet_agents
      "hello" "world" None (mkWorld ∅ []) = (Ok i, w1) /\
    resolved i = (blocked, critical).
Proof.
  cbn zeta.
  destruct (typescript_remote_success (mkEnv 0 "r")
              (Inkeep.mkService "http://localhost:3003" true)
              (fun _ => Responds 200 (Json "Critical policy violation." ""))
              quiet_agents "hello" "world" None (mkWorld ∅ [])
              (Inkeep.parseAdvancedGovernanceResponse (mkEnv 0 "r")
                 ("Critical policy violation.", ""))
              (requested (advanced_request (Inkeep.mkService "http://localhost:3003" true)
                            (Inkeep.advanced_message "hello" "world" None))
                         (mkWorld ∅ [])) eq_refl)
    as (i & E & _ & _ & Hres).
  exists i. eexists. split; [exact E | exact Hres].
Defined.

(** X8.  governanceService.js blocks an interaction exactly when the
    remote backend is in use, its reply arrives with a success status
    and a JSON body, and the reply text contains "critical" together
    with "violation" or "blocked".  It never throws. *)
Theorem node_service_blocks_exactly_when
        (env : Env) (cfg : Config) (svc : Inkeep.Service) (net : Network)
        (input output : string) (context : option string) (w : World) :
  exists i w',
    GovJS.processInteraction env cfg svc net input output context w = (Ok i, w') /\
    (i_status i = blocked <->
     useInkeepAgents cfg && inkeepAvailable cfg = true /\
     exists st content message,
       net (advanced_request svc (Inkeep.JS.advanced_message input output context))
       = Responds st (Json content message) /\
       (200 <=? st)%nat && (st <=? 299)%nat = true /\
       mentions_critical (content, message) = true /\
       mentions_violation (content, message) = true).
Proof.
  pose proof (advanced_call_js_eq env svc net input output context w) as E.
  destruct (useInkeepAgents cfg && inkeepAvailable cfg) eqn:Euse.
  - destruct (remote_outcome (Inkeep.JS.parseAdvanced env) _) as [result|e] eqn:Hout.
    + rewrite (GovJS_remote_returns env cfg svc net input output context w result _ Euse E).
      eexists _, _. split; [reflexivity|].
      pose proof Hout as Hinv.
      apply remote_outcome_Ok in Hinv as (st & content & message & Hnet & Hok & ->).
      set (i0 := push_actions _ _).
      pose proof (GovJS_finalizeStatus_resolved i0) as Hres.
      destruct (parseBasic_cases env (content, message)) as (Hv & Hst & _).
      cbn zeta in Hv, Hst. unfold Inkeep.JS.parseAdvanced in *.
      change (i_violations i0)
        with (rr_violations (Inkeep.JS.parseBasic env (content, message))) in Hres.
      unfold resolved in Hres.
      assert (Hi : i_status (GovJS.finalizeStatus i0)
                   = rr_status (Inkeep.JS.parseBasic env (content, message))).
      { rewrite Hst. by injection Hres as -> _. }
      rewrite Hi. rewrite Hnet.
      assert (Hcase : rr_status (Inkeep.JS.parseBasic env (content, message)) = blocked
                      <-> mentions_critical (content, message) = true /\
                          mentions_violation (content, message) = true).
      { rewrite Hst, Hv.
        destruct (mentions_violation (content, message)),
          (mentions_critical (content, message)); vm_compute; intuition discriminate. }
      rewrite Hcase. split.
      * intros [Hc Hm]. split; [reflexivity|]. by exists st, content, message.
      * intros (_ & st' & c' & m' & [= -> -> ->] & _ & Hc & Hm). by split.
    + rewrite (GovJS_remote_throws env cfg svc net input output context w e _ Euse E).
      eexists _, _. split; [reflexivity|].
      destruct (finalize_without_violations
                  (push_actions [GovJS.error_log env e] (fresh env input output)) eq_refl)
        as (_ & -> & _).
      split; [discriminate|].
      intros (_ & st & content & message & Hnet & Hok & _).
      rewrite Hnet in Hout. cbn [remote_outcome] in Hout. rewrite Hok in Hout.
      discriminate.
  - rewrite (GovJS_local env cfg svc net input output context w Euse).
    eexists _, _. split; [reflexivity|].
    destruct (finalize_without_violations
                (push_actions [GovJS.legacy_log env] (fresh env input output)) eq_refl)
      as (_ & -> & _).
    split; [discriminate | intros [? _]; discriminate].
Qed.

(** ** Legacy agents: local mode against fallback *)

Lemma GovTS_local env cfg svc net agents input output context w :
  GovTS.shouldUseInkeep cfg = false ->
  GovTS.processInteraction env cfg svc net agents input output context w
  = let '(_, (i1, w1)) := GovTS.processWithLegacyAgents agents (fresh env input output, w) in
    (Ok (GovTS.determineFinalStatus i1), w1).
Proof.
  intros E. unfold GovTS.processInteraction. rewrite E.
  unfold run, bind, try_catch.
  destruct (GovTS.processWithLegacyAgents agents (fresh env input output, w))
    as [[[]|e] [i1 w1]]; reflexivity.
Qed.

(** X9.  In governanceService.ts an error thrown by a legacy agent is
    swallowed in legacy mode, where the interaction is resolved from
    whatever the agents left on it, but reaches the caller when it
    happens during the fallback that follows a remote failure.  When the
    legacy agents return normally, the fallback gives exactly what
    legacy mode gives from the world the failed request left. *)
Theorem fallback_against_legacy_mode
        (env : Env) (svc : Inkeep.Service) (net : Network) (agents : GovTS.Agents)
        (input output : string) (context : option string) (w : World)
        (e : string) (w1 : World) (outcome : Result unit) (i1 : Interaction) (w2 : World) :
  Inkeep.processAdvancedGovernance env svc net input output context w = (Throw e, w1) ->
  GovTS.processWithLegacyAgents agents (fresh env input output, w1) = (outcome, (i1, w2)) ->
  GovTS.processInteraction env (mkConfig false false) svc net agents
                           input output context w1
  = (Ok (GovTS.determineFinalStatus i1), w2) /\
  GovTS.processInteraction env (mkConfig true true) svc net agents
                           input output context w
  = (match outcome with
     | Ok _ => Ok (GovTS.determineFinalStatus i1)
     | Throw e' => Throw e'
     end, w2).
Proof.
  intros Hr Hl. split.
  - rewrite (GovTS_local env (mkConfig false false) svc net agents input output
               context w1 eq_refl).
    by rewrite Hl.
  - rewrite (GovTS_remote_throws env svc net agents input output context w e w1 Hr).
    unfold run, bind. rewrite Hl. by destruct outcome as [[]|e'].
Qed.

Lemma fallback_against_legacy_mode_witness :
  let failing := GovTS.mkAgents (ret []) (throw "verifier down") (ret []) (ret []) (ret []) in
  let svc := Inkeep.mkService "http://localhost:3003" true in
  fst (GovTS.processInteraction (mkEnv 0 "r") (mkConfig true true) svc dead_network
         failing "hello" "world" None (mkWorld ∅ []))
  = Throw "verifier down".
Proof.
  cbn zeta.
  destruct (fallback_against_legacy_mode (mkEnv 0 "r")
              (Inkeep.mkService "http://localhost:3003" true) dead_network
              (GovTS.mkAgents (ret []) (throw "verifier down") (ret []) (ret []) (ret []))
              "hello" "world" None (mkWorld ∅ []) "timeout"
              (requested (advanced_request (Inkeep.mkService "http://localhost:3003" true)
                            (Inkeep.advanced_message "hello" "world" None))
                         (mkWorld ∅ []))
              (Throw "verifier down") (fresh (mkEnv 0 "r") "hello" "world")
              (requested (advanced_request (Inkeep.mkService "http://localhost:3003" true)
                            (Inkeep.advanced_message "hello" "world" None))
                         (mkWorld ∅ []))
              eq_refl eq_refl) as (_ & E).
  rewrite E. reflexivity.
Defined.

Lemma step_eq (agent : GovTS.Agent) i w :
  GovTS.step agent (i, w)
  = match agent i with
    | (Ok actions, i') => (Ok tt, (push_actions actions i', w))
    | (Throw e, i') => (Throw e, (i', w))
    end.
Proof.
  unfold GovTS.step, bind, onInteraction, modify. cbn [fst snd].
  destruct (agent i) as [[actions|e] i']; reflexivity.
Qed.

(** X10.  The legacy agents run in the order policy enforcer, verifier,
    response agent, audit logger, feedback agent, and the first one that
    throws ends the run: later agents are not called, the error is
    rethrown, and the actions pushed so far stay on the interaction.
    No agent run touches the world. *)
Theorem legacy_agents_stop_at_first_failure
        (agents : GovTS.Agents) (i : Interaction) (w : World)
        (actions : list AgentAction) (i1 i2 : Interaction) (e : string) :
  GovTS.policyEnforcer agents i = (Ok actions, i1) ->
  GovTS.verifier agents (push_actions actions i1) = (Throw e, i2) ->
  GovTS.processWithLegacyAgents agents (i, w) = (Throw e, (i2, w)) /\
  forall others,
    GovTS.processWithLegacyAgents
      (GovTS.mkAgents (GovTS.policyEnforcer agents) (GovTS.verifier agents)
                      (GovTS.responseAgent others) (GovTS.auditLogger others)
                      (GovTS.feedbackAgent others)) (i, w)
    = GovTS.processWithLegacyAgents agents (i, w).
Proof.
  intros Hp Hv.
  assert (H : forall a3 a4 a5,
             GovTS.processWithLegacyAgents
               (GovTS.mkAgents (GovTS.policyEnforcer agents) (GovTS.verifier agents)
                               a3 a4 a5) (i, w) = (Throw e, (i2, w))).
  { intros a3 a4 a5. unfold GovTS.processWithLegacyAgents.
    cbn [GovTS.policyEnforcer GovTS.verifier GovTS.responseAgent
         GovTS.auditLogger GovTS.feedbackAgent].
    unfold try_catch. unfold bind at 1. rewrite step_eq, Hp.
    unfold bind at 1. rewrite step_eq, Hv. reflexivity. }
  split.
  - destruct agents as [a1 a2 a3 a4 a5]. apply (H a3 a4 a5).
  - intros others. rewrite H.
    destruct agents as [a1 a2 a3 a4 a5]. symmetry. apply (H a3 a4 a5).
Qed.

Lemma legacy_agents_stop_at_first_failure_witness :
  let failing := GovTS.mkAgents (ret []) (throw "verifier down") (ret []) (ret []) (ret []) in
  GovTS.processWithLegacyAgents failing (fresh (mkEnv 0 "r") "a" "b", mkWorld ∅ [])
  = (Throw "verifier down", (fresh (mkEnv 0 "r") "a" "b", mkWorld ∅ [])).
Proof.
  cbn zeta.
  apply (legacy_agents_stop_at_first_failure
           (GovTS.mkAgents (ret []) (throw "verifier down") (ret []) (ret []) (ret []))
           (fresh (mkEnv 0 "r") "a" "b") (mkWorld ∅ []) []
           (fresh (mkEnv 0 "r") "a" "b") (fresh (mkEnv 0 "r") "a" "b") "verifier down");
    reflexivity.
Defined.

(** ** The Supabase variant *)

Lemma has_In label severities :
  GovSupabase.has label severities = true <-> In label severities.
Proof.
  unfold GovSupabase.has. rewrite existsb_exists. split.
  - intros (x & Hin & E). apply String.eqb_eq in E. by subst.
  - intros Hin. exists label. split; [exact Hin | apply String.eqb_refl].
Qed.

(** X11.  [getMaxSeverity] returns the greatest bucket whose label
    occurs in the list, and low when no label of a bucket occurs; a
    label it does not know, such as "Critical", counts for nothing. *)
Theorem getMaxSeverity_is_maximum (severities : list string) :
  let m := GovSupabase.getMaxSeverity severities in
  (forall s, In (Severity_label s) severities -> Severity_le s m) /\
  (m = low \/ In (Severity_label m) severities) /\
  (forall other, GovSupabase.getMaxSeverity (severities ++ other)
                 = GovSupabase.getMaxSeverity (other ++ severities)) /\
  (forall other, Severity_le m (GovSupabase.getMaxSeverity (severities ++ other))).
Proof.
  cbn zeta.
  assert (Happ : forall label a b,
             GovSupabase.has label (a ++ b)
             = GovSupabase.has label a || GovSupabase.has label b).
  { intros. unfold GovSupabase.has. apply existsb_app. }
  unfold GovSupabase.getMaxSeverity.
  repeat split.
  - intros s Hin. apply has_In in Hin. unfold Severity_le.
    destruct s; cbn [Severity_label] in Hin; rewrite ?Hin;
      repeat match goal with |- context [if ?c then _ else _] => destruct c end;
      cbn; lia.
  - destruct (GovSupabase.has "critical" severities) eqn:Ec;
      [right; by apply has_In|].
    destruct (GovSupabase.has "high" severities) eqn:Eh;
      [right; by apply has_In|].
    destruct (GovSupabase.has "medium" severities) eqn:Em;
      [right; by apply has_In | by left].
  - intros other. rewrite !Happ.
    destruct (GovSupabase.has "critical" severities),
      (GovSupabase.has "critical" other),
      (GovSupabase.has "high" severities), (GovSupabase.has "high" other),
      (GovSupabase.has "medium" severities), (GovSupabase.has "medium" other);
      reflexivity.
  - intros other. rewrite !Happ. unfold Severity_le.
    destruct (GovSupabase.has "critical" severities),
      (GovSupabase.has "critical" other),
      (GovSupabase.has "high" severities), (GovSupabase.has "high" other),
      (GovSupabase.has "medium" severities), (GovSupabase.has "medium" other);
      cbn; lia.
Qed.

Lemma getMaxSeverity_is_maximum_witness :
  Severity_le high (GovSupabase.getMaxSeverity ["low"; "Critical"; "high"; "medium"]).
Proof.
  destruct (getMaxSeverity_is_maximum ["low"; "Critical"; "high"; "medium"]) as (H & _).
  apply (H high). cbn. tauto.
Defined.

Section SupabaseMore.
Variable env : Env.
Variable cfg : Config.
Variable useSupabase : bool.
Variable db : string -> Result unit.
Variable agents : list GovSupabase.Agent.
Variable runGovernanceCheck : string -> string -> string -> Result GovSupabase.Remote.

Lemma await_db_eq site (i : GovSupabase.SInteraction) :
  GovSupabase.await_db useSupabase db site i
  = (if useSupabase then db site else Ok tt, i).
Proof.
  unfold GovSupabase.await_db, ret, throw.
  destruct useSupabase; [|reflexivity]. by destruct (db site) as [[]|e].
Qed.

Lemma Supabase_processInteraction_eq input output complexity :
  GovSupabase.processInteraction env cfg useSupabase db agents runGovernanceCheck
    input output complexity
  = match (if useSupabase then db "process_interaction_start" else Ok tt) with
    | Ok _ =>
        let '(r, i) :=
          (if GovSupabase.shouldUseInkeep cfg
           then GovSupabase.processWithInkeepAgents env useSupabase db agents
                  runGovernanceCheck complexity
           else GovSupabase.processWithLegacyAgents env useSupabase db agents)
            (fresh_s env input output) in
        match r with
        | Ok _ => Ok i
        | Throw _ =>
            match (if useSupabase then db "process_interaction_error" else Ok tt) with
            | Ok _ => Ok (GovSupabase.with_status error i)
            | Throw e' => Throw e'
            end
        end
    | Throw _ =>
        match (if useSupabase then db "process_interaction_error" else Ok tt) with
        | Ok _ => Ok (GovSupabase.with_status error (fresh_s env input output))
        | Throw e' => Throw e'
        end
    end.
Proof.
  unfold GovSupabase.processInteraction. fold (fresh_s env input output).
  unfold try_catch. unfold bind at 1. rewrite await_db_eq.
  destruct (if useSupabase then db "process_interaction_start" else Ok tt)
    as [[]|e0].
  - destruct (GovSupabase.shouldUseInkeep cfg).
    + destruct (GovSupabase.processWithInkeepAgents env useSupabase db agents
                  runGovernanceCheck complexity (fresh_s env input output))
        as [[[]|e] i]; [reflexivity|].
      unfold bind. rewrite await_db_eq.
      destruct (if useSupabase then db "process_interaction_error" else Ok tt)
        as [[]|e']; reflexivity.
    + destruct (GovSupabase.processWithLegacyAgents env useSupabase db agents
                  (fresh_s env input output))
        as [[[]|e] i]; [reflexivity|].
      unfold bind. rewrite await_db_eq.
      destruct (if useSupabase then db "process_interaction_error" else Ok tt)
        as [[]|e']; reflexivity.
  - unfold bind. rewrite await_db_eq.
    destruct (if useSupabase then db "process_interaction_error" else Ok tt)
      as [[]|e']; reflexivity.
Qed.
End SupabaseMore.

(** X12.  In governanceServiceSupabase.ts, when the first Supabase
    write of a request rejects, no governance analysis runs: neither the
    agents nor the remote check are consulted, and the interaction comes
    back with status error, severity low, no violation and no agent
    action (or the call throws, if the error log write rejects too). *)
Theorem supabase_outage_skips_analysis
        (env : Env) (cfg : Config) (db : string -> Result unit)
        (agents : list GovSupabase.Agent)
        (runGovernanceCheck : string -> string -> string -> Result GovSupabase.Remote)
        (input output complexity e : string) :
  db "process_interaction_start" = Throw e ->
  GovSupabase.processInteraction env cfg true db agents runGovernanceCheck
    input output complexity
  = match db "process_interaction_error" with
    | Ok _ => Ok (GovSupabase.mkSInteraction (interaction_id env) input output
                    (now env) error low [] [])
    | Throw e' => Throw e'
    end.
Proof.
  intros Hdb. rewrite Supabase_processInteraction_eq. rewrite Hdb.
  by destruct (db "process_interaction_error").
Qed.

Lemma supabase_outage_skips_analysis_witness :
  GovSupabase.processInteraction (mkEnv 0 "r") (mkConfig false false) true
    (fun site => if String.eqb site "process_interaction_start"
                 then Throw "connection refused" else Ok tt)
    [GovSupabase.mkAgent "PolicyEnforcer" "policy"
       (ret (GovSupabase.mkAction "violation" "critical" "hacking request" ""))]
    (fun _ _ _ => Throw "unavailable")
    "how to hack into a bank" "..." ""
  = Ok (GovSupabase.mkSInteraction (interaction_id (mkEnv 0 "r"))
          "how to hack into a bank" "..." 0 error low [] []).
Proof.
  apply (supabase_outage_skips_analysis (mkEnv 0 "r") (mkConfig false false)
           (fun site => if String.eqb site "process_interaction_start"
                        then Throw "connection refused" else Ok tt)
           _ _ "how to hack into a bank" "..." "" "connection refused").
  reflexivity.
Defined.

(** X13.  In governanceServiceSupabase.ts a failed remote check is
    indistinguishable from legacy mode: the call returns exactly what it
    returns with the remote backend switched off. *)
Theorem supabase_fallback_is_legacy_mode
        (env : Env) (useSupabase : bool) (db : string -> Result unit)
        (agents : list GovSupabase.Agent)
        (runGovernanceCheck : string -> string -> string -> Result GovSupabase.Remote)
        (input output complexity e : string) :
  runGovernanceCheck input output (or_str complexity "basic") = Throw e ->
  GovSupabase.processInteraction env (mkConfig true true) useSupabase db agents
    runGovernanceCheck input output complexity
  = GovSupabase.processInteraction env (mkConfig false false) useSupabase db agents
      runGovernanceCheck input output complexity.
Proof.
  intros Hr. rewrite !Supabase_processInteraction_eq.
  cbn [GovSupabase.shouldUseInkeep useInkeepAgents inkeepAvailable andb].
  destruct (if useSupabase then db "process_interaction_start" else Ok tt)
    as [[]|e0]; [|reflexivity].
  unfold GovSupabase.processWithInkeepAgents at 1.
  unfold try_catch, bind, get.
  change (GovSupabase.s_input (fresh_s env input output)) with input.
  change (GovSupabase.s_output (fresh_s env input output)) with output.
  rewrite Hr. reflexivity.
Qed.

Lemma supabase_fallback_is_legacy_mode_witness :
  GovSupabase.processInteraction (mkEnv 0 "r") (mkConfig true true) false
    (fun _ => Ok tt) [] (fun _ _ _ => Throw "timeout") "hello" "world" ""
  = GovSupabase.processInteraction (mkEnv 0 "r") (mkConfig false false) false
      (fun _ => Ok tt) [] (fun _ _ _ => Throw "timeout") "hello" "world" "".
Proof.
  apply (supabase_fallback_is_legacy_mode (mkEnv 0 "r") false (fun _ => Ok tt) []
           (fun _ _ _ => Throw "timeout") "hello" "world" "" "timeout").
  reflexivity.
Defined.

Lemma decide_status_spec (i : GovSupabase.SInteraction) :
  let d := GovSupabase.decide_status i in
  GovSupabase.s_violations d = GovSupabase.s_violations i /\
  GovSupabase.s_agentActions d = GovSupabase.s_agentActions i /\
  (GovSupabase.s_status d = compliant <-> GovSupabase.s_violations i = []) /\
  (GovSupabase.s_status d = blocked <->
   exists v, In v (GovSupabase.s_violations i) /\ GovSupabase.sv_severity v = "critical") /\
  (GovSupabase.s_violations i <> [] ->
   GovSupabase.s_severity d
   = GovSupabase.getMaxSeverity (map GovSupabase.sv_severity (GovSupabase.s_violations i))).
Proof.
  cbn zeta. unfold GovSupabase.decide_status.
  assert (Hcrit : forall l,
             GovSupabase.getMaxSeverity (map GovSupabase.sv_severity l) = critical <->
             exists v, In v l /\ GovSupabase.sv_severity v = "critical").
  { intros l. unfold GovSupabase.getMaxSeverity.
    destruct (GovSupabase.has "critical" _) eqn:E.
    - apply has_In in E. apply in_map_iff in E as (v & Hv & Hin).
      split; [intros _; by exists v | reflexivity].
    - split.
      + repeat match goal with |- context [if ?c then _ else _] => destruct c end;
          discriminate.
      + intros (v & Hin & Hv).
        assert (GovSupabase.has "critical" (map GovSupabase.sv_severity l) = true).
        { apply has_In. apply in_map_iff. by exists v. }
        congruence. }
  destruct (GovSupabase.s_violations i) as [|v vs] eqn:Ev;
    cbn [length Nat.ltb Nat.leb].
  - cbn [GovSupabase.with_status GovSupabase.s_violations
         GovSupabase.s_agentActions GovSupabase.s_status].
    rewrite Ev. repeat split; try done.
    intros (v & [] & _).
  - specialize (Hcrit (v :: vs)).
    destruct (decide (GovSupabase.getMaxSeverity
                        (map GovSupabase.sv_severity (v :: vs)) = critical))
      as [Hc | Hc];
      cbn [GovSupabase.with_status GovSupabase.with_severity
           GovSupabase.s_violations GovSupabase.s_agentActions
           GovSupabase.s_status GovSupabase.s_severity];
      rewrite Ev; repeat split; try done.
    + intros _. by apply Hcrit.
    + intros H. by apply Hcrit in H.
Qed.

Lemma run_agents_legacy_eq env useSupabase db agents i :
  exists i',
    GovSupabase.run_agents env useSupabase db agents i = (Ok tt, i') /\
    GovSupabase.processWithLegacyAgents env useSupabase db agents i
    = (Ok tt, GovSupabase.decide_status i').
Proof.
  destruct (run_agents_returns env useSupabase db agents i) as (i' & E).
  exists i'. split; [exact E|].
  unfold GovSupabase.processWithLegacyAgents, bind. by rewrite E.
Qed.

(** X14.  In legacy mode governanceServiceSupabase.ts always returns an
    interaction once its first Supabase write went through, and decides
    from the recorded violations alone: compliant exactly when there is
    none, blocked exactly when one carries the severity label
    "critical", flagged otherwise; with a violation, the severity of
    the interaction is the maximum of the labels. *)
Theorem supabase_legacy_decision
        (env : Env) (cfg : Config) (useSupabase : bool) (db : string -> Result unit)
        (agents : list GovSupabase.Agent)
        (runGovernanceCheck : string -> string -> string -> Result GovSupabase.Remote)
        (input output complexity : string) :
  GovSupabase.shouldUseInkeep cfg = false ->
  (if useSupabase then db "process_interaction_start" else Ok tt) = Ok tt ->
  exists i,
    GovSupabase.processInteraction env cfg useSupabase db agents runGovernanceCheck
      input output complexity = Ok i /\
    (GovSupabase.s_status i = compliant <-> GovSupabase.s_violations i = []) /\
    (GovSupabase.s_status i = blocked <->
     exists v, In v (GovSupabase.s_violations i) /\
               GovSupabase.sv_severity v = "critical") /\
    (GovSupabase.s_status i = compliant \/ GovSupabase.s_status i = blocked \/
     GovSupabase.s_status i = flagged) /\
    (GovSupabase.s_violations i <> [] ->
     GovSupabase.s_severity i
     = GovSupabase.getMaxSeverity
         (map GovSupabase.sv_severity (GovSupabase.s_violations i))).
Proof.
  intros Hcfg Hdb. rewrite Supabase_processInteraction_eq, Hdb, Hcfg.
  destruct (run_agents_legacy_eq env useSupabase db agents (fresh_s env input output))
    as (i' & _ & ->).
  exists (GovSupabase.decide_status i'). split; [reflexivity|].
  destruct (decide_status_spec i') as (Hv & _ & Hc & Hb & Hs). cbn zeta in *.
  rewrite Hv. repeat split; try tauto.
  - unfold GovSupabase.decide_status.
    repeat match goal with |- context [if ?c then _ else _] => destruct c end;
      cbn; tauto.
Qed.

Lemma supabase_legacy_decision_witness :
  exists i,
    GovSupabase.processInteraction (mkEnv 0 "r") (mkConfig false false) false
      (fun _ => Ok tt)
      [GovSupabase.mkAgent "PolicyEnforcer" "policy"
         (ret (GovSupabase.mkAction "violation" "Critical" "hacking request" ""))]
      (fun _ _ _ => Throw "unavailable") "how to hack" "..." "" = Ok i /\
    GovSupabase.s_status i = flagged.
Proof.
  destruct (supabase_legacy_decision (mkEnv 0 "r") (mkConfig false false) false
              (fun _ => Ok tt)
              [GovSupabase.mkAgent "PolicyEnforcer" "policy"
                 (ret (GovSupabase.mkAction "violation" "Critical" "hacking request" ""))]
              (fun _ _ _ => Throw "unavailable") "how to hack" "..." ""
              eq_refl eq_refl) as (i & E & _).
  exists i. split; [exact E|]. vm_compute in E. by injection E as <-.
Defined.

Lemma call_agents_agents l : forall i,
  map fst (fst (GovSupabase.call_agents l i)) = l.
Proof.
  induction l as [|agent rest IH]; intros i; cbn [GovSupabase.call_agents].
  - reflexivity.
  - destruct (GovSupabase.ag_process agent i) as [outcome i1].
    specialize (IH i1).
    destruct (GovSupabase.call_agents rest i1) as [called i2].
    cbn [fst map] in *. by rewrite IH.
Qed.

Lemma call_agents_violations l : forall i,
  (forall agent, In agent l -> reports_by_action agent) ->
  GovSupabase.s_violations (snd (GovSupabase.call_agents l i))
  = GovSupabase.s_violations i.
Proof.
  induction l as [|agent rest IH]; intros i Hl; cbn [GovSupabase.call_agents].
  - reflexivity.
  - pose proof (Hl agent (or_introl eq_refl) i) as Hrep.
    destruct (GovSupabase.ag_process agent i) as [outcome i1]. cbn [snd] in Hrep.
    specialize (IH i1 (fun a Ha => Hl a (or_intror Ha))).
    destruct (GovSupabase.call_agents rest i1) as [called i2].
    cbn [snd] in *. congruence.
Qed.

Lemma settle_audit_rejected env db agent outcome e i :
  db (audit_site agent) = Throw e ->
  exists i',
    GovSupabase.settle env true db (agent, outcome) i = (Ok tt, i') /\
    GovSupabase.s_violations i' = GovSupabase.s_violations i.
Proof.
  intros Hdb. unfold GovSupabase.settle, try_catch.
  destruct outcome as [action|e'].
  - unfold bind at 1. unfold modify at 1. unfold bind at 1.
    rewrite await_db_eq. fold (audit_site agent). rewrite Hdb.
    eexists. split; reflexivity.
  - eexists. split; reflexivity.
Qed.

Lemma settle_all_audit_rejected env db called : forall i,
  (forall agent, In agent (map fst called) -> exists e, db (audit_site agent) = Throw e) ->
  exists i',
    GovSupabase.settle_all env true db called i = (Ok tt, i') /\
    GovSupabase.s_violations i' = GovSupabase.s_violations i.
Proof.
  induction called as [|[agent outcome] rest IH]; intros i Hl.
  - by exists i.
  - cbn [GovSupabase.settle_all]. unfold bind.
    destruct (Hl agent (or_introl eq_refl)) as (e & He).
    destruct (settle_audit_rejected env db agent outcome e i He) as (i1 & -> & Hv1).
    destruct (IH i1 (fun a Ha => Hl a (or_intror Ha))) as (i' & E & Hv').
    exists i'. split; [exact E | congruence].
Qed.

(** X15.  In governanceServiceSupabase.ts the audit write of an agent
    comes before its violation is recorded, inside the same [try]: when
    the audit writes reject, no violation is recorded, and the request
    comes back compliant whatever the agents reported. *)
Theorem supabase_audit_failure_drops_violations
        (env : Env) (cfg : Config) (db : string -> Result unit)
        (agents : list GovSupabase.Agent)
        (runGovernanceCheck : string -> string -> string -> Result GovSupabase.Remote)
        (input output complexity : string) :
  GovSupabase.shouldUseInkeep cfg = false ->
  db "process_interaction_start" = Ok tt ->
  (forall agent, In agent agents ->
                 reports_by_action agent /\ exists e, db (audit_site agent) = Throw e) ->
  exists i,
    GovSupabase.processInteraction env cfg true db agents runGovernanceCheck
      input output complexity = Ok i /\
    GovSupabase.s_violations i = [] /\
    GovSupabase.s_status i = compliant.
Proof.
  intros Hcfg Hdb Hagents. rewrite Supabase_processInteraction_eq, Hdb, Hcfg.
  assert (Hrun : forall l i,
             (forall agent, In agent l ->
                reports_by_action agent /\ exists e, db (audit_site agent) = Throw e) ->
             exists i',
               GovSupabase.run_agents env true db l i = (Ok tt, i') /\
               GovSupabase.s_violations i' = GovSupabase.s_violations i).
  { intros l i Hl. unfold GovSupabase.run_agents.
    pose proof (call_agents_agents l i) as Hfst.
    pose proof (call_agents_violations l i (fun a Ha => proj1 (Hl a Ha))) as Hcall.
    destruct (GovSupabase.call_agents l i) as [called i1]. cbn [fst snd] in *.
    destruct (settle_all_audit_rejected env db called i1) as (i' & E & Hv').
    - rewrite Hfst. intros a Ha. exact (proj2 (Hl a Ha)).
    - exists i'. split; [exact E | congruence]. }
  destruct (Hrun agents (fresh_s env input output) Hagents) as (i' & E & Hv).
  unfold GovSupabase.processWithLegacyAgents, bind. rewrite E.
  exists (GovSupabase.decide_status i'). split; [reflexivity|].
  destruct (decide_status_spec i') as (Hv' & _ & Hc & _). cbn zeta in *.
  split; [by rewrite Hv', Hv|]. apply Hc. by rewrite Hv.
Qed.

Lemma supabase_audit_failure_drops_violations_witness :
  exists i,
    GovSupabase.processInteraction (mkEnv 0 "r") (mkConfig false false) true
      (fun site => if String.eqb site "process_interaction_start"
                   then Ok tt else Throw "connection lost")
      [GovSupabase.mkAgent "PolicyEnforcer" "policy"
         (ret (GovSupabase.mkAction "violation" "critical" "hacking request" ""))]
      (fun _ _ _ => Throw "unavailable") "how to hack" "..." "" = Ok i /\
    GovSupabase.s_violations i = [] /\
    GovSupabase.s_status i = compliant.
Proof.
  apply supabase_audit_failure_drops_violations; [reflexivity | reflexivity |].
  intros agent [<- | []]. split.
  - intros i. reflexivity.
  - by exists "connection lost".
Defined.

(** ** The probes and the backend switch *)

Lemma probe_trace net urls : forall w,
  Inkeep.JS.probe net urls w
  = (Ok (existsb (fun url => answers (net (Inkeep.GET url))) urls),
     requested_all
       (map Inkeep.GET (through_first (fun url => answers (net (Inkeep.GET url))) urls))
       w).
Proof.
  induction urls as [|url rest IH]; intros w.
  - cbn. unfold ret, requested_all. destruct w. by rewrite app_nil_r.
  - cbn [Inkeep.JS.probe existsb through_first]. unfold bind at 1.
    unfold try_catch, bind. rewrite fetch_eq.
    destruct (net (Inkeep.GET url)) as [e|st p] eqn:E; cbn [answers];
      unfold ret, r_ok; cbn [r_status]; cbv beta iota.
    + rewrite IH. cbn [orb map]. unfold requested_all, requested.
      cbn [w_interactions w_requests]. by rewrite <- app_assoc.
    + destruct ((200 <=? st)%nat && (st <=? 299)%nat || (st =? 404)%nat).
      * reflexivity.
      * rewrite IH. cbn [orb map]. unfold requested_all, requested.
        cbn [w_interactions w_requests]. by rewrite <- app_assoc.
Qed.

Lemma through_first_length {A} (p : A -> bool) l :
  length (through_first p l) <= length l.
Proof.
  induction l as [|x l IH]; cbn; [lia|]. destruct (p x); cbn; lia.
Qed.

(** X16.  The Node probe of an enabled service sends GET requests to
    /health, /openapi.json and / in this order and stops after the
    first reply with a success status or status 404: it sends at least
    one and at most three requests, and none after the reply it accepts. *)
Theorem node_probe_requests (svc : Inkeep.Service) (net : Network) (w : World) :
  Inkeep.isEnabled svc = true ->
  let accepts := fun url => answers (net (Inkeep.GET url)) in
  let sent := through_first accepts (Inkeep.JS.candidates svc) in
  Inkeep.JS.isAvailable svc net w
  = (Ok (existsb accepts (Inkeep.JS.candidates svc)),
     requested_all (map Inkeep.GET sent) w) /\
  1 <= length sent <= 3 /\
  (accepts (Inkeep.baseUrl svc +:+ "/health") = true ->
   sent = [Inkeep.baseUrl svc +:+ "/health"]).
Proof.
  intros Hen. cbn zeta. unfold Inkeep.JS.isAvailable. rewrite Hen. cbn [negb].
  split; [apply probe_trace|]. split.
  - split.
    + unfold Inkeep.JS.candidates. cbn [through_first].
      destruct (answers _); cbn; lia.
    + etrans; [apply through_first_length|]. reflexivity.
  - intros H. unfold Inkeep.JS.candidates. cbn [through_first]. by rewrite H.
Qed.

Lemma node_probe_requests_witness :
  let svc := Inkeep.mkService "http://localhost:3003" true in
  let net : Network := fun q =>
    if String.eqb (q_url q) "http://localhost:3003/openapi.json"
    then Responds 200 (Json "" "") else Rejects "refused" in
  Inkeep.JS.isAvailable svc net (mkWorld ∅ [])
  = (Ok true, mkWorld ∅ [Inkeep.GET "http://localhost:3003/health";
                         Inkeep.GET "http://localhost:3003/openapi.json"]).
Proof.
  cbn zeta.
  destruct (node_probe_requests (Inkeep.mkService "http://localhost:3003" true)
              (fun q => if String.eqb (q_url q) "http://localhost:3003/openapi.json"
                        then Responds 200 (Json "" "") else Rejects "refused")
              (mkWorld ∅ []) eq_refl) as (E & _).
  rewrite E. reflexivity.
Defined.

Lemma availability_probe_js svc net w :
  exists w',
    Inkeep.JS.isAvailable svc net w
    = (Ok (Inkeep.isEnabled svc &&
           existsb (fun url => answers (net (Inkeep.GET url)))
                   (Inkeep.JS.candidates svc)), w') /\
    w_interactions w' = w_interactions w.
Proof.
  unfold Inkeep.JS.isAvailable.
  destruct (Inkeep.isEnabled svc); cbn [negb andb].
  - apply probe_eq.
  - by exists w.
Qed.

Lemma GovTS_switch_eq svc net useInkeep cfg w :
  GovTS.switchAgentType svc net useInkeep (cfg, w)
  = if useInkeep
    then let '(r, w') := Inkeep.isAvailable svc net w in
         match r with
         | Ok available => (Ok tt, (mkConfig true available, w'))
         | Throw e => (Throw e, (mkConfig true (inkeepAvailable cfg), w'))
         end
    else (Ok tt, (mkConfig false (inkeepAvailable cfg), w)).
Proof.
  unfold GovTS.switchAgentType, GovTS.checkInkeepAvailability.
  unfold bind at 1. unfold modify at 1. unfold set_useInkeepAgents. cbn [fst snd].
  destruct useInkeep; [|reflexivity].
  unfold bind, onService. cbn [fst snd].
  destruct (Inkeep.isAvailable svc net w) as [[available|e] w']; reflexivity.
Qed.

Lemma GovJS_switch_eq svc net useInkeep cfg w :
  GovJS.switchAgentType svc net useInkeep (cfg, w)
  = if useInkeep
    then let '(r, w') := Inkeep.JS.isAvailable svc net w in
         match r with
         | Ok available => (Ok tt, (mkConfig true available, w'))
         | Throw e => (Throw e, (mkConfig true (inkeepAvailable cfg), w'))
         end
    else (Ok tt, (mkConfig false (inkeepAvailable cfg), w)).
Proof.
  unfold GovJS.switchAgentType, GovJS.checkInkeepAvailability.
  unfold bind at 1. unfold modify at 1. unfold set_useInkeepAgents. cbn [fst snd].
  destruct useInkeep; [|reflexivity].
  unfold bind, onService. cbn [fst snd].
  destruct (Inkeep.JS.isAvailable svc net w) as [[available|e] w']; reflexivity.
Qed.

(** X17.  [switchAgentType] never throws, in either service.  After it,
    [getStatus] reports the agent type inkeep exactly when Inkeep was
    asked for, the integration is enabled by configuration and the probe
    found the backend (a success status on /health for the TypeScript
    service; a success status or 404 on one of the three candidates for
    the Node service).  Switching to legacy sends no request and keeps
    the last known availability. *)
Theorem switch_then_status
        (svc : Inkeep.Service) (net : Network) (useInkeep : bool)
        (cfg : Config) (w : World) :
  (exists cfg' w',
      GovTS.switchAgentType svc net useInkeep (cfg, w) = (Ok tt, (cfg', w')) /\
      (agentType (GovTS.getStatus cfg') = "inkeep" <->
       useInkeep = true /\ Inkeep.isEnabled svc = true /\
       succeeds (net (Inkeep.GET (Inkeep.baseUrl svc +:+ "/health"))) = true) /\
      (useInkeep = false ->
       w' = w /\ inkeepAvailable cfg' = inkeepAvailable cfg)) /\
  (exists cfg' w',
      GovJS.switchAgentType svc net useInkeep (cfg, w) = (Ok tt, (cfg', w')) /\
      (agentType (GovJS.getStatus cfg') = "inkeep" <->
       useInkeep = true /\ Inkeep.isEnabled svc = true /\
       existsb (fun url => answers (net (Inkeep.GET url)))
               (Inkeep.JS.candidates svc) = true) /\
      (useInkeep = false ->
       w' = w /\ inkeepAvailable cfg' = inkeepAvailable cfg)).
Proof.
  split.
  - rewrite GovTS_switch_eq. destruct useInkeep.
    + rewrite isAvailable_eq. destruct (Inkeep.isEnabled svc).
      * eexists _, _. split; [reflexivity|]. split; [|discriminate].
        unfold GovTS.getStatus, GovTS.shouldUseInkeep.
        cbn [agentType useInkeepAgents inkeepAvailable andb].
        destruct (succeeds _); split; try done; intros H; try discriminate H.
        by destruct H as (_ & _ & H).
      * eexists _, _. split; [reflexivity|]. split; [|discriminate].
        cbn. split; [discriminate | intros (_ & H & _); discriminate].
    + eexists _, _. split; [reflexivity|]. split; [|done].
      cbn. split; [discriminate | intros (H & _); discriminate].
  - rewrite GovJS_switch_eq. destruct useInkeep.
    + destruct (availability_probe_js svc net w) as (w' & E & _). rewrite E.
      eexists _, _. split; [reflexivity|]. split; [|discriminate].
      unfold GovJS.getStatus. cbn [agentType useInkeepAgents inkeepAvailable andb].
      destruct (Inkeep.isEnabled svc); cbn [andb].
      * destruct (existsb _ _); split; try done; intros H; try discriminate H.
        by destruct H as (_ & _ & H).
      * split; [discriminate | intros (_ & H & _); discriminate].
    + eexists _, _. split; [reflexivity|]. split; [|done].
      cbn. split; [discriminate | intros (H & _); discriminate].
Qed.

(** ** The Live Monitor *)

Lemma update_by_id_absent id f prev :
  (forall i, In i prev -> i_id i <> id) ->
  LiveMonitor.update_by_id id f prev = prev.
Proof.
  intros H. unfold LiveMonitor.update_by_id.
  induction prev as [|i prev IH]; [reflexivity|]. cbn [map].
  rewrite IH by (intros j Hj; apply H; by right).
  destruct (String.eqb (i_id i) id) eqn:E; [|reflexivity].
  apply String.eqb_eq in E. exfalso. apply (H i); [by left | exact E].
Qed.

(** X18.  An action of the Live Monitor on an id that no held
    interaction carries changes nothing, whatever the action; and an
    action that is neither a rated feedback nor approve nor block
    changes nothing, whatever the id. *)
Theorem monitor_ignores_unknown (env : Env) (id action : string)
        (rating : option LiveMonitor.UiRating) (prev : list Interaction) :
  ((forall i, In i prev -> i_id i <> id) ->
   LiveMonitor.handleInteractionAction env id action rating prev = prev) /\
  (action <> "approve" -> action <> "block" ->
   (action <> "feedback" \/ rating = None) ->
   LiveMonitor.handleInteractionAction env id action rating prev = prev).
Proof.
  split.
  - intros H. unfold LiveMonitor.handleInteractionAction.
    destruct (String.eqb action "feedback"), rating;
      try (by apply update_by_id_absent);
      destruct (String.eqb action "approve" || String.eqb action "block");
      try reflexivity; by apply update_by_id_absent.
  - intros Ha Hb Hf. unfold LiveMonitor.handleInteractionAction.
    apply String.eqb_neq in Ha, Hb. rewrite Ha, Hb. cbn [orb].
    destruct Hf as [Hf | ->].
    + apply String.eqb_neq in Hf. rewrite Hf. by destruct rating.
    + by destruct (String.eqb action "feedback").
Qed.

Lemma monitor_ignores_unknown_witness :
  LiveMonitor.handleInteractionAction (mkEnv 0 "r") "int_2" "approve" None
    [set_status blocked (fresh (mkEnv 0 "r") "a" "b")]
  = [set_status blocked (fresh (mkEnv 0 "r") "a" "b")].
Proof.
  destruct (monitor_ignores_unknown (mkEnv 0 "r") "int_2" "approve" None
              [set_status blocked (fresh (mkEnv 0 "r") "a" "b")]) as (H & _).
  apply H. intros i [<- | []]. vm_compute. discriminate.
Defined.

(** X19.  The operator actions approve and block of the Live Monitor
    overwrite the status of the interactions with the given id, whatever
    their violations: afterwards each of them is approved (blocked),
    while every severity, violation list, feedback and id, and every
    interaction with another id, is as before.  Doing the action twice
    is doing it once. *)
Theorem monitor_operator_override (env : Env) (id : string) (approve : bool)
        (rating : option LiveMonitor.UiRating) (prev : list Interaction) :
  let action := if approve then "approve" else "block" in
  let next := LiveMonitor.handleInteractionAction env id action rating prev in
  Forall2 (fun i j =>
             i_status j = (if String.eqb (i_id i) id
                           then (if approve then approved else blocked)
                           else i_status i) /\
             set_status (i_status i) j = i) prev next /\
  LiveMonitor.handleInteractionAction env id action rating next = next.
Proof.
  cbn zeta.
  assert (E : forall l,
             LiveMonitor.handleInteractionAction env id
               (if approve then "approve" else "block") rating l
             = LiveMonitor.update_by_id id
                 (set_status (if approve then approved else blocked)) l).
  { intros l. unfold LiveMonitor.handleInteractionAction.
    destruct approve; by destruct rating. }
  rewrite !E. split.
  - unfold LiveMonitor.update_by_id.
    induction prev as [|i prev IH]; [constructor|]. cbn [map].
    constructor; [|exact IH].
    destruct (String.eqb (i_id i) id); [split; [reflexivity | by destruct i]|].
    split; [reflexivity | by destruct i].
  - unfold LiveMonitor.update_by_id. rewrite map_map. apply map_ext.
    intros i. destruct (String.eqb (i_id i) id) eqn:Ei.
    + cbn [set_status i_id]. by rewrite Ei.
    + by rewrite Ei.
Qed.

(** ** The endpoints of server.js *)

Section HandlerFacts.
Variable env : Env.
Variable svc : Inkeep.Service.
Variable net : Network.
Variable toUpperCase : string -> string.
Variable llm : string -> list Api.Message -> Result string.
Variable context_json : string -> string.

Lemma saveToNeo4j_eq driver interaction (s : Svc) :
  Api.saveToNeo4j driver interaction s
  = (match driver with
     | None => Ok tt
     | Some d =>
         match Api.session d with
         | Throw e => Throw e
         | Ok _ => Api.close d
         end
     end, s).
Proof.
  unfold Api.saveToNeo4j, ret, throw.
  destruct driver as [[[[]|e1] [[]|e2]]|]; reflexivity.
Qed.

Lemma GovJS_processInteraction_returns cfg input output context w :
  exists i w',
    GovJS.processInteraction env cfg svc net input output context w = (Ok i, w') /\
    w_interactions w' = w_interactions w.
Proof.
  pose proof (advanced_call_js_eq env svc net input output context w) as E.
  destruct (useInkeepAgents cfg && inkeepAvailable cfg) eqn:Euse.
  - destruct (remote_outcome (Inkeep.JS.parseAdvanced env) _) as [result|e].
    + rewrite (GovJS_remote_returns env cfg svc net input output context w _ _ Euse E).
      by eexists _, _.
    + rewrite (GovJS_remote_throws env cfg svc net input output context w _ _ Euse E).
      by eexists _, _.
  - rewrite (GovJS_local env cfg svc net input output context w Euse). by eexists _, _.
Qed.
End HandlerFacts.

(** X20.  With the remote backend off or unavailable, POST
    /api/copilotkit never blocks and never flags a request whose last
    message has a string content, provided the Neo4j driver, when there
    is one, opens and closes its session: whatever the prompt says, the
    reply is the text of the model (or the apology when the model call
    failed), counted by its length and marked approved, low, with no
    violation; no request is sent and the service is left as it was. *)
Theorem copilotkit_legacy_mode_passes_everything
        (env : Env) (svc : Inkeep.Service) (net : Network)
        (toUpperCase : string -> string)
        (llm : string -> list Api.Message -> Result string)
        (context_json : string -> string)
        (neo4jDriver : option Api.Neo4j)
        (first : Api.Message) (others : list Api.Message) (model : option string)
        (prompt : string) (cfg : Config) (w : World) :
  useInkeepAgents cfg && inkeepAvailable cfg = false ->
  Api.m_content (List.last others first) = Some prompt ->
  (forall driver, neo4jDriver = Some driver ->
                  Api.session driver = Ok tt /\ Api.close driver = Ok tt) ->
  let response :=
    match llm (default "gpt-3.5-turbo" model) (first :: others) with
    | Ok text => text
    | Throw _ => Api.apology
    end in
  Api.copilotkit env svc net toUpperCase llm context_json neo4jDriver
                 (Some (first :: others)) model (cfg, w)
  = (Ok (Api.Completion response (String.length response)
           (Api.mkEthosLens (interaction_id env) approved [] low)),
     (cfg, w)).
Proof.
  intros Hcfg Hprompt Hdb. cbn zeta.
  unfold Api.copilotkit, try_catch. rewrite Hprompt.
  unfold bind at 1. unfold get. unfold bind at 1. unfold onService. cbn [fst snd].
  rewrite (GovJS_local env cfg svc net prompt _ _ w Hcfg).
  unfold bind. rewrite saveToNeo4j_eq.
  destruct neo4jDriver as [driver|]; [|reflexivity].
  destruct (Hdb driver eq_refl) as [-> ->]. reflexivity.
Qed.

Lemma copilotkit_legacy_mode_passes_everything_witness :
  fst (Api.copilotkit (mkEnv 0 "r") (Inkeep.mkService "http://localhost:3003" false)
         dead_network (fun s => s) (fun _ _ => Ok "Sure, here is how.")
         (fun _ => "{}") None
         (Some [Api.mkMessage "user" (Some "how to hack into a bank")]) None
         (mkConfig false false, mkWorld ∅ []))
  = Ok (Api.Completion "Sure, here is how." 18
          (Api.mkEthosLens (interaction_id (mkEnv 0 "r")) approved [] low)).
Proof.
  rewrite (copilotkit_legacy_mode_passes_everything (mkEnv 0 "r")
             (Inkeep.mkService "http://localhost:3003" false) dead_network
             (fun s => s) (fun _ _ => Ok "Sure, here is how.") (fun _ => "{}") None
             (Api.mkMessage "user" (Some "how to hack into a bank")) [] None
             "how to hack into a bank" (mkConfig false false) (mkWorld ∅ [])
             eq_refl eq_refl).
  - reflexivity.
  - discriminate.
Defined.

(** X21.  POST /api/copilotkit always answers: it never throws and
    leaves the configuration and the kept interactions as they were.
    It answers 400 exactly when the body has no non-empty array of
    messages.  A completion whose decision is blocked carries no token
    count and a text built from the violations alone, without the text
    of the model; a completion whose decision is approved carries the
    text of the model unchanged. *)
Theorem copilotkit_always_answers
        (env : Env) (svc : Inkeep.Service) (net : Network)
        (toUpperCase : string -> string)
        (llm : string -> list Api.Message -> Result string)
        (context_json : string -> string) (neo4jDriver : option Api.Neo4j)
        (messages : option (list Api.Message)) (model : option string)
        (cfg : Config) (w : World) :
  exists reply w',
    Api.copilotkit env svc net toUpperCase llm context_json neo4jDriver
                   messages model (cfg, w) = (Ok reply, (cfg, w')) /\
    w_interactions w' = w_interactions w /\
    (reply = Api.BadRequest "Messages array is required" <->
     messages = None \/ messages = Some []) /\
    (forall content tokens el,
        reply = Api.Completion content tokens el ->
        (Api.el_status el = blocked ->
         tokens = 0 /\ content = Api.blockedContent toUpperCase (Api.el_violations el)) /\
        (Api.el_status el = approved ->
         exists ms, messages = Some ms /\
           content = match llm (default "gpt-3.5-turbo" model) ms with
                     | Ok text => text
                     | Throw _ => Api.apology
                     end /\
           tokens = String.length content)).
Proof.
  unfold Api.copilotkit, try_catch.
  destruct messages as [[|m ms]|].
  - eexists _, w. split; [reflexivity|]. split; [reflexivity|].
    split; [split; [by right | reflexivity]|]. discriminate.
  - destruct (Api.m_content (List.last ms m)) as [prompt|].
    + unfold bind at 1. unfold get. unfold bind at 1. unfold onService.
      cbn [fst snd].
      set (response := match llm _ _ with Ok text => text | Throw _ => Api.apology end).
      destruct (GovJS_processInteraction_returns env svc net cfg prompt response
                  (Some (context_json (default "gpt-3.5-turbo" model))) w)
        as (i & w' & -> & Hw').
      unfold bind. rewrite saveToNeo4j_eq.
      destruct (match neo4jDriver with
                | None => Ok tt
                | Some d => match Api.session d with
                            | Throw e => Throw e
                            | Ok _ => Api.close d
                            end
                end) as [[]|e].
      * eexists _, w'. split; [reflexivity|]. split; [exact Hw'|].
        split.
        { split; [|intros [H|H]; discriminate H].
          unfold ret, Api.reply_for. destruct (i_status i); discriminate. }
        intros content tokens el Hreply.
        unfold Api.reply_for, Api.ethosLens_of in Hreply.
        destruct (i_status i) eqn:Est; injection Hreply as <- <- <-;
          cbn [Api.el_status Api.el_violations];
          (split; [intros H; try discriminate H; by split|]);
          intros H; try discriminate H.
        exists (m :: ms). by repeat split.
      * eexists _, w'. split; [reflexivity|]. split; [exact Hw'|].
        split; [split; [discriminate | intros [H|H]; discriminate H]|].
        discriminate.
    + eexists _, w. split; [reflexivity|]. split; [reflexivity|].
      split; [split; [discriminate | intros [H|H]; discriminate H]|].
      discriminate.
  - eexists _, w. split; [reflexivity|]. split; [reflexivity|].
    split; [split; [by left | reflexivity]|]. discriminate.
Qed.

(** X22.  POST /api/governance/switch never answers 500.  It answers
    400, and changes nothing, exactly when [useInkeep] is not a boolean.
    Otherwise it answers "Switched to <type> agents" with the type that
    is in effect after the switch: a request for Inkeep is answered
    "Switched to legacy agents" when the integration is disabled or the
    probe finds no backend. *)
Theorem switch_endpoint_replies
        (svc : Inkeep.Service) (net : Network) (useInkeep : Api.JsValue)
        (cfg : Config) (w : World) :
  exists reply cfg' w',
    Api.switch svc net useInkeep (cfg, w) = (Ok reply, (cfg', w')) /\
    match useInkeep with
    | Api.JsOther =>
        reply = Api.SwitchBadRequest "useInkeep must be a boolean" /\
        cfg' = cfg /\ w' = w
    | Api.JsBool b =>
        let reached :=
          b && Inkeep.isEnabled svc &&
          existsb (fun url => answers (net (Inkeep.GET url)))
                  (Inkeep.JS.candidates svc) in
        reply = Api.Switched
                  ("Switched to " +:+ (if reached then "inkeep" else "legacy")
                   +:+ " agents")
                  (GovJS.getStatus cfg') /\
        useInkeepAgents cfg' = b /\
        agentType (GovJS.getStatus cfg') = (if reached then "inkeep" else "legacy")
    end.
Proof.
  unfold Api.switch, try_catch. destruct useInkeep as [b|].
  - unfold bind at 1. rewrite GovJS_switch_eq. destruct b.
    + destruct (availability_probe_js svc net w) as (w' & E & _). rewrite E.
      unfold bind, get. cbn [fst snd andb].
      eexists _, _, _. split; [reflexivity|]. cbn zeta.
      unfold GovJS.getStatus. cbn [agentType useInkeepAgents inkeepAvailable andb].
      by destruct (Inkeep.isEnabled svc && existsb _ _).
    + unfold bind, get. cbn [fst snd andb].
      eexists _, _, _. split; [reflexivity|]. by cbn.
  - by eexists _, _, _.
Qed.

(** ** Feedback and insights: what is sent *)

(** X23.  In legacy mode [processFeedback] of governanceService.ts does
    nothing at all: nothing is sent and nothing is stored.  With the
    remote backend in use it sends exactly one POST for the graph
    compliance-audit-graph, whose message names the interaction id and
    the rating, and returns normally whatever the answer. *)
Theorem feedback_effects
        (cfg : Config) (svc : Inkeep.Service) (net : Network)
        (interactionId : string) (rating : Rating) (comment : option string)
        (w : World) :
  GovTS.processFeedback cfg svc net interactionId rating comment w
  = (Ok tt,
     if GovTS.shouldUseInkeep cfg
     then requested (Inkeep.POST svc "compliance-audit-graph"
                       (Inkeep.feedback_message interactionId rating comment)) w
     else w).
Proof.
  unfold GovTS.processFeedback, try_catch.
  destruct (GovTS.shouldUseInkeep cfg); [|reflexivity].
  unfold bind at 1. unfold Inkeep.processFeedback.
  rewrite (remote_call_eq (fun _ => Inkeep.mkFeedbackResult true true) net _ w true).
  by destruct (remote_outcome _ _).
Qed.

(** X24.  [getGovernanceInsights] of governanceService.ts returns the
    fixed legacy figures without sending anything in legacy mode.  With
    the remote backend in use it sends one request and, unlike
    [processFeedback], lets a failure of the call reach the caller; when
    the call succeeds, the figures it returns are the same whatever the
    reply and the timeframe say. *)
Theorem insights_fixed_or_failing
        (cfg : Config) (svc : Inkeep.Service) (net : Network)
        (timeframe : string) (w : World) :
  let q := Inkeep.POST svc "compliance-audit-graph" (Inkeep.insights_message timeframe) in
  GovTS.getGovernanceInsights cfg svc net timeframe w
  = (if GovTS.shouldUseInkeep cfg
     then (match remote_outcome (fun _ => tt) (net q) with
           | Ok _ => Ok (Inkeep.parseInsightsResponse ("", ""))
           | Throw e => Throw e
           end, requested q w)
     else (Ok GovTS.mock_insights, w)).
Proof.
  cbn zeta. unfold GovTS.getGovernanceInsights, try_catch.
  destruct (GovTS.shouldUseInkeep cfg); [|reflexivity].
  unfold Inkeep.getGovernanceInsights.
  rewrite (remote_call_eq Inkeep.parseInsightsResponse net _ w true).
  destruct (net _) as [e|st [e|content message]]; cbn [remote_outcome];
    try reflexivity;
    destruct ((200 <=? st)%nat && (st <=? 299)%nat); reflexivity.
Qed.

(** X25.  GET /api/governance/insights answers 500 exactly when the
    remote backend is in use and its call fails; in legacy mode it
    answers the totals 0, 0, 0 and "100%" without sending anything.  It
    never throws and never changes the configuration. *)
Theorem insights_endpoint_replies
        (svc : Inkeep.Service) (net : Network) (timeframe : option string)
        (cfg : Config) (w : World) :
  let tf := default "today" timeframe in
  let q := Inkeep.POST svc "compliance-audit-graph"
             ("Provide governance insights for " +:+ tf +:+ ".") in
  Api.insights svc net timeframe (cfg, w)
  = if useInkeepAgents cfg && inkeepAvailable cfg
    then (Ok (match remote_outcome (fun r => GovJS.Raw (fst r) (snd r)) (net q) with
              | Ok found => Api.InsightsOk found tf
              | Throw _ => Api.InsightsError "Failed to get governance insights"
              end), (cfg, requested q w))
    else (Ok (Api.InsightsOk (GovJS.Totals 0 0 0 "100%") tf), (cfg, w)).
Proof.
  cbn zeta. unfold Api.insights, try_catch.
  unfold bind at 1. unfold get. unfold bind at 1. unfold onService. cbn [fst snd].
  unfold GovJS.getGovernanceInsights.
  destruct (useInkeepAgents cfg && inkeepAvailable cfg); [|reflexivity].
  unfold bind at 1. unfold Inkeep.JS.getGovernanceInsights.
  rewrite (remote_call_eq (fun r => r) net _ w false).
  destruct (net _) as [e|st [e|content message]]; cbn [remote_outcome];
    try reflexivity;
    destruct ((200 <=? st)%nat && (st <=? 299)%nat); reflexivity.
Qed.

(** ** The social-security pattern *)

Lemma dash_only d :
  String.length d = 1 -> string_forall (Re.lit "-") d = true -> d = "-".
Proof.
  destruct d as [|c [|c' d]]; try discriminate. intros _ H.
  cbn [string_forall] in H. rewrite andb_true_r in H.
  unfold Re.lit in H. apply Ascii.eqb_eq in H. by subst.
Qed.

Lemma last_char_digits d prev :
  string_forall isDigit d = true -> d <> "" ->
  Re.wordOpt (last_char prev d) = true.
Proof.
  intros Hall Hne.
  destruct (last_char_forall isDigit d prev Hall Hne) as (c & -> & Hc).
  cbn. by apply isDigit_isWord.
Qed.

Lemma first_char_digits d rest :
  string_forall isDigit d = true -> d <> "" ->
  Re.wordOpt (first_char (d +:+ rest)) = true.
Proof.
  intros Hall Hne. destruct d as [|c d]; [done|].
  cbn [string_forall] in Hall. apply andb_prop in Hall as [Hc _].
  change (first_char (String c d +:+ rest)) with (Some c).
  cbn. by apply isDigit_isWord.
Qed.

(** X26.  The pattern /\b\d{3}-\d{2}-\d{4}\b/ of the detector matches a
    text exactly when the text holds three digits, a dash, two digits, a
    dash and four digits in a row, standing between two non-word
    positions. *)
Theorem ssn_pattern_matches_exactly (text : string) :
  Re.test Server.re_ssn text = true <->
  exists pre a b c post,
    text = pre +:+ a +:+ "-" +:+ b +:+ "-" +:+ c +:+ post /\
    (String.length a = 3 /\ String.length b = 2 /\ String.length c = 4) /\
    (string_forall isDigit a = true /\ string_forall isDigit b = true /\
     string_forall isDigit c = true) /\
    Re.wordOpt (last_char None pre) = false /\
    Re.wordOpt (first_char post) = false.
Proof.
  split.
  - unfold Re.test. intros H.
    apply searchFrom_found in H as (pre & rest & -> & Hm).
    unfold Server.re_ssn, Re.matchHere in Hm. cbn [foldr Re.matchAtom] in Hm.
    apply andb_prop in Hm as [Hb Hrep].
    apply rep_inv in Hrep as (a & r1 & -> & Ha & Haa & Hk).
    apply rep_inv in Hk as (d1 & r2 & -> & Hd1 & Hd1a & Hk).
    apply rep_inv in Hk as (b & r3 & -> & Hb2 & Hba & Hk).
    apply rep_inv in Hk as (d2 & r4 & -> & Hd2 & Hd2a & Hk).
    apply rep_inv in Hk as (c & post & -> & Hc & Hca & Hk).
    apply andb_prop in Hk as [Hb' _].
    rewrite (dash_only d1 Hd1 Hd1a), (dash_only d2 Hd2 Hd2a) in *.
    assert (Hane : a <> "") by (intros ->; discriminate).
    assert (Hcne : c <> "") by (intros ->; discriminate).
    exists pre, a, b, c, post. repeat split; try done.
    + unfold Re.atBoundary in Hb.
      rewrite (first_char_digits a _ Haa Hane) in Hb.
      by destruct (Re.wordOpt (last_char None pre)).
    + unfold Re.atBoundary in Hb'.
      rewrite (last_char_digits c _ Hca Hcne) in Hb'.
      by destruct (Re.wordOpt (first_char post)).
  - intros (pre & a & b & c & post & -> & (Ha & Hb & Hc) & (Haa & Hba & Hca)
            & Hpre & Hpost).
    assert (Hane : a <> "") by (intros ->; discriminate).
    assert (Hcne : c <> "") by (intros ->; discriminate).
    unfold Re.test. apply searchFrom_skip.
    unfold Server.re_ssn, Re.matchHere. cbn [foldr Re.matchAtom].
    unfold Re.atBoundary at 1.
    rewrite Hpre, (first_char_digits a _ Haa Hane). cbn [xorb andb].
    rewrite (rep_consumes _ _ a 3 _ _ Ha Haa). cbn [Re.matchAtom].
    rewrite (rep_consumes (Re.lit "-") _ "-" 1 _ _ eq_refl eq_refl).
    cbn [Re.matchAtom].
    rewrite (rep_consumes _ _ b 2 _ _ Hb Hba). cbn [Re.matchAtom].
    rewrite (rep_consumes (Re.lit "-") _ "-" 1 _ _ eq_refl eq_refl).
    cbn [Re.matchAtom].
    rewrite (rep_consumes _ _ c 4 _ _ Hc Hca). cbn [Re.matchAtom].
    unfold Re.atBoundary. rewrite Hpost, (last_char_digits c _ Hca Hcne).
    reflexivity.
Qed.

Lemma ssn_pattern_matches_exactly_witness :
  Re.test Server.re_ssn "my ssn: 123-45-6789!" = true.
Proof.
  apply ssn_pattern_matches_exactly.
  exists "my ssn: ", "123", "45", "6789", "!". repeat split.
Defined.

(* ===================================================================== *)
(** * The detector of server.js against the text it reads *)

(** ** Characters and positions *)

Lemma among_digit c : among digit_chars c = isDigit c.
Proof. destruct c as [[] [] [] [] [] [] [] []]; reflexivity. Qed.

Lemma among_word c : among word_chars c = isWord c.
Proof. destruct c as [[] [] [] [] [] [] [] []]; reflexivity. Qed.

Lemma among_local c : among local_chars c = (isAlnum c || Re.oneOf "._%+-" c).
Proof. destruct c as [[] [] [] [] [] [] [] []]; reflexivity. Qed.

Lemma among_domain c : among domain_chars c = (isAlnum c || Re.oneOf ".-" c).
Proof. destruct c as [[] [] [] [] [] [] [] []]; reflexivity. Qed.

Lemma among_tld c : among tld_chars c = (isUpper c || isLower c || Re.lit "|" c).
Proof. destruct c as [[] [] [] [] [] [] [] []]; reflexivity. Qed.

Lemma wordish_wordOpt side : wordish side = Re.wordOpt side.
Proof. destruct side as [c|]; [apply among_word | reflexivity]. Qed.

Lemma string_forall_ext p q s :
  (forall c, p c = q c) -> string_forall p s = string_forall q s.
Proof.
  intros E. induction s as [|c s IH]; [reflexivity|].
  cbn [string_forall]. by rewrite E, IH.
Qed.

Lemma string_forall_app p a : forall b,
  string_forall p (a +:+ b) = string_forall p a && string_forall p b.
Proof.
  induction a as [|c a IH]; intros b; [reflexivity|].
  change (String c a +:+ b) with (String c (a +:+ b)).
  cbn [string_forall]. by rewrite IH, andb_assoc.
Qed.

Lemma length_app a : forall b,
  String.length (a +:+ b) = String.length a + String.length b.
Proof.
  induction a as [|c a IH]; intros b; [reflexivity|].
  change (String c a +:+ b) with (String c (a +:+ b)).
  cbn [String.length]. by rewrite IH.
Qed.

Lemma last_char_app a : forall prev b,
  last_char prev (a +:+ b) = last_char (last_char prev a) b.
Proof.
  induction a as [|c a IH]; intros prev b; [reflexivity|].
  change (String c a +:+ b) with (String c (a +:+ b)).
  cbn [last_char]. apply IH.
Qed.

Lemma last_char_nonempty d prev prev' :
  d <> "" -> last_char prev d = last_char prev' d.
Proof. destruct d as [|c d]; [done | reflexivity]. Qed.

Lemma first_char_app d rest :
  d <> "" -> first_char (d +:+ rest) = first_char d.
Proof. destruct d as [|c d]; [done | reflexivity]. Qed.

Lemma nonempty_length d : 1 <= String.length d -> d <> "".
Proof. destruct d; cbn; [lia | done]. Qed.

(** ** Phrases *)

Lemma startsWith_iff pat : forall s,
  startsWith pat s = true <-> exists after, s = pat +:+ after.
Proof.
  induction pat as [|c pat IH]; intros s.
  - split; [by exists s | by destruct s].
  - destruct s as [|d s].
    + split; [discriminate | by intros (after & ?)].
    + cbn [startsWith]. rewrite andb_true_iff, IH. split.
      * intros [Hc (after & ->)]. apply Ascii.eqb_eq in Hc as ->. by exists after.
      * intros (after & E).
        change (String c pat +:+ after) with (String c (pat +:+ after)) in E.
        injection E as -> ->. split; [apply Ascii.eqb_refl | by exists after].
Qed.

Lemma includes_iff pat : forall text,
  includes text pat = true <-> occurs pat text.
Proof.
  unfold occurs. induction text as [|c text IH].
  - cbn [includes]. rewrite orb_false_r, startsWith_iff. split.
    + intros (after & E). by exists "", after.
    + intros ([|b before] & after & E); [by exists after | discriminate E].
  - cbn [includes]. rewrite orb_true_iff, startsWith_iff, IH. split.
    + intros [(after & E) | (before & after & ->)].
      * by exists "", after.
      * by exists (String c before), after.
    + intros ([|b before] & after & E).
      * left. by exists after.
      * right. change (String b before +:+ pat +:+ after)
          with (String b (before +:+ pat +:+ after)) in E.
        injection E as -> ->. by exists before, after.
Qed.

Lemma existsb_includes_iff (patterns : list string) text :
  existsb (fun pattern => includes text pattern) patterns = true <->
  some_occurs patterns text.
Proof.
  unfold some_occurs. rewrite existsb_exists.
  split; intros (pat & Hin & H); exists pat; (split; [exact Hin|]);
    by apply includes_iff.
Qed.

(** ** Repetitions *)

Lemma many_inv p k : forall s prev,
  Re.many p k prev s = true ->
  exists d rest,
    s = d +:+ rest /\ string_forall p d = true /\ k (last_char prev d) rest = true.
Proof.
  induction s as [|c s IH]; intros prev H; cbn [Re.many] in H.
  - rewrite orb_false_r in H. by exists "", "".
  - apply orb_prop in H as [H | H]; [by exists "", (String c s)|].
    apply andb_prop in H as [Hc H].
    destruct (IH (Some c) H) as (d & rest & -> & Hall & Hk).
    exists (String c d), rest. repeat split; [|exact Hk].
    cbn [string_forall]. by rewrite Hc, Hall.
Qed.

Lemma many_intro p k d : forall prev rest,
  string_forall p d = true -> k (last_char prev d) rest = true ->
  Re.many p k prev (d +:+ rest) = true.
Proof.
  induction d as [|c d IH]; intros prev rest Hall Hk.
  - change ("" +:+ rest) with rest. cbn [last_char] in Hk.
    destruct rest; cbn [Re.many]; by rewrite Hk.
  - change (String c d +:+ rest) with (String c (d +:+ rest)).
    cbn [string_forall] in Hall. apply andb_prop in Hall as [Hc Hall].
    cbn [Re.many]. rewrite Hc, (IH (Some c) rest Hall Hk). apply orb_true_r.
Qed.

Lemma split_at n : forall d,
  n <= String.length d ->
  exists d1 d2, d = d1 +:+ d2 /\ String.length d1 = n.
Proof.
  induction n as [|n IH]; intros d H; [by exists "", d|].
  destruct d as [|c d]; [cbn in H; lia|]. cbn in H.
  destruct (IH d ltac:(lia)) as (d1 & d2 & -> & Hlen).
  exists (String c d1), d2. split; [reflexivity | cbn; by rewrite Hlen].
Qed.

(** [class{n,}] takes n characters of the class or more. *)
Lemma atLeast_iff p k n prev s :
  Re.rep p (Re.many p k) n prev s = true <->
  exists d rest,
    s = d +:+ rest /\ n <= String.length d /\ string_forall p d = true /\
    k (last_char prev d) rest = true.
Proof.
  split.
  - intros H. apply rep_inv in H as (d1 & r1 & -> & Hlen & Hall1 & H).
    apply many_inv in H as (d2 & rest & -> & Hall2 & Hk).
    exists (d1 +:+ d2), rest. repeat split.
    + by rewrite append_assoc.
    + rewrite length_app. lia.
    + by rewrite string_forall_app, Hall1, Hall2.
    + by rewrite last_char_app.
  - intros (d & rest & -> & Hlen & Hall & Hk).
    destruct (split_at n d Hlen) as (d1 & d2 & -> & Hlen1).
    rewrite string_forall_app in Hall. apply andb_prop in Hall as [Hall1 Hall2].
    rewrite append_assoc, (rep_consumes _ _ d1 n prev _ Hlen1 Hall1).
    apply many_intro; [exact Hall2|]. by rewrite <- last_char_app.
Qed.

Lemma lit_only ch d :
  String.length d = 1 -> string_forall (Re.lit ch) d = true ->
  d = String ch "".
Proof.
  destruct d as [|c [|c' d]]; try discriminate. intros _ H.
  cbn [string_forall] in H. rewrite andb_true_r in H.
  unfold Re.lit in H. apply Ascii.eqb_eq in H. by subst.
Qed.

Lemma atBoundary_iff prev s :
  Re.atBoundary prev s = true <-> wordish prev <> wordish (first_char s).
Proof.
  unfold Re.atBoundary. rewrite !wordish_wordOpt.
  destruct (Re.wordOpt prev), (Re.wordOpt (first_char s)); cbn; split; done.
Qed.

(** ** The three patterns *)

Lemma digits_among d :
  string_forall (among digit_chars) d = string_forall isDigit d.
Proof. apply string_forall_ext, among_digit. Qed.

Lemma re_card_iff text :
  Re.test Server.re_card text = true <-> has_card text.
Proof.
  unfold has_card. split.
  - unfold Re.test. intros H.
    apply searchFrom_found in H as (pre & rest & -> & Hm).
    unfold Server.re_card, Re.matchHere in Hm. cbn [foldr Re.matchAtom] in Hm.
    apply andb_prop in Hm as [Hb Hrep].
    apply rep_inv in Hrep as (d & post & -> & Hlen & Hall & Hk).
    apply andb_prop in Hk as [Hb' _].
    assert (Hne : d <> "") by (intros ->; discriminate).
    exists pre, d, post. rewrite digits_among, !wordish_wordOpt.
    repeat split; try done.
    + unfold Re.atBoundary in Hb.
      rewrite (first_char_digits d _ Hall Hne) in Hb.
      by destruct (Re.wordOpt (last_char None pre)).
    + unfold Re.atBoundary in Hb'.
      rewrite (last_char_digits d _ Hall Hne) in Hb'.
      by destruct (Re.wordOpt (first_char post)).
  - intros (pre & digits & post & -> & Hlen & Hall & Hpre & Hpost).
    rewrite digits_among in Hall. rewrite wordish_wordOpt in Hpre, Hpost.
    unfold Re.test. apply searchFrom_skip. by apply re_card_here.
Qed.

Lemma re_ssn_iff text :
  Re.test Server.re_ssn text = true <-> has_ssn text.
Proof.
  unfold has_ssn. split.
  - unfold Re.test. intros H.
    apply searchFrom_found in H as (pre & rest & -> & Hm).
    unfold Server.re_ssn, Re.matchHere in Hm. cbn [foldr Re.matchAtom] in Hm.
    apply andb_prop in Hm as [Hb Hrep].
    apply rep_inv in Hrep as (a & r1 & -> & Ha & Haa & Hk).
    apply rep_inv in Hk as (d1 & r2 & -> & Hd1 & Hd1a & Hk).
    apply rep_inv in Hk as (b & r3 & -> & Hb2 & Hba & Hk).
    apply rep_inv in Hk as (d2 & r4 & -> & Hd2 & Hd2a & Hk).
    apply rep_inv in Hk as (c & post & -> & Hc & Hca & Hk).
    apply andb_prop in Hk as [Hb' _].
    rewrite (lit_only "-" d1 Hd1 Hd1a), (lit_only "-" d2 Hd2 Hd2a) in *.
    assert (Hane : a <> "") by (intros ->; discriminate).
    assert (Hcne : c <> "") by (intros ->; discriminate).
    exists pre, a, b, c, post. rewrite !digits_among, !wordish_wordOpt.
    repeat split; try done.
    + unfold Re.atBoundary in Hb.
      rewrite (first_char_digits a _ Haa Hane) in Hb.
      by destruct (Re.wordOpt (last_char None pre)).
    + unfold Re.atBoundary in Hb'.
      rewrite (last_char_digits c _ Hca Hcne) in Hb'.
      by destruct (Re.wordOpt (first_char post)).
  - intros (pre & a & b & c & post & -> & (Ha & Hb & Hc) & (Haa & Hba & Hca)
            & Hpre & Hpost).
    rewrite digits_among in Haa, Hba, Hca. rewrite wordish_wordOpt in Hpre, Hpost.
    assert (Hane : a <> "") by (intros ->; discriminate).
    assert (Hcne : c <> "") by (intros ->; discriminate).
    unfold Re.test. apply searchFrom_skip.
    unfold Server.re_ssn, Re.matchHere. cbn [foldr Re.matchAtom].
    unfold Re.atBoundary at 1.
    rewrite Hpre, (first_char_digits a _ Haa Hane). cbn [xorb andb].
    rewrite (rep_consumes _ _ a 3 _ _ Ha Haa). cbn [Re.matchAtom].
    rewrite (rep_consumes (Re.lit "-") _ "-" 1 _ _ eq_refl eq_refl).
    cbn [Re.matchAtom].
    rewrite (rep_consumes _ _ b 2 _ _ Hb Hba). cbn [Re.matchAtom].
    rewrite (rep_consumes (Re.lit "-") _ "-" 1 _ _ eq_refl eq_refl).
    cbn [Re.matchAtom].
    rewrite (rep_consumes _ _ c 4 _ _ Hc Hca). cbn [Re.matchAtom].
    unfold Re.atBoundary. rewrite Hpost, (last_char_digits c _ Hca Hcne).
    reflexivity.
Qed.

Lemma re_email_iff text :
  Re.test Server.re_email text = true <-> has_email text.
Proof.
  unfold has_email, Re.test. split.
  - intros H.
    apply searchFrom_found in H as (pre & rest & -> & Hm).
    unfold Server.re_email, Re.matchHere in Hm. cbn [foldr Re.matchAtom] in Hm.
    apply andb_prop in Hm as [Hb Hm].
    apply atLeast_iff in Hm as (loc & r1 & -> & Hloc & Hlocall & Hm).
    apply rep_inv in Hm as (at1 & r2 & -> & Hat & Hatall & Hm).
    apply atLeast_iff in Hm as (domain & r3 & -> & Hdom & Hdomall & Hm).
    apply rep_inv in Hm as (dot & r4 & -> & Hdot & Hdotall & Hm).
    apply atLeast_iff in Hm as (tld & post & -> & Htld & Htldall & Hm).
    apply andb_prop in Hm as [Hb' _].
    rewrite (lit_only "@" at1 Hat Hatall), (lit_only "." dot Hdot Hdotall) in *.
    assert (Hlne : loc <> "") by (apply nonempty_length; lia).
    assert (Htne : tld <> "") by (apply nonempty_length; lia).
    exists pre, loc, domain, tld, post.
    rewrite (string_forall_ext _ _ loc among_local),
      (string_forall_ext _ _ domain among_domain),
      (string_forall_ext _ _ tld among_tld).
    repeat split; try done.
    + apply atBoundary_iff in Hb. by rewrite (first_char_app loc _ Hlne) in Hb.
    + apply atBoundary_iff in Hb'.
      by rewrite (last_char_nonempty tld _ None Htne) in Hb'.
  - intros (pre & loc & domain & tld & post & -> & (Hloc & Hlocall)
            & (Hdom & Hdomall) & (Htld & Htldall) & Hpre & Hpost).
    rewrite (string_forall_ext _ _ loc among_local) in Hlocall.
    rewrite (string_forall_ext _ _ domain among_domain) in Hdomall.
    rewrite (string_forall_ext _ _ tld among_tld) in Htldall.
    assert (Hlne : loc <> "") by (apply nonempty_length; lia).
    assert (Htne : tld <> "") by (apply nonempty_length; lia).
    apply searchFrom_skip.
    unfold Server.re_email, Re.matchHere. cbn [foldr Re.matchAtom].
    apply andb_true_intro. split.
    { apply atBoundary_iff. by rewrite (first_char_app loc _ Hlne). }
    apply atLeast_iff. exists loc, ("@" +:+ domain +:+ "." +:+ tld +:+ post).
    repeat split; try done. cbn [Re.matchAtom].
    rewrite (rep_consumes (Re.lit "@") _ "@" 1 _ _ eq_refl eq_refl).
    cbn [Re.matchAtom].
    apply atLeast_iff. exists domain, ("." +:+ tld +:+ post).
    repeat split; try done. cbn [Re.matchAtom].
    rewrite (rep_consumes (Re.lit ".") _ "." 1 _ _ eq_refl eq_refl).
    cbn [Re.matchAtom].
    apply atLeast_iff. exists tld, post.
    repeat split; try done. cbn [Re.matchAtom].
    apply andb_true_intro. split; [|reflexivity].
    apply atBoundary_iff. by rewrite (last_char_nonempty tld _ None Htne).
Qed.

Lemma hits_pii_iff text :
  Server.hits_pii text = true <-> has_ssn text \/ has_card text \/ has_email text.
Proof.
  unfold Server.hits_pii.
  rewrite !orb_true_iff, re_ssn_iff, re_card_iff, re_email_iff. tauto.
Qed.

(** ** Lower-casing *)

Lemma lowerChar_ascii c :
  nat_of_ascii c < 128 ->
  lowerChar c
  = if among capitals c then ascii_of_nat (nat_of_ascii c + 32) else c.
Proof.
  intros H. apply Nat.ltb_lt in H.
  destruct c as [[] [] [] [] [] [] [] []];
    first [reflexivity | vm_compute in H; discriminate H].
Qed.

Lemma get_toLowerCase s : forall n,
  String.get n (toLowerCase s) = option_map lowerChar (String.get n s).
Proof.
  induction s as [|c s IH]; intros n; [reflexivity|].
  cbn [toLowerCase String.get]. destruct n as [|n]; [reflexivity | apply IH].
Qed.

Lemma length_toLowerCase s : String.length (toLowerCase s) = String.length s.
Proof. induction s as [|c s IH]; [reflexivity|]. cbn. by rewrite IH. Qed.

(** ** The contract of the detector *)

Lemma sublist_full {A} (l full : list A) :
  sublist l full -> length full <= length l -> l = full.
Proof.
  induction 1 as [|x l1 l2 Hsub IH|x l1 l2 Hsub IH]; cbn; intros Hlen.
  - reflexivity.
  - f_equal. apply IH. lia.
  - apply sublist_length in Hsub. lia.
Qed.

Lemma detection_order_NoDup : NoDup detection_order.
Proof.
  apply (NoDup_fmap_1 v_type). apply (bool_decide_unpack _). vm_compute. reflexivity.
Qed.

(** A sub-list of the six violations that holds them all is the list
    of the six. *)
Lemma detected_all (found : list Violation) :
  sublist found detection_order ->
  (forall v, In v detection_order -> In v found) ->
  found = detection_order.
Proof.
  intros Hsub Hall. apply sublist_full; [exact Hsub|].
  apply NoDup_incl_length; [apply NoDup_ListNoDup, detection_order_NoDup | exact Hall].
Qed.

Lemma detectViolations_sublist prompt response :
  sublist (Server.detectViolations prompt response) detection_order.
Proof.
  rewrite detectViolations_cases. cbn zeta. unfold detection_order.
  destruct (Server.hits_hacking _), (Server.hits_dataTheft _),
    (Server.hits_pii _), (Server.hits_harmful _), (Server.hits_bias _),
    (Server.hits_misinformation _); cbn [app];
    repeat first [ apply sublist_nil | apply sublist_skip | apply sublist_cons ].
Qed.

Lemma hits_bias_iff text :
  Server.hits_bias text = true <->
  some_occurs ["all women"; "all men"; "people of color are"; "white people are"] text.
Proof.
  rewrite <- existsb_includes_iff. unfold Server.hits_bias. cbn [existsb].
  rewrite orb_false_r, !orb_assoc. reflexivity.
Qed.

Lemma hits_misinformation_iff text :
  Server.hits_misinformation text = true <->
  some_occurs ["vaccines cause autism"; "covid is fake"; "climate change is a hoax"] text.
Proof.
  rewrite <- existsb_includes_iff. unfold Server.hits_misinformation. cbn [existsb].
  rewrite orb_false_r, !orb_assoc. reflexivity.
Qed.

Lemma hits_hacking_iff text :
  Server.hits_hacking text = true <-> some_occurs Server.hackingPatterns text.
Proof.
  rewrite <- existsb_includes_iff. unfold Server.hits_hacking.
  by rewrite truthy_find.
Qed.

Lemma hits_dataTheft_iff text :
  Server.hits_dataTheft text = true <-> some_occurs Server.dataTheftPatterns text.
Proof.
  rewrite <- existsb_includes_iff. unfold Server.hits_dataTheft.
  by rewrite truthy_find.
Qed.

Lemma hits_harmful_iff text :
  Server.hits_harmful text = true <-> some_occurs Server.harmfulPatterns text.
Proof.
  rewrite <- existsb_includes_iff. unfold Server.hits_harmful.
  by rewrite truthy_find.
Qed.

Lemma at_most_one_per_category (found : list Violation) category :
  NoDup (map v_type found) -> length (of_category category found) <= 1.
Proof.
  intros Hnd. unfold of_category.
  induction found as [|v vs IH]; simpl; [lia|].
  apply NoDup_cons in Hnd as [Hv Hvs]. specialize (IH Hvs).
  destruct (String.eqb (v_type v) category) eqn:Ev; [|exact IH].
  apply String.eqb_eq in Ev. subst category.
  assert (List.filter (fun w => String.eqb (v_type w) (v_type v)) vs = []) as ->.
  { clear IH Hvs. induction vs as [|w ws IHw]; [reflexivity|]. simpl.
    destruct (String.eqb (v_type w) (v_type v)) eqn:Ew.
    - apply String.eqb_eq in Ew. exfalso. apply Hv. simpl. rewrite Ew. left.
    - apply IHw. intros Hin. apply Hv. simpl. by right. }
  simpl. lia.
Qed.

(** C4.  The local detector reads the text [prompt + " " + response]
    lower-cased: the text keeps its length, and every ASCII capital
    stands as its small letter, every other ASCII character as itself.
    A violation is found exactly when its category is due on that text:
    illegal_activity, data_theft and harmful_content when a phrase of
    the category's list stands in the text; pii when the text holds
    ddd-dd-dddd or sixteen digits between non-word positions, or an
    address local@domain.tld; bias and misinformation when one of their
    four and three phrases stands in the text.  The violations found
    are a sub-list of the six fixed violations in detection order, so
    no category is found twice however many of its triggers match, and
    each carries the constants of its category, with the severities
    9.5, 9.0, 8.5, 9.0, 6.5 and 7.0; a text on which no category is due
    gives the empty list.  The detector is a total function: it
    returns a list on every input. *)
Theorem detector_contract (prompt response : string) :
  let text := toLowerCase (prompt +:+ " " +:+ response) in
  let found := Server.detectViolations prompt response in
  (String.length text = String.length prompt + 1 + String.length response /\
   forall n c,
     String.get n (prompt +:+ " " +:+ response) = Some c ->
     nat_of_ascii c < 128 ->
     String.get n text
     = Some (if among capitals c then ascii_of_nat (nat_of_ascii c + 32) else c)) /\
  (forall v,
     In v found <->
     (v = Server.illegal_activity /\ some_occurs Server.hackingPatterns text) \/
     (v = Server.data_theft /\ some_occurs Server.dataTheftPatterns text) \/
     (v = Server.pii /\ (has_ssn text \/ has_card text \/ has_email text)) \/
     (v = Server.harmful_content /\ some_occurs Server.harmfulPatterns text) \/
     (v = Server.bias /\
      some_occurs ["all women"; "all men"; "people of color are";
                   "white people are"] text) \/
     (v = Server.misinformation /\
      some_occurs ["vaccines cause autism"; "covid is fake";
                   "climate change is a hoax"] text)) /\
  sublist found detection_order /\
  (map v_type detection_order
   = ["illegal_activity"; "data_theft"; "pii"; "harmful_content"; "bias";
      "misinformation"] /\
   Forall2 (fun v s => (v_severity v == s)%Q) detection_order
           [9.5; 9.0; 8.5; 9.0; 6.5; 7.0]%Q) /\
  found = flat_map (emit text) scanners /\
  NoDup (map v_type found) /\
  (forall category, length (of_category category found) <= 1) /\
  Forall (fun v => fixed_severity (v_type v) = Some (v_severity v)) found /\
  (Server.hits_hacking text = existsb (includes text) Server.hackingPatterns /\
   Server.hits_dataTheft text = existsb (includes text) Server.dataTheftPatterns /\
   Server.hits_harmful text = existsb (includes text) Server.harmfulPatterns) /\
  (clean prompt response -> found = []).
Proof.
  cbn zeta. fold (Server.scanned prompt response).
  pose proof (detectViolations_cases prompt response) as E. cbn zeta in E.
  pose proof (emit_cases
                (Server.hits_hacking (Server.scanned prompt response))
                (Server.hits_dataTheft (Server.scanned prompt response))
                (Server.hits_pii (Server.scanned prompt response))
                (Server.hits_harmful (Server.scanned prompt response))
                (Server.hits_bias (Server.scanned prompt response))
                (Server.hits_misinformation (Server.scanned prompt response)))
    as (Hnd & Hsev & _). cbn zeta in Hnd, Hsev. rewrite <- E in Hnd, Hsev.
  split.
  { unfold Server.scanned. split.
    - rewrite length_toLowerCase, !length_app. cbn. lia.
    - intros n c Hget Hc. rewrite get_toLowerCase, Hget. cbn [option_map].
      by rewrite (lowerChar_ascii c Hc). }
  split.
  { intros v. rewrite (In_detected v prompt response). cbn zeta.
    rewrite hits_hacking_iff, hits_dataTheft_iff, hits_pii_iff,
      hits_harmful_iff, hits_bias_iff, hits_misinformation_iff.
    tauto. }
  split; [apply detectViolations_sublist|].
  split.
  { split; [reflexivity|]. repeat constructor. }
  split; [apply detectViolations_emit|].
  split; [exact Hnd|].
  split; [intros category; by apply at_most_one_per_category|].
  split; [exact Hsev|].
  split.
  { unfold Server.hits_hacking, Server.hits_dataTheft, Server.hits_harmful.
    repeat split; apply truthy_find; reflexivity. }
  apply clean_detects_nothing.
Qed.

Lemma detector_contract_witness :
  Server.detectViolations
    "How To HACK INTO the Internal Database and KILL HIM?"
    "ALL MEN say COVID IS FAKE; mail Bob.Smith@Example.COM"
  = [ Server.illegal_activity; Server.data_theft; Server.pii;
      Server.harmful_content; Server.bias; Server.misinformation ].
Proof.
  destruct (detector_contract
              "How To HACK INTO the Internal Database and KILL HIM?"
              "ALL MEN say COVID IS FAKE; mail Bob.Smith@Example.COM")
    as (_ & Hin & Hsub & _).
  apply detected_all; [exact Hsub|].
  intros v Hv. apply Hin. unfold detection_order in Hv. cbn [In] in Hv.
  destruct Hv as [<- | [<- | [<- | [<- | [<- | [<- | []]]]]]].
  - left. split; [reflexivity|]. exists "hack into". split; [cbn; tauto|].
    by exists "how to ",
      " the internal database and kill him? all men say covid is fake; mail bob.smith@example.com".
  - right; left. split; [reflexivity|].
    exists "internal database". split; [cbn; tauto|].
    by exists "how to hack into the ",
      " and kill him? all men say covid is fake; mail bob.smith@example.com".
  - do 2 right; left. split; [reflexivity|]. do 2 right.
    exists "how to hack into the internal database and kill him? all men say covid is fake; mail ",
      "bob.smith", "example", "com", "".
    repeat split; cbn; (lia || done).
  - do 3 right; left. split; [reflexivity|].
    exists "kill him". split; [cbn; tauto|].
    by exists "how to hack into the internal database and ",
      "? all men say covid is fake; mail bob.smith@example.com".
  - do 4 right; left. split; [reflexivity|].
    exists "all men". split; [cbn; tauto|].
    by exists "how to hack into the internal database and kill him? ",
      " say covid is fake; mail bob.smith@example.com".
  - do 5 right. split; [reflexivity|].
    exists "covid is fake". split; [cbn; tauto|].
    by exists "how to hack into the internal database and kill him? all men say ",
      "; mail bob.smith@example.com".
Defined.

(** ** A card number in the text *)

Lemma Server_processInteraction_violations env prompt response :
  i_violations (Server.processInteraction env prompt response)
  = Server.detectViolations prompt response.
Proof.
  unfold Server.processInteraction, Server.resolveStatus.
  cbn [set_agentActions i_violations].
  repeat match goal with |- context [if ?c then _ else _] => destruct c end;
    reflexivity.
Qed.

(** C2 (as amended).  When the lower-cased text [prompt + " " +
    response] holds sixteen digits between two non-word positions, the
    detector of server.js finds exactly one violation of type pii, of
    severity 8.5, and [processInteraction] of server.js resolves the
    interaction to blocked, with severity critical.  This is the
    decision of server.js only: [determineFinalStatus] of
    governanceService.ts and the resolver of governanceService.js,
    whose blocked band starts at 9, resolve an interaction that holds
    this one violation to pending, with severity high. *)
Theorem card_number_is_blocked_by_server (env : Env) (prompt response : string) :
  has_card (toLowerCase (prompt +:+ " " +:+ response)) ->
  let interaction := Server.processInteraction env prompt response in
  let found := Server.detectViolations prompt response in
  i_violations interaction = found /\
  of_category "pii" found = [Server.pii] /\
  (v_type Server.pii = "pii" /\ (v_severity Server.pii == 8.5)%Q) /\
  i_status interaction = blocked /\
  i_severity interaction = critical /\
  (forall i, i_violations i = of_category "pii" found ->
             resolved (GovTS.determineFinalStatus i) = (pending, high) /\
             resolved (GovJS.finalizeStatus i) = (pending, high)).
Proof.
  intros Hcard. cbn zeta.
  assert (Hpii : Server.hits_pii (Server.scanned prompt response) = true).
  { apply hits_pii_iff. right; left. exact Hcard. }
  pose proof (Server_processInteraction_resolved env prompt response) as Hres.
  rewrite Server_processInteraction_violations.
  pose proof (detectViolations_cases prompt response) as E. cbn zeta in E.
  pose proof (emit_cases
                (Server.hits_hacking (Server.scanned prompt response))
                (Server.hits_dataTheft (Server.scanned prompt response))
                (Server.hits_pii (Server.scanned prompt response))
                (Server.hits_harmful (Server.scanned prompt response))
                (Server.hits_bias (Server.scanned prompt response))
                (Server.hits_misinformation (Server.scanned prompt response)))
    as (_ & _ & Hcat & Hblock). cbn zeta in Hcat, Hblock.
  rewrite <- E in Hcat, Hblock. rewrite Hpii in Hcat.
  rewrite Hpii, orb_true_r in Hblock.
  specialize (Hblock eq_refl). rewrite <- Hres in Hblock.
  unfold resolved in Hblock. injection Hblock as Hst Hsv.
  split; [reflexivity|]. split; [exact Hcat|]. split; [done|].
  split; [exact Hst|]. split; [exact Hsv|].
  intros i Hi.
  rewrite GovTS_determineFinalStatus_resolved, GovJS_finalizeStatus_resolved.
  rewrite Hi, Hcat. split; reflexivity.
Qed.

Lemma card_number_is_blocked_by_server_witness :
  let interaction :=
    Server.processInteraction (mkEnv 0 "r") "My CARD is" "4111111111111111, thanks" in
  i_violations interaction = [Server.pii] /\
  i_status interaction = blocked.
Proof.
  destruct (card_number_is_blocked_by_server (mkEnv 0 "r")
              "My CARD is" "4111111111111111, thanks")
    as (Hv & _ & _ & Hst & _).
  - exists "my card is ", "4111111111111111", ", thanks". repeat split.
  - split; [|exact Hst]. rewrite Hv. reflexivity.
Defined.

(** C2 (as stated) fails under [determineFinalStatus] of
    governanceService.ts, which the claim cites beside server.js: an
    interaction that holds the violations found for a card number is
    resolved to pending there, not to blocked, because its blocked band
    starts at 9 and the violation carries 8.5. *)
Lemma card_number_is_pending_under_determineFinalStatus :
  ~ (forall (prompt response : string) (i : Interaction),
       has_card (toLowerCase (prompt +:+ " " +:+ response)) ->
       i_violations i = Server.detectViolations prompt response ->
       i_status (GovTS.determineFinalStatus i) = blocked).
Proof.
  intros H.
  specialize (H "my card is" "4111111111111111, thanks"
                (set_violations
                   (Server.detectViolations "my card is" "4111111111111111, thanks")
                   (fresh (mkEnv 0 "r") "my card is" "4111111111111111, thanks"))).
  assert (Hp : i_status
                 (GovTS.determineFinalStatus
                    (set_violations
                       (Server.detectViolations "my card is" "4111111111111111, thanks")
                       (fresh (mkEnv 0 "r") "my card is" "4111111111111111, thanks")))
               = pending) by reflexivity.
  rewrite Hp in H. discriminate H.
  - exists "my card is ", "4111111111111111", ", thanks". repeat split.
  - reflexivity.
Qed.
